(** * Feature-interpretation pipeline of [shared/interp.py]

    A shallow embedding of [run_interp_pipeline]: the construction of
    the feature-activation registry, its optional truncation, the
    per-feature selection of evidence samples, the calls to the
    interpretation service and the emission of [Feature] records.

    Numbers.  Activations, scores, confidence and density are floats in
    the source.  They are embedded as rationals [Q]: every finite float
    is a rational, the pipeline only compares activations (sort key,
    [== 0], [!= 0]) and forms one difference and one quotient.  Numeric
    equality is [Qeq] (written [==]); rounding of the quotient and of
    the difference, NaN and infinities are outside the model.

    Effects.  The interpretation service, the random generator of
    [np.random] and the caller's handler are collaborators outside the
    file; they are functions on an abstract world [W].  What the
    pipeline does to them is recorded as a list of [Event]s. *)

From Stdlib Require Import String Ascii DecimalString.
From Stdlib Require Import List ZArith QArith Qabs Bool Arith.
From Stdlib Require Import Permutation Sorted Lia Lqa.
Import ListNotations.

Local Open Scope nat_scope.
Local Open Scope list_scope.

(** ** Data model *)

(** [shared.features.FeatureSample]: a sentence and one feature's
    activation on it. *)
Record FeatureSample := mkSample { text : string; act : Q }.

(** [shared.features.Feature], built at lines 124-133. *)
Record Feature := mkFeature {
  index : nat;
  label : string;
  attributes : list string;
  reasoning : string;
  confidence : Q;
  density : Q;
  high_act_samples : list FeatureSample;
  low_act_samples : list FeatureSample
}.

Definition Embedding := list Q.
Definition Reconstruction := list Q.
Definition SparseCode := list Q.

(** The model: [sae.forward(x)] returns the pair (reconstruction,
    sparse code); it has no state besides its frozen parameters. *)
Record SparseAutoencoder := { forward : Embedding -> Reconstruction * SparseCode }.

(** A row of the registry holds one feature's activation on every
    sample; the registry is indexed [feature][sample]. *)
Definition Registry := list (list Q).

(** ** Exceptions

    Instances of Python's [Exception], the class that the [except]
    clause of line 120 intercepts. *)
Inductive exn :=
| ValueError (msg : string)
| IndexError (msg : string)
| KeyError (key : string)
| ZeroDivisionError (msg : string)
| ServiceError (msg : string).

Definition str_exn (e : exn) : string :=
  match e with
  | ValueError m | IndexError m | ZeroDivisionError m | ServiceError m => m
  | KeyError k => ("'" ++ k ++ "'")%string
  end.

(** ** Responses of the interpretation service

    The service answers with dictionaries; a key that is missing makes
    the subscript raise [KeyError]. *)
Record InterpretationResponse := {
  resp_label : option string;
  resp_reasoning : option string;
  resp_attributes : option (list string)
}.

Record ScoreResponse := { resp_percent : option Q }.

(** ** Observable events of a run *)
Inductive Event :=
| Request_interpretation (high low : list FeatureSample)
| Request_score (samples : list FeatureSample) (attrs : list string)
| Printed (line : string)
| Handled (f : Feature).

(** ** Python and numpy primitives *)
Module Py.

(** [l[:stop]] for an integer [stop]: a negative bound counts from
    the end, and the bound is clipped to the length. *)
Definition slice_stop {A} (stop : Z) (l : list A) : list A :=
  let len := Z.of_nat (length l) in
  let s := if (stop <? 0)%Z then Z.max 0 (stop + len) else Z.min stop len in
  firstn (Z.to_nat s) l.

(** [l[i] = x] on an index in range. *)
Fixpoint update_nth {A} (i : nat) (x : A) (l : list A) : list A :=
  match l, i with
  | [], _ => []
  | _ :: t, O => x :: t
  | y :: t, S j => y :: update_nth j x t
  end.

(** [int / int], Python's true division. *)
Definition truediv (a b : nat) : exn + Q :=
  match b with
  | O => inl (ZeroDivisionError "division by zero")
  | S _ => inr (Z.of_nat a # Pos.of_nat b)
  end.

Definition is_zero (a : Q) : bool := Qeq_bool a 0.
Definition nonzero (a : Q) : bool := negb (Qeq_bool a 0).

(** [np.count_nonzero(row)] *)
Definition count_nonzero (row : list Q) : nat := length (filter nonzero row).

(** [np.zeros((r, c))]; a negative dimension is rejected. *)
Definition np_zeros (r : Z) (c : nat) : exn + Registry :=
  if (r <? 0)%Z then inl (ValueError "negative dimensions are not allowed")
  else inr (repeat (repeat 0%Q c) (Z.to_nat r)).

(** [reg[:, i] = v] for a one-dimensional [v]: the column is written
    element by element when [v] has one entry per row, a single entry
    is broadcast to every row, any other length is refused. *)
Definition set_column (i : nat) (v : list Q) (reg : Registry) : exn + Registry :=
  if length v =? length reg then
    inr (map (fun rx => update_nth i (snd rx) (fst rx)) (combine reg v))
  else if length v =? 1 then
    inr (map (fun row => update_nth i (hd 0%Q v) row) reg)
  else inl (ValueError "could not broadcast input array").

(** [samples.sort(key=lambda x: x.act, reverse=True)].  Python's sort
    is stable, also with [reverse=True]: samples with equal activation
    keep their order.  A stable sort is determined by its key, so the
    insertion sort below computes the same list. *)
Fixpoint insert_desc (x : FeatureSample) (l : list FeatureSample) : list FeatureSample :=
  match l with
  | [] => [x]
  | y :: t =>
      if Qle_bool (act y) (act x) then x :: y :: t
      else y :: insert_desc x t
  end.

Definition sort_desc (l : list FeatureSample) : list FeatureSample :=
  fold_right insert_desc [] l.

(** Removal of the element at position [j]. *)
Fixpoint remove_nth {A} (j : nat) (l : list A) : list A :=
  match l, j with
  | [], _ => []
  | _ :: t, O => t
  | y :: t, S k => y :: remove_nth k t
  end.

End Py.

(** ** The effect monad: world, events, exceptions *)
Section Monad.
Context {W : Type}.

Definition M (A : Type) : Type := W -> W * list Event * (exn + A).

Definition ret {A} (a : A) : M A := fun w => (w, [], inr a).

Definition raise {A} (e : exn) : M A := fun w => (w, [], inl e).

Definition bind {A B} (m : M A) (k : A -> M B) : M B :=
  fun w =>
    match m w with
    | (w1, ev1, inl e) => (w1, ev1, inl e)
    | (w1, ev1, inr a) =>
        match k a w1 with
        | (w2, ev2, r) => (w2, ev1 ++ ev2, r)
        end
    end.

(** [try: m  except Exception as e: h e] *)
Definition try_except {A} (m : M A) (h : exn -> M A) : M A :=
  fun w =>
    match m w with
    | (w1, ev1, inl e) =>
        match h e w1 with
        | (w2, ev2, r) => (w2, ev1 ++ ev2, r)
        end
    | (w1, ev1, inr a) => (w1, ev1, inr a)
    end.

Definition emit (ev : Event) : M unit := fun w => (w, [ev], inr tt).

(** A pure computation that may raise. *)
Definition lift {A} (r : exn + A) : M A := fun w => (w, [], r).

(** A call to a collaborator. *)
Definition call {A} (f : W -> W * (exn + A)) : M A :=
  fun w => let '(w1, r) := f w in (w1, [], r).

End Monad.

Notation "x <- m ;; k" := (bind m (fun x => k))
  (at level 61, m at next level, right associativity).
Notation "m ;;; k" := (bind m (fun _ => k))
  (at level 61, right associativity).

(** ** Collaborators *)

(** [shared.ai.OpenAIClient]: the interpretation call and the scoring
    call.  Each may change the world, and either answers or raises. *)
Record OpenAIClient (W : Type) := {
  get_interpretation :
    list FeatureSample -> list FeatureSample -> W -> W * (exn + InterpretationResponse);
  score_interpretation :
    list FeatureSample -> list string -> W -> W * (exn + ScoreResponse)
}.
Arguments get_interpretation {W}.
Arguments score_interpretation {W}.

(** The generator behind [np.random]: [rand n w] is a random draw for
    a range of [n] values; the pipeline reduces it modulo [n]. *)
Definition RandomState (W : Type) := nat -> W -> W * nat.

(** The caller's [handle_labelled_feature]. *)
Definition Handler (W : Type) := Feature -> W -> W * (exn + unit).

(** ** The pipeline *)
Section Pipeline.
Context {W : Type}.
Variable ai : OpenAIClient W.
Variable rng : RandomState W.

(** *** Random choice without replacement

    [np.random.choice(a, size, replace=False)] takes the first [size]
    entries of a random permutation of the positions of [a].  The
    prefix of the permutation is drawn position by position from the
    positions that are left. *)
Fixpoint draw_indices (pool : list nat) (k : nat) (w : W) : W * list nat :=
  match k with
  | O => (w, [])
  | S k' =>
      match pool with
      | [] => (w, [])
      | p0 :: _ =>
          let '(w1, r) := rng (length pool) w in
          let j := r mod length pool in
          let '(w2, rest) := draw_indices (Py.remove_nth j pool) k' w1 in
          (w2, nth j pool p0 :: rest)
      end
  end.

Definition take_at {A} (a : list A) (idx : list nat) : list A :=
  flat_map (fun j => match nth_error a j with Some x => [x] | None => [] end) idx.

Definition np_random_choice {A} (a : list A) (size : nat) : M (W := W) (list A) :=
  if (length a =? 0) && negb (size =? 0) then
    raise (ValueError "'a' cannot be empty unless no samples are taken")
  else if length a <? size then
    raise (ValueError
      "Cannot take a larger sample than population when 'replace=False'")
  else
    fun w =>
      let '(w1, idx) := draw_indices (seq 0 (length a)) size w in
      (w1, [], inr (take_at a idx)).

(** *** The registry, lines 81-90 *)

(** The loop of lines 84-87, from sample [i] on. *)
Fixpoint fill_registry (sae : SparseAutoencoder) (embeddings : list Embedding)
         (i : nat) (reg : Registry) : exn + Registry :=
  match embeddings with
  | [] => inr reg
  | embedding :: rest =>
      let feature_activations := snd (forward sae embedding) in
      match Py.set_column i feature_activations reg with
      | inl e => inl e
      | inr reg' => fill_registry sae rest (S i) reg'
      end
  end.

Definition build_registry (sae : SparseAutoencoder) (embeddings : list Embedding)
           (n_feature_activations : Z) : exn + Registry :=
  let n := length embeddings in
  match Py.np_zeros n_feature_activations n with
  | inl e => inl e
  | inr feature_registry => fill_registry sae embeddings 0 feature_registry
  end.

(** Lines 89-90. *)
Definition truncate_registry (max_features : option Z) (reg : Registry) : Registry :=
  match max_features with
  | None => reg
  | Some m => Py.slice_stop m reg
  end.

(** *** One feature, lines 95-135 *)

(** Lines 95-98: [text_data[i]] raises [IndexError] past the end. *)
Fixpoint feature_samples_from (text_data : list string) (i : nat) (feature : list Q)
  : exn + list FeatureSample :=
  match feature with
  | [] => inr []
  | value :: rest =>
      match nth_error text_data i with
      | None => inl (IndexError "list index out of range")
      | Some t =>
          match feature_samples_from text_data (S i) rest with
          | inl e => inl e
          | inr l => inr (mkSample t value :: l)
          end
      end
  end.

(** Lines 101-103, on the sorted samples. *)
Definition high_evidence (feature_samples : list FeatureSample) : list FeatureSample :=
  filter (fun sample => Py.nonzero (act sample)) (firstn 50 feature_samples).

(** The population of line 105. *)
Definition zero_samples (feature_samples : list FeatureSample) : list FeatureSample :=
  filter (fun sample => Py.is_zero (act sample)) feature_samples.

(** Lines 95-106: the samples, sorted, and the two evidence sets. *)
Definition select_evidence (text_data : list string) (feature : list Q)
  : M (W := W) (list FeatureSample * list FeatureSample) :=
  feature_samples <- lift (feature_samples_from text_data 0 feature) ;;
  let feature_samples := Py.sort_desc feature_samples in
  let high_act_samples := high_evidence feature_samples in
  low_act_samples <- np_random_choice (zero_samples feature_samples) 50 ;;
  ret (high_act_samples, low_act_samples).

(** [d[key]] on a response. *)
Definition getitem {A} (key : string) (v : option A) : M (W := W) A :=
  match v with
  | Some a => ret a
  | None => raise (KeyError key)
  end.

(** What the [try] block of lines 109-119 binds. *)
Record Interpreted := {
  i_label : string;
  i_reasoning : string;
  i_attributes : list string;
  i_high_act_score : Q;
  i_low_act_score : Q
}.

(** The body of the [try] block, lines 109-119. *)
Definition interpret_and_score (high_act_samples low_act_samples : list FeatureSample)
  : M (W := W) Interpreted :=
  emit (Request_interpretation high_act_samples low_act_samples) ;;;
  interpetation <- call (get_interpretation ai high_act_samples low_act_samples) ;;
  label <- getitem "label" (resp_label interpetation) ;;
  reasoning <- getitem "reasoning" (resp_reasoning interpetation) ;;
  attributes <- getitem "attributes" (resp_attributes interpetation) ;;
  emit (Request_score high_act_samples attributes) ;;;
  hs <- call (score_interpretation ai high_act_samples attributes) ;;
  high_act_score <- getitem "percent" (resp_percent hs) ;;
  emit (Request_score low_act_samples attributes) ;;;
  ls <- call (score_interpretation ai low_act_samples attributes) ;;
  low_act_score <- getitem "percent" (resp_percent ls) ;;
  ret {| i_label := label; i_reasoning := reasoning; i_attributes := attributes;
         i_high_act_score := high_act_score; i_low_act_score := low_act_score |}.

Definition skip_prefix : string := "Skipping feature due to error: ".

(** Line 121. *)
Definition skip_message (e : exn) : string := (skip_prefix ++ str_exn e)%string.

(** The record of lines 124-133. *)
Definition labelled (index : nat) (r : Interpreted) (d : Q)
           (high_act_samples low_act_samples : list FeatureSample) : Feature :=
  {| index := index;
     label := i_label r;
     attributes := i_attributes r;
     reasoning := i_reasoning r;
     confidence := Qabs (i_high_act_score r - i_low_act_score r);
     density := d;
     high_act_samples := high_act_samples;
     low_act_samples := low_act_samples |}.

(** Line 130. *)
Definition row_density (feature : list Q) : exn + Q :=
  Py.truediv (Py.count_nonzero feature) (length feature).

(** The body of the loop of line 92.  The [except] clause prints and
    goes on to the next feature ([None]); otherwise the record is
    built and handed to the handler. *)
Definition process_feature (text_data : list string) (handler : Handler W)
           (index : nat) (feature : list Q) : M (W := W) unit :=
  evidence <- select_evidence text_data feature ;;
  let '(high_act_samples, low_act_samples) := evidence in
  outcome <- try_except
               (r <- interpret_and_score high_act_samples low_act_samples ;;
                ret (Some r))
               (fun e => emit (Printed (skip_message e)) ;;; ret None) ;;
  match outcome with
  | None => ret tt
  | Some r =>
      d <- lift (row_density feature) ;;
      let labelled_feature := labelled index r d high_act_samples low_act_samples in
      emit (Handled labelled_feature) ;;;
      call (handler labelled_feature)
  end.

(** [for index, feature in enumerate(rows)], counting from [index]. *)
Fixpoint for_enumerate (body : nat -> list Q -> M (W := W) unit)
         (index : nat) (rows : Registry) : M (W := W) unit :=
  match rows with
  | [] => ret tt
  | feature :: rest => body index feature ;;; for_enumerate body (S index) rest
  end.

Definition run_interp_pipeline (sae : SparseAutoencoder) (embeddings : list Embedding)
           (text_data : list string) (n_feature_activations : Z)
           (handle_labelled_feature : Handler W) (max_features : option Z)
  : M (W := W) unit :=
  feature_registry <- lift (build_registry sae embeddings n_feature_activations) ;;
  let feature_registry := truncate_registry max_features feature_registry in
  for_enumerate (process_feature text_data handle_labelled_feature) 0 feature_registry.

End Pipeline.

(** ** A fixed set of collaborators, for running the pipeline *)
Module Scenario.

(** The world counts the calls made to the collaborators. *)
Definition World := nat.

(** A model whose sparse code is the embedding itself. *)
Definition sae_id : SparseAutoencoder := {| forward := fun x => (x, x) |}.

Definition rng_counter : RandomState World := fun _ w => (S w, w).

Definition handler_ok : Handler World := fun _ w => (S w, inr tt).

(** A service that answers; the score of a sample set is its size. *)
Definition ai_ok : OpenAIClient World := {|
  get_interpretation := fun _ _ w =>
    (S w, inr {| resp_label := Some "label"%string;
                 resp_reasoning := Some "reasoning"%string;
                 resp_attributes := Some ["attribute"%string] |});
  score_interpretation := fun samples _ w =>
    (S w, inr {| resp_percent := Some (Z.of_nat (length samples) # 1) |})
|}.

(** A service whose scores do not depend on the samples. *)
Definition ai_flat : OpenAIClient World := {|
  get_interpretation := get_interpretation ai_ok;
  score_interpretation := fun _ _ w => (S w, inr {| resp_percent := Some (40 # 1) |})
|}.

(** A service that raises on every call. *)
Definition ai_down : OpenAIClient World := {|
  get_interpretation := fun _ _ w => (S w, inl (ServiceError "boom"));
  score_interpretation := fun _ _ w => (S w, inl (ServiceError "boom"))
|}.

(** A service whose interpretation lacks its attributes. *)
Definition ai_malformed : OpenAIClient World := {|
  get_interpretation := fun _ _ w =>
    (S w, inr {| resp_label := Some "label"%string;
                 resp_reasoning := Some "reasoning"%string;
                 resp_attributes := None |});
  score_interpretation := score_interpretation ai_ok
|}.

(** [n] sentences. *)
Definition texts (n : nat) : list string :=
  map (fun i => String (ascii_of_nat (48 + i)) EmptyString) (seq 0 n).

(** Fifty samples on which both features of a two-feature code are
    silent. *)
Definition embeddings_dead : list Embedding := repeat [0; 0]%Q 50.

(** Fifty-three samples; feature 0 fires on the first three. *)
Definition embeddings_live : list Embedding :=
  [ [3 # 1; 0]; [1 # 2; 0]; [7 # 1; 0] ]%Q ++ repeat [0; 0]%Q 50.

(** Scenario A of the specification: three samples, feature 0 fires
    on sample 0 only and feature 1 never. *)
Definition embeddings_small : list Embedding := [ [5 # 1; 0]; [0; 0]; [0; 0] ]%Q.
Definition texts_small : list string := ["a"; "b"; "c"]%string.

Definition start : World := 0.

End Scenario.

(** * The other routines

    The counting and ranking parts of the analysis routines of
    [shared/interp.py], and the sentence writer of
    [generating_datasets/chunk_dataset.py].  Plotting and the format of
    the printed numbers are outside the model. *)

Module Builtins.

(** [sorted(l, key=key, reverse=True)]: stable, descending by key. *)
Section Sorted.
Context {A : Type} (key : A -> Q).

Fixpoint insert_by (x : A) (l : list A) : list A :=
  match l with
  | [] => [x]
  | y :: t =>
      if Qle_bool (key y) (key x) then x :: y :: t
      else y :: insert_by x t
  end.

Definition sorted_desc (l : list A) : list A := fold_right insert_by [] l.

End Sorted.

(** [str(n)] for a non-negative integer. *)
Definition str_nat (n : nat) : string := NilEmpty.string_of_uint (Nat.to_uint n).

(** A [defaultdict(int)] with integer keys: the entries in the order in
    which their keys were first touched. *)
Definition DefaultDict := list (nat * nat).

(** [d[k] += 1]: a missing key is created with 0, at the end. *)
Fixpoint dd_incr (k : nat) (d : DefaultDict) : DefaultDict :=
  match d with
  | [] => [(k, 1)]
  | (k', c) :: t => if k' =? k then (k', S c) :: t else (k', c) :: dd_incr k t
  end.

(** [d.keys()], [d.values()] *)
Definition dd_keys (d : DefaultDict) : list nat := map fst d.
Definition dd_values (d : DefaultDict) : list nat := map snd d.

(** [d.get(k)]: a read that does not create the key. *)
Definition dd_get (k : nat) (d : DefaultDict) : option nat :=
  match find (fun kc => fst kc =? k) d with
  | Some kc => Some (snd kc)
  | None => None
  end.

(** [torch.nonzero(v, as_tuple=True)[0]]: the positions of the non-zero
    entries of a vector, ascending, counted from [i]. *)
Fixpoint nonzero_from (i : nat) (v : list Q) : list nat :=
  match v with
  | [] => []
  | a :: t =>
      if Py.nonzero a then i :: nonzero_from (S i) t else nonzero_from (S i) t
  end.

End Builtins.

(** ** [plot_feature_activation_histogram], lines 138-149

    The dictionary whose keys and values are handed to [plt.bar]. *)

(** Line 141 and the [range] of line 144: a bound below zero gives no
    iteration. *)
Definition sample_range (num_samples : Z) (embeddings : list Embedding)
  : list Embedding :=
  let num_samples := Z.min num_samples (Z.of_nat (length embeddings)) in
  firstn (Z.to_nat num_samples) embeddings.

(** Lines 148-149, for one sample. *)
Definition count_sample (feature_non_zero_count : Builtins.DefaultDict)
           (feature_activations : SparseCode) : Builtins.DefaultDict :=
  fold_left (fun d idx => Builtins.dd_incr idx d)
            (Builtins.nonzero_from 0 feature_activations) feature_non_zero_count.

Definition feature_non_zero_count (model : SparseAutoencoder)
           (embeddings : list Embedding) (num_samples : Z) : Builtins.DefaultDict :=
  fold_left (fun d embedding => count_sample d (snd (forward model embedding)))
            (sample_range num_samples embeddings) [].

(** ** [count_non_zero_feature_activations], lines 163-179

    The two numbers that the routine prints: the average count of
    non-zero coordinates and the average percentage.  With no
    iteration [total_non_zero] is still the integer 0 and the division
    of line 178 is a division of integers.  A code without coordinates,
    on which the quotient of line 176 is not a number, is outside the
    model. *)
Definition count_non_zero_feature_activations (model : SparseAutoencoder)
           (embeddings : list Embedding) (num_samples : Z) : exn + (Q * Q) :=
  let codes := map (fun e => snd (forward model e)) (sample_range num_samples embeddings) in
  let num_samples := Z.min num_samples (Z.of_nat (length embeddings)) in
  let total_non_zero :=
    fold_left (fun acc c => (acc + Z.of_nat (Py.count_nonzero c))%Z) codes 0%Z in
  let percent_count :=
    fold_left (fun acc c =>
                 (acc + inject_Z (Z.of_nat (Py.count_nonzero c))
                        / inject_Z (Z.of_nat (length c)))%Q) codes 0%Q in
  if (num_samples =? 0)%Z then inl (ZeroDivisionError "division by zero")
  else
    let average_non_zero := (inject_Z total_non_zero / inject_Z num_samples)%Q in
    let percentage_non_zero := ((percent_count / inject_Z num_samples) * 100)%Q in
    inr (average_non_zero, percentage_non_zero).

(** ** [plot_highest_activating_feature_for_each_sentence], lines 219-236 *)

(** Lines 222-224. *)
Definition top_5_indices (activations : list Q) : list nat :=
  firstn 5 (Builtins.sorted_desc (fun i => nth i activations 0%Q)
              (seq 0 (length activations))).

(** Line 225. *)
Definition top_5_activations (activations : list Q) : list Q :=
  map (fun i => nth i activations 0%Q) (top_5_indices activations).

(** Lines 230-232: the first feature with the index, if any. *)
Definition matching_feature (features : list Feature) (feature_idx : nat)
  : option Feature :=
  find (fun f => index f =? feature_idx) features.

(** Lines 233-235; a record counts as true. *)
Definition feature_label (features : list Feature) (feature_idx : nat) : string :=
  match matching_feature features feature_idx with
  | Some f => label f
  | None => ("Feature " ++ Builtins.str_nat feature_idx)%string
  end.

Definition top_5_labels (features : list Feature) (activations : list Q)
  : list string :=
  map (feature_label features) (top_5_indices activations).

(** ** [chunk_dataset.py]

    The script, with the corpus and the sentence tokenizer as
    parameters.  A row of the CSV file is the list of its fields. *)
Record Written := {
  num_written : nat;
  csv_rows : list (list string);
  progress : list nat
}.

(** Lines 18-22, for one sentence. *)
Definition write_sentence (st : Written) (sentence : string) : Written :=
  let n := S (num_written st) in
  {| num_written := n;
     csv_rows := csv_rows st ++ [[sentence]];
     progress := if n mod 1000 =? 0 then progress st ++ [n] else progress st |}.

(** Lines 9-22. *)
Definition chunk_dataset (sent_tokenize : string -> list string)
           (texts : list string) : Written :=
  fold_left (fun st text => fold_left write_sentence (sent_tokenize text) st)
            texts
            {| num_written := 0; csv_rows := [["sentence"%string]]; progress := [] |}.

(** * Vocabulary of the properties *)

(** ** Registry *)

(** [reg[f][i]], when both indices are in range. *)
Definition cell (reg : Registry) (f i : nat) : option Q :=
  match nth_error reg f with
  | Some row => nth_error row i
  | None => None
  end.

(** [reg] has [R] rows of [n] entries. *)
Definition shape (reg : Registry) (R n : nat) : Prop :=
  length reg = R /\ Forall (fun row => length row = n) reg.

(** ** Order of the sorted samples *)

Definition act_ge (a b : FeatureSample) : Prop := (act b <= act a)%Q.

(** Descending by a key. *)
Definition key_ge {A : Type} (key : A -> Q) (a b : A) : Prop := (key b <= key a)%Q.

(** ** Random choice *)

(** What a successful choice returns: the entries of [a] at [size]
    pairwise different positions. *)
Definition chosen_from {A} (a : list A) (size : nat) (l : list A) : Prop :=
  exists idx, NoDup idx /\ length idx = size /\
              Forall (fun j => j < length a) idx /\
              Forall2 (fun j x => nth_error a j = Some x) idx l.

(** ** Events *)

Definition is_request (ev : Event) : Prop :=
  match ev with
  | Request_interpretation _ _ | Request_score _ _ => True
  | Printed _ | Handled _ => False
  end.

Definition is_handled (ev : Event) : Prop :=
  match ev with
  | Handled _ => True
  | _ => False
  end.

(** The records handed to the handler, in order. *)
Definition emitted (evs : list Event) : list Feature :=
  flat_map (fun ev => match ev with Handled f => [f] | _ => [] end) evs.

(** The lines printed, in order. *)
Definition printed (evs : list Event) : list string :=
  flat_map (fun ev => match ev with Printed s => [s] | _ => [] end) evs.


(** What a run prints for the features: requests and skip messages. *)
Definition per_feature_event (ev : Event) : Prop :=
  match ev with
  | Request_interpretation _ _ | Request_score _ _ => True
  | Printed line => exists e, line = skip_message e
  | Handled _ => False
  end.

(** A line printed last in a run that is not the skip message of a
    feature: the place of a report on the run as a whole. *)
Definition summary_line (evs : list Event) : option string :=
  match rev evs with
  | Printed line :: _ => if prefix skip_prefix line then None else Some line
  | _ => None
  end.



(** ** Responses *)

(** The first key, in the order of lines 110-112, that an
    interpretation lacks. *)
Definition first_missing_key (interp : InterpretationResponse) : option string :=
  match resp_label interp, resp_reasoning interp, resp_attributes interp with
  | None, _, _ => Some "label"%string
  | Some _, None, _ => Some "reasoning"%string
  | Some _, Some _, None => Some "attributes"%string
  | Some _, Some _, Some _ => None
  end.

(** ** Histogram *)

(** Feature [f] is non-zero in a sparse code. *)
Definition fires_on (f : nat) (code : SparseCode) : bool :=
  match nth_error code f with
  | Some a => Py.nonzero a
  | None => false
  end.

(** The count recorded for a key, 0 when the key is absent. *)
Definition dd_count (k : nat) (d : Builtins.DefaultDict) : nat :=
  match Builtins.dd_get k d with
  | Some c => c
  | None => 0
  end.

(** ** Ways through the loop body *)
Section Outcomes.
Context {W : Type} (ai : OpenAIClient W) (rng : RandomState W).

Section Raises.
Variables high low : list FeatureSample.

(** One of the three service calls of lines 109-119 raises [e]; the
    world is then [w'] and the requests made so far are [evs]. *)
Inductive service_call_raises (w : W) : exn -> W -> list Event -> Prop :=
| Interpretation_raises w1 e :
    get_interpretation ai high low w = (w1, inl e) ->
    service_call_raises w e w1 [Request_interpretation high low]
| High_score_raises w1 interp lbl rsn attrs w2 e :
    get_interpretation ai high low w = (w1, inr interp) ->
    resp_label interp = Some lbl ->
    resp_reasoning interp = Some rsn ->
    resp_attributes interp = Some attrs ->
    score_interpretation ai high attrs w1 = (w2, inl e) ->
    service_call_raises w e w2
      [Request_interpretation high low; Request_score high attrs]
| Low_score_raises w1 interp lbl rsn attrs w2 hs h w3 e :
    get_interpretation ai high low w = (w1, inr interp) ->
    resp_label interp = Some lbl ->
    resp_reasoning interp = Some rsn ->
    resp_attributes interp = Some attrs ->
    score_interpretation ai high attrs w1 = (w2, inr hs) ->
    resp_percent hs = Some h ->
    score_interpretation ai low attrs w2 = (w3, inl e) ->
    service_call_raises w e w3
      [Request_interpretation high low; Request_score high attrs;
       Request_score low attrs].

End Raises.

Variable text_data : list string.
Variable handler : Handler W.

(** The three ways through the body: the evidence cannot be selected
    and the exception leaves the loop; the [try] block raises and the
    feature is skipped; the record is built and handed over. *)
Inductive feature_run (index : nat) (feature : list Q) (w : W)
  : W * list Event * (exn + unit) -> Prop :=
| Run_abort w1 e :
    select_evidence rng text_data feature w = (w1, [], inl e) ->
    feature_run index feature w (w1, [], inl e)
| Run_skip w1 high low w2 evs e :
    select_evidence rng text_data feature w = (w1, [], inr (high, low)) ->
    interpret_and_score ai high low w1 = (w2, evs, inl e) ->
    feature_run index feature w (w2, evs ++ [Printed (skip_message e)], inr tt)
| Run_emit w1 high low w2 evs r d w3 res :
    select_evidence rng text_data feature w = (w1, [], inr (high, low)) ->
    interpret_and_score ai high low w1 = (w2, evs, inr r) ->
    row_density feature = inr d ->
    handler (labelled index r d high low) w2 = (w3, res) ->
    feature_run index feature w
      (w3, evs ++ [Handled (labelled index r d high low)], res).

(** A record reaches the handler only on the third way. *)
Definition emitted_for (index : nat) (feature : list Q) (f : Feature) : Prop :=
  exists w w1 high low w2 evs r d,
    select_evidence rng text_data feature w = (w1, [], inr (high, low)) /\
    interpret_and_score ai high low w1 = (w2, evs, inr r) /\
    row_density feature = inr d /\
    f = labelled index r d high low.

End Outcomes.

(** * Properties *)

(** ** Lists: update, removal, selection by position *)
Section ListFacts.
Context {A : Type}.
Implicit Types (l : list A) (x y : A) (i j : nat).

Lemma update_nth_length i x l : length (Py.update_nth i x l) = length l.
Proof.
  revert i; induction l as [|y t IH]; intros [|i]; simpl; auto.
Qed.

Lemma update_nth_same i x l :
  i < length l -> nth_error (Py.update_nth i x l) i = Some x.
Proof.
  revert i; induction l as [|y t IH]; intros [|i] Hi; simpl in *; try lia; auto.
  apply IH; lia.
Qed.

Lemma update_nth_other i j x l :
  i <> j -> nth_error (Py.update_nth i x l) j = nth_error l j.
Proof.
  revert i j; induction l as [|y t IH]; intros [|i] [|j] Hij; simpl; auto;
    congruence.
Qed.

Lemma remove_nth_In j l y : In y (Py.remove_nth j l) -> In y l.
Proof.
  revert j; induction l as [|z t IH]; intros [|j]; simpl; auto.
  intros [->|H]; eauto.
Qed.

Lemma remove_nth_length j l :
  j < length l -> length (Py.remove_nth j l) = length l - 1.
Proof.
  revert j; induction l as [|z t IH]; intros [|j] Hj; simpl in *; try lia.
  rewrite IH by lia. lia.
Qed.

Lemma remove_nth_NoDup j l : NoDup l -> NoDup (Py.remove_nth j l).
Proof.
  revert j; induction l as [|z t IH]; intros [|j] Hnd; simpl; auto.
  - now inversion Hnd.
  - inversion Hnd as [|? ? Hz Ht]; subst.
    constructor; auto.
    intro Hin; apply Hz; eapply remove_nth_In; eauto.
Qed.

Lemma remove_nth_fresh j l d :
  NoDup l -> j < length l -> ~ In (nth j l d) (Py.remove_nth j l).
Proof.
  revert j; induction l as [|z t IH]; intros [|j] Hnd Hj; simpl in *; try lia.
  - now inversion Hnd.
  - inversion Hnd as [|? ? Hz Ht]; subst.
    intros [Heq|Hin].
    + apply Hz. rewrite Heq. apply nth_In. lia.
    + revert Hin. apply IH; auto. lia.
Qed.

Lemma in_firstn_in k l x : In x (firstn k l) -> In x l.
Proof.
  revert k; induction l as [|y t IH]; intros [|k]; simpl; try tauto.
  intros [->|H]; eauto.
Qed.

Lemma in_skipn_in k l x : In x (skipn k l) -> In x l.
Proof.
  revert k; induction l as [|y t IH]; intros [|k]; simpl; try tauto.
  intros H; eauto.
Qed.

End ListFacts.

(** ** The registry *)

Lemma np_zeros_shape r c reg :
  Py.np_zeros r c = inr reg -> (0 <= r)%Z /\ shape reg (Z.to_nat r) c.
Proof.
  unfold Py.np_zeros. destruct (r <? 0)%Z eqn:Hr; [discriminate|].
  intros [= <-]. apply Z.ltb_ge in Hr. split; [exact Hr|]. split.
  - apply repeat_length.
  - apply Forall_forall. intros row Hin. apply repeat_spec in Hin. subst.
    apply repeat_length.
Qed.

Lemma map_update_combine_nth i (reg : Registry) (v : list Q) f :
  length v = length reg ->
  nth_error (map (fun rx => Py.update_nth i (snd rx) (fst rx)) (combine reg v)) f =
  match nth_error reg f, nth_error v f with
  | Some row, Some x => Some (Py.update_nth i x row)
  | _, _ => None
  end.
Proof.
  revert v f. induction reg as [|row reg IH]; intros [|x v] [|f] Hlen;
    simpl in *; try discriminate; auto.
Qed.

Section SetColumn.
Variables (i : nat) (v : list Q) (reg reg' : Registry).
Hypothesis Hset : Py.set_column i v reg = inr reg'.

Lemma set_column_shape R n : shape reg R n -> shape reg' R n.
Proof using Hset.
  intros [HR Hrows]. unfold Py.set_column in Hset.
  destruct (length v =? length reg) eqn:Hl.
  - apply Nat.eqb_eq in Hl. injection Hset as <-. split.
    + rewrite length_map, length_combine. lia.
    + apply Forall_forall. intros row Hin. apply in_map_iff in Hin.
      destruct Hin as [[row0 x] [<- Hin]]. simpl.
      rewrite update_nth_length. apply in_combine_l in Hin.
      rewrite Forall_forall in Hrows. auto.
  - destruct (length v =? 1); [|discriminate]. injection Hset as <-. split.
    + now rewrite length_map.
    + apply Forall_forall. intros row Hin. apply in_map_iff in Hin.
      destruct Hin as [row0 [<- Hin]]. rewrite update_nth_length.
      rewrite Forall_forall in Hrows. auto.
Qed.

Lemma set_column_other f j : j <> i -> cell reg' f j = cell reg f j.
Proof using Hset.
  intros Hj. unfold Py.set_column in Hset. unfold cell.
  destruct (length v =? length reg) eqn:Hl.
  - apply Nat.eqb_eq in Hl. injection Hset as <-.
    rewrite map_update_combine_nth by exact Hl.
    destruct (nth_error reg f) as [row|] eqn:Hrow; [|reflexivity].
    destruct (nth_error v f) as [x|] eqn:Hx.
    + apply update_nth_other. congruence.
    + apply nth_error_None in Hx.
      assert (f < length reg) by (apply nth_error_Some; congruence). lia.
  - destruct (length v =? 1); [|discriminate]. injection Hset as <-.
    rewrite nth_error_map.
    destruct (nth_error reg f) as [row|]; simpl; [|reflexivity].
    apply update_nth_other. congruence.
Qed.

Lemma set_column_same R n f a :
  shape reg R n -> i < n -> f < R ->
  nth_error v f = Some a -> cell reg' f i = Some a.
Proof using Hset.
  intros [HR Hrows] Hi Hf Ha. unfold Py.set_column in Hset. unfold cell.
  assert (Hrow : exists row, nth_error reg f = Some row /\ length row = n).
  { destruct (nth_error reg f) as [row|] eqn:E.
    - exists row. split; [reflexivity|].
      rewrite Forall_forall in Hrows. apply Hrows. eapply nth_error_In; eauto.
    - apply nth_error_None in E. lia. }
  destruct Hrow as [row [Hrow Hlen]].
  destruct (length v =? length reg) eqn:Hl.
  - apply Nat.eqb_eq in Hl. injection Hset as <-.
    rewrite map_update_combine_nth by exact Hl. rewrite Hrow, Ha.
    apply update_nth_same. lia.
  - destruct (length v =? 1) eqn:H1; [|discriminate]. injection Hset as <-.
    apply Nat.eqb_eq in H1.
    destruct v as [|x [|? ?]]; simpl in H1; try discriminate.
    destruct f as [|f']; simpl in Ha.
    + injection Ha as ->. rewrite nth_error_map, Hrow. simpl.
      apply update_nth_same. lia.
    + destruct f'; discriminate.
Qed.

End SetColumn.

Lemma fill_registry_cells sae R n embeddings :
  forall i reg reg',
    shape reg R n -> i + length embeddings <= n ->
    fill_registry sae embeddings i reg = inr reg' ->
    shape reg' R n /\
    (forall f j, j < i -> cell reg' f j = cell reg f j) /\
    (forall f k e a, f < R -> nth_error embeddings k = Some e ->
       nth_error (snd (forward sae e)) f = Some a ->
       cell reg' f (i + k) = Some a).
Proof.
  induction embeddings as [|e0 rest IH]; intros i reg reg' Hshape Hlen Hfill;
    simpl in *.
  - injection Hfill as <-. repeat split; try apply Hshape; auto.
    intros f [|k] e a _ Hk; discriminate.
  - destruct (Py.set_column i (snd (forward sae e0)) reg) as [err|reg1] eqn:Hset;
      [discriminate|].
    assert (Hshape1 : shape reg1 R n) by (eapply set_column_shape; eauto).
    destruct (IH (S i) reg1 reg' Hshape1 ltac:(lia) Hfill) as [Hs [Hold Hnew]].
    split; [exact Hs|]. split.
    + intros f j Hj. rewrite Hold by lia.
      eapply set_column_other; eauto. lia.
    + intros f [|k] e a Hf Hk Ha; simpl in Hk.
      * injection Hk as <-. rewrite Nat.add_0_r, Hold by lia.
        eapply set_column_same; eauto. lia.
      * replace (i + S k) with (S i + k) by lia. eapply Hnew; eauto.
Qed.

Lemma fill_registry_total sae R n embeddings :
  (forall e, In e embeddings -> length (snd (forward sae e)) = R) ->
  forall i reg, shape reg R n -> exists reg', fill_registry sae embeddings i reg = inr reg'.
Proof.
  induction embeddings as [|e0 rest IH]; intros Hcode i reg Hshape; simpl.
  - eauto.
  - destruct (Py.set_column i (snd (forward sae e0)) reg) as [err|reg1] eqn:Hset.
    + exfalso. unfold Py.set_column in Hset.
      rewrite (Hcode e0 (or_introl eq_refl)) in Hset.
      destruct Hshape as [HR _]. rewrite HR, Nat.eqb_refl in Hset. discriminate.
    + apply IH.
      * intros e He. apply Hcode. now right.
      * eapply set_column_shape; eauto.
Qed.

Lemma fill_registry_ext sae1 sae2 embeddings :
  (forall e, In e embeddings -> snd (forward sae1 e) = snd (forward sae2 e)) ->
  forall i reg, fill_registry sae1 embeddings i reg = fill_registry sae2 embeddings i reg.
Proof.
  induction embeddings as [|e0 rest IH]; intros Hext i reg; simpl; [reflexivity|].
  rewrite (Hext e0 (or_introl eq_refl)).
  destruct (Py.set_column i (snd (forward sae2 e0)) reg); [reflexivity|].
  apply IH. intros e He. apply Hext. now right.
Qed.

(** C3.  When the registry is built, [registry[f][i]] is coordinate [f]
    of the sparse code [sae.forward(embeddings[i])[1]], for every
    feature [f < n_feature_activations] and every sample [i]; the build
    succeeds whenever every sparse code has [n_feature_activations]
    coordinates; and it is determined by the codes of the model on the
    embeddings, in their order: two models that agree there build the
    same registry. *)
Theorem registry_holds_sparse_codes
        (sae : SparseAutoencoder) (embeddings : list Embedding)
        (n_feature_activations : Z) :
  (forall reg f i e a,
      build_registry sae embeddings n_feature_activations = inr reg ->
      (Z.of_nat f < n_feature_activations)%Z ->
      nth_error embeddings i = Some e ->
      nth_error (snd (forward sae e)) f = Some a ->
      cell reg f i = Some a) /\
  ((0 <= n_feature_activations)%Z ->
   (forall e, In e embeddings ->
      Z.of_nat (length (snd (forward sae e))) = n_feature_activations) ->
   exists reg, build_registry sae embeddings n_feature_activations = inr reg /\
               shape reg (Z.to_nat n_feature_activations) (length embeddings)) /\
  (forall sae',
      (forall e, In e embeddings -> snd (forward sae' e) = snd (forward sae e)) ->
      build_registry sae' embeddings n_feature_activations =
      build_registry sae embeddings n_feature_activations).
Proof.
  unfold build_registry. repeat split.
  - intros reg f i e a Hbuild Hf Hi Ha.
    destruct (Py.np_zeros n_feature_activations (length embeddings))
      as [err|reg0] eqn:Hz; [discriminate|].
    apply np_zeros_shape in Hz. destruct Hz as [Hpos Hshape].
    assert (Hlen : 0 + length embeddings <= length embeddings) by lia.
    destruct (fill_registry_cells sae _ _ embeddings 0 reg0 reg Hshape Hlen Hbuild)
      as [_ [_ Hnew]].
    apply (Hnew f i e a); auto. lia.
  - intros Hpos Hcode.
    destruct (Py.np_zeros n_feature_activations (length embeddings))
      as [err|reg0] eqn:Hz.
    + unfold Py.np_zeros in Hz.
      destruct (n_feature_activations <? 0)%Z eqn:E; [|discriminate].
      apply Z.ltb_lt in E. lia.
    + apply np_zeros_shape in Hz. destruct Hz as [_ Hshape].
      destruct (fill_registry_total sae (Z.to_nat n_feature_activations)
                  (length embeddings) embeddings) with (i := 0) (reg := reg0)
        as [reg' Hfill]; auto.
      * intros e He. rewrite <- (Hcode e He). now rewrite Nat2Z.id.
      * exists reg'. split; [exact Hfill|].
        assert (Hlen : 0 + length embeddings <= length embeddings) by lia.
        exact (proj1 (fill_registry_cells sae _ _ embeddings 0 reg0 reg'
                        Hshape Hlen Hfill)).
  - intros sae' Hext.
    destruct (Py.np_zeros n_feature_activations (length embeddings)); [reflexivity|].
    now apply fill_registry_ext.
Qed.

Lemma registry_holds_sparse_codes_witness :
  exists reg,
    build_registry Scenario.sae_id Scenario.embeddings_small 2 = inr reg /\
    shape reg 2 3 /\
    cell reg 0 0 = Some (5 # 1) /\
    cell reg 1 2 = Some 0%Q.
Proof.
  destruct (registry_holds_sparse_codes Scenario.sae_id Scenario.embeddings_small 2)
    as [Hcells [Htotal _]].
  destruct Htotal as [reg [Hbuild Hshape]].
  - lia.
  - intros e He. simpl in He.
    destruct He as [<-|[<-|[<-|[]]]]; reflexivity.
  - exists reg. split; [exact Hbuild|]. split; [exact Hshape|]. split.
    + apply (Hcells reg 0 0 [5 # 1; 0]%Q (5 # 1) Hbuild); [lia|reflexivity|reflexivity].
    + apply (Hcells reg 1 2 [0; 0]%Q 0%Q Hbuild); [lia|reflexivity|reflexivity].
Defined.

(** ** Samples of a row *)

Lemma feature_samples_from_spec text_data feature :
  forall i fs,
    feature_samples_from text_data i feature = inr fs ->
    map act fs = feature /\
    (forall k s, nth_error fs k = Some s -> nth_error text_data (i + k) = Some (text s)).
Proof.
  induction feature as [|value rest IH]; intros i fs H; simpl in H.
  - injection H as <-. split; [reflexivity|]. intros [|k] s Hk; discriminate.
  - destruct (nth_error text_data i) as [t|] eqn:Ht; [|discriminate].
    destruct (feature_samples_from text_data (S i) rest) as [e|l] eqn:Hrest;
      [discriminate|].
    injection H as <-. destruct (IH (S i) l Hrest) as [Hact Htext].
    split; [simpl; now rewrite Hact|].
    intros [|k] s Hk; simpl in Hk.
    + injection Hk as <-. now rewrite Nat.add_0_r.
    + replace (i + S k) with (S i + k) by lia. auto.
Qed.

Lemma feature_samples_from_total text_data feature :
  forall i, i + length feature <= length text_data ->
       exists fs, feature_samples_from text_data i feature = inr fs.
Proof.
  induction feature as [|value rest IH]; intros i Hlen; simpl in *.
  - eauto.
  - destruct (nth_error text_data i) as [t|] eqn:Ht.
    + destruct (IH (S i)) as [fs ->]; [lia|]. eauto.
    + apply nth_error_None in Ht. lia.
Qed.

Lemma feature_samples_from_short text_data feature :
  forall i, i <= length text_data -> length text_data < i + length feature ->
       feature_samples_from text_data i feature =
       inl (IndexError "list index out of range").
Proof.
  induction feature as [|value rest IH]; intros i Hi Hlen; simpl in *; [lia|].
  destruct (nth_error text_data i) as [t|] eqn:Ht; [|reflexivity].
  assert (i < length text_data) by (apply nth_error_Some; congruence).
  rewrite IH; [reflexivity| |]; lia.
Qed.

(** ** Sorting by activation, descending *)

Lemma insert_desc_perm x l : Permutation (Py.insert_desc x l) (x :: l).
Proof.
  induction l as [|y t IH]; simpl; [reflexivity|].
  destruct (Qle_bool (act y) (act x)); [reflexivity|].
  rewrite IH. apply perm_swap.
Qed.

Lemma sort_desc_perm l : Permutation (Py.sort_desc l) l.
Proof.
  induction l as [|x t IH]; simpl; [reflexivity|].
  rewrite insert_desc_perm. now constructor.
Qed.

Lemma insert_desc_sorted x l :
  StronglySorted act_ge l -> StronglySorted act_ge (Py.insert_desc x l).
Proof.
  induction 1 as [|y t Hs IH Hy]; simpl.
  - repeat constructor.
  - destruct (Qle_bool (act y) (act x)) eqn:Hle.
    + apply Qle_bool_iff in Hle. constructor; [now constructor|].
      constructor; [exact Hle|].
      eapply Forall_impl; [|exact Hy]. unfold act_ge. intros z Hz.
      eapply Qle_trans; eauto.
    + constructor; [exact IH|].
      eapply Permutation_Forall; [symmetry; apply insert_desc_perm|].
      constructor; [|exact Hy]. unfold act_ge.
      destruct (Qlt_le_dec (act x) (act y)) as [Hlt|Hge].
      * now apply Qlt_le_weak.
      * apply Qle_bool_iff in Hge. congruence.
Qed.

Lemma sort_desc_sorted l : StronglySorted act_ge (Py.sort_desc l).
Proof.
  induction l as [|x t IH]; simpl; [constructor|].
  now apply insert_desc_sorted.
Qed.

Lemma filter_perm_length {A} (p : A -> bool) l l' :
  Permutation l l' -> length (filter p l) = length (filter p l').
Proof.
  induction 1 as [|x l l' _ IH|x y l|l l' l'' _ IH1 _ IH2]; simpl; auto.
  - destruct (p x); simpl; auto.
  - destruct (p x), (p y); reflexivity.
  - congruence.
Qed.

Lemma count_nonzero_samples fs :
  Py.count_nonzero (map act fs) = length (filter (fun s => Py.nonzero (act s)) fs).
Proof.
  unfold Py.count_nonzero. induction fs as [|s t IH]; simpl; [reflexivity|].
  destruct (Py.nonzero (act s)); simpl; auto.
Qed.

Lemma nonzero_spec a : Py.nonzero a = true <-> ~ (a == 0)%Q.
Proof.
  unfold Py.nonzero. rewrite negb_true_iff, <- not_true_iff_false, Qeq_bool_iff.
  reflexivity.
Qed.

Lemma is_zero_spec a : Py.is_zero a = true <-> (a == 0)%Q.
Proof. unfold Py.is_zero. apply Qeq_bool_iff. Qed.

Lemma filter_none {A} (p : A -> bool) l :
  Forall (fun x => p x = false) l -> filter p l = [].
Proof.
  induction 1 as [|x t Hx _ IH]; simpl; [reflexivity|]. now rewrite Hx.
Qed.

(** In a descending list of non-negative activations the non-zero ones
    come first: filtering a prefix keeps a prefix. *)
Lemma filter_nonzero_prefix l :
  StronglySorted act_ge l -> Forall (fun s => (0 <= act s)%Q) l ->
  forall n,
    filter (fun s => Py.nonzero (act s)) (firstn n l) =
    firstn (Nat.min n (length (filter (fun s => Py.nonzero (act s)) l))) l.
Proof.
  induction 1 as [|x t Hs IH Hx]; intros Hpos n.
  - now rewrite !firstn_nil.
  - inversion Hpos as [|? ? Hx0 Ht0]; subst.
    destruct n as [|n]; [reflexivity|]. simpl.
    destruct (Py.nonzero (act x)) eqn:Hnz; simpl.
    + f_equal. apply IH. exact Ht0.
    + assert (Hzero : Forall (fun s => Py.nonzero (act s) = false) t).
      { apply Forall_forall. intros s Hin.
        rewrite Forall_forall in Hx, Ht0.
        specialize (Hx s Hin). specialize (Ht0 s Hin). unfold act_ge in Hx.
        unfold Py.nonzero in *. apply negb_false_iff in Hnz.
        apply Qeq_bool_iff in Hnz. apply negb_false_iff, Qeq_bool_iff. lra. }
      rewrite (filter_none _ t Hzero). simpl.
      apply filter_none. apply Forall_forall. intros s Hin.
      rewrite Forall_forall in Hzero. apply Hzero.
      eapply in_firstn_in; eauto.
Qed.

Lemma firstn_skipn_sorted_le l k :
  StronglySorted act_ge l ->
  forall s s', In s (firstn k l) -> In s' (skipn k l) -> (act s' <= act s)%Q.
Proof.
  intros Hs. revert k. induction Hs as [|x t Hs IH Hx]; intros k s s' Hin Hin'.
  - rewrite firstn_nil in Hin. destruct Hin.
  - destruct k as [|k]; simpl in *; [destruct Hin|].
    destruct Hin as [<-|Hin].
    + rewrite Forall_forall in Hx. apply Hx.
      eapply in_skipn_in; eauto.
    + eapply IH; eauto.
Qed.

(** The prefix of the sorted samples that lines 101-103 keep, for a row
    of non-negative activations. *)
Lemma sorted_high_evidence_prefix
      (text_data : list string) (feature : list Q) (fs : list FeatureSample) :
  feature_samples_from text_data 0 feature = inr fs ->
  Forall (fun a => (0 <= a)%Q) feature ->
  let feature_samples := Py.sort_desc fs in
  let high_act_samples := high_evidence feature_samples in
  let k := Nat.min 50 (Py.count_nonzero feature) in
  Permutation feature_samples fs /\
  StronglySorted act_ge feature_samples /\
  high_act_samples = firstn k feature_samples /\
  length high_act_samples = k /\
  length high_act_samples <= 50 /\
  Forall (fun s => ~ (act s == 0)%Q) high_act_samples /\
  (forall s s', In s high_act_samples -> In s' (skipn k feature_samples) ->
                (act s' <= act s)%Q).
Proof.
  intros Hfs Hpos srt high k.
  destruct (feature_samples_from_spec _ _ _ _ Hfs) as [Hact _].
  assert (Hperm : Permutation srt fs) by apply sort_desc_perm.
  assert (Hsorted : StronglySorted act_ge srt) by apply sort_desc_sorted.
  assert (Hpos' : Forall (fun s => (0 <= act s)%Q) srt).
  { eapply Permutation_Forall; [symmetry; exact Hperm|].
    rewrite <- Hact in Hpos. rewrite Forall_forall in Hpos.
    apply Forall_forall. intros s Hin. apply Hpos. now apply in_map. }
  assert (Hk : k = Nat.min 50 (length (filter (fun s => Py.nonzero (act s)) srt))).
  { unfold k. rewrite <- Hact, count_nonzero_samples.
    now rewrite (filter_perm_length _ _ _ Hperm). }
  assert (Hhigh : high = firstn k srt).
  { unfold high, high_evidence. rewrite Hk. now apply filter_nonzero_prefix. }
  assert (Hlen : length high = k).
  { rewrite Hhigh, length_firstn.
    pose proof (filter_length_le (fun s => Py.nonzero (act s)) srt). lia. }
  repeat split; auto.
  - rewrite Hlen. unfold k. lia.
  - unfold high, high_evidence. apply Forall_forall. intros s Hin.
    apply filter_In in Hin. now apply nonzero_spec.
  - intros s s' Hin Hin'. rewrite Hhigh in Hin.
    eapply firstn_skipn_sorted_le; eauto.
Qed.

(** ** Random choice without replacement *)
Section Choice.
Context {W : Type} (rng : RandomState W).

Lemma draw_indices_spec k :
  forall pool w w' idx,
    NoDup pool -> draw_indices rng pool k w = (w', idx) ->
    NoDup idx /\ incl idx pool /\ length idx = Nat.min k (length pool).
Proof.
  induction k as [|k IH]; intros pool w w' idx Hnd Hdraw.
  - simpl in Hdraw. injection Hdraw as _ <-.
    repeat split; [constructor|intros x []].
  - destruct pool as [|p0 pool'].
    { simpl in Hdraw. injection Hdraw as _ <-.
      repeat split; [constructor|intros x []]. }
    cbn [draw_indices] in Hdraw.
    remember (p0 :: pool') as pool eqn:Hpool.
    assert (Hlen : 0 < length pool) by (subst; simpl; lia).
    destruct (rng (length pool) w) as [w1 r].
    assert (Hj : r mod length pool < length pool) by (apply Nat.mod_upper_bound; lia).
    remember (r mod length pool) as j.
    destruct (draw_indices rng (Py.remove_nth j pool) k w1) as [w2 rest] eqn:Hrest.
    injection Hdraw as _ <-.
    apply IH in Hrest; [|now apply remove_nth_NoDup].
    destruct Hrest as [Hnd' [Hincl Hl]].
    rewrite remove_nth_length in Hl by exact Hj.
    repeat split.
    + constructor; [|exact Hnd'].
      intro Hin. apply Hincl in Hin. revert Hin. now apply remove_nth_fresh.
    + intros x [<-|Hin]; [now apply nth_In|].
      eapply remove_nth_In. now apply Hincl.
    + cbn [length]. lia.
Qed.

Lemma take_at_spec {A} (a : list A) idx :
  Forall (fun j => j < length a) idx ->
  Forall2 (fun j x => nth_error a j = Some x) idx (take_at a idx).
Proof.
  induction 1 as [|j idx Hj _ IH]; simpl; [constructor|].
  destruct (nth_error a j) as [x|] eqn:Hx.
  - simpl. now constructor.
  - apply nth_error_None in Hx. lia.
Qed.

Lemma chosen_from_length {A} (a : list A) size l :
  chosen_from a size l -> length l = size.
Proof.
  intros (idx & _ & Hlen & _ & Hall). rewrite <- Hlen. symmetry.
  eapply Forall2_length; eauto.
Qed.

Lemma chosen_from_In {A} (a : list A) size l x :
  chosen_from a size l -> In x l -> In x a.
Proof.
  intros (idx & _ & _ & _ & Hall) Hin.
  induction Hall as [|j y idx l Hj _ IH]; simpl in Hin; [destruct Hin|].
  destruct Hin as [<-|Hin]; auto. eapply nth_error_In; eauto.
Qed.

Lemma np_random_choice_inv {A} (a : list A) size w w' evs l :
  np_random_choice rng a size w = (w', evs, inr l) ->
  evs = [] /\ size <= length a /\ chosen_from a size l /\
  exists idx, draw_indices rng (seq 0 (length a)) size w = (w', idx).
Proof.
  unfold np_random_choice.
  destruct ((length a =? 0) && negb (size =? 0)) eqn:H0; [discriminate|].
  destruct (length a <? size) eqn:Hlt; [discriminate|].
  apply Nat.ltb_ge in Hlt.
  destruct (draw_indices rng (seq 0 (length a)) size w) as [w1 idx] eqn:Hdraw.
  intros [= <- <- <-]. split; [reflexivity|]. split; [exact Hlt|]. split; [|eauto].
  apply draw_indices_spec in Hdraw; [|apply seq_NoDup].
  destruct Hdraw as [Hnd [Hincl Hlen]]. rewrite length_seq in Hlen.
  assert (Hrange : Forall (fun j => j < length a) idx).
  { apply Forall_forall. intros j Hj. apply Hincl, in_seq in Hj. lia. }
  exists idx. repeat split; auto; [lia|]. now apply take_at_spec.
Qed.

Lemma np_random_choice_short {A} (a : list A) size w :
  length a < size ->
  exists msg, np_random_choice rng a size w = (w, [], inl (ValueError msg)).
Proof.
  intros Hlt. unfold np_random_choice.
  destruct ((length a =? 0) && negb (size =? 0)); [unfold raise; eauto|].
  apply Nat.ltb_lt in Hlt. rewrite Hlt. unfold raise; eauto.
Qed.

Lemma np_random_choice_enough {A} (a : list A) size w :
  size <= length a ->
  exists w' l, np_random_choice rng a size w = (w', [], inr l).
Proof.
  intros Hle. unfold np_random_choice.
  destruct ((length a =? 0) && negb (size =? 0)) eqn:H0.
  { apply andb_true_iff in H0. destruct H0 as [Ha Hs].
    apply Nat.eqb_eq in Ha. apply negb_true_iff, Nat.eqb_neq in Hs. lia. }
  apply Nat.ltb_ge in Hle. rewrite Hle.
  destruct (draw_indices rng (seq 0 (length a)) size w) as [w1 idx]. eauto.
Qed.

End Choice.

(** ** One feature *)
Section Feature.
Context {W : Type} (ai : OpenAIClient W) (rng : RandomState W).
Variable text_data : list string.
Variable handler : Handler W.

(** *** Selection of the evidence *)

Lemma select_evidence_unfold feature w :
  select_evidence rng text_data feature w =
  match feature_samples_from text_data 0 feature with
  | inl e => (w, [], inl e)
  | inr fs =>
      match np_random_choice rng (zero_samples (Py.sort_desc fs)) 50 w with
      | (w1, evs, inl e) => (w1, evs, inl e)
      | (w1, evs, inr low) =>
          (w1, evs ++ [], inr (high_evidence (Py.sort_desc fs), low))
      end
  end.
Proof.
  unfold select_evidence, bind, lift, ret.
  destruct (feature_samples_from text_data 0 feature) as [e|fs]; [reflexivity|].
  destruct (np_random_choice rng (zero_samples (Py.sort_desc fs)) 50 w)
    as [[w1 evs] [e|low]]; reflexivity.
Qed.

Lemma np_random_choice_silent {A} (a : list A) size w w' evs r :
  np_random_choice rng a size w = (w', evs, r) -> evs = [].
Proof.
  unfold np_random_choice, raise.
  destruct ((length a =? 0) && negb (size =? 0)); [now intros [= _ <- _]|].
  destruct (length a <? size); [now intros [= _ <- _]|].
  destruct (draw_indices rng (seq 0 (length a)) size w). now intros [= _ <- _].
Qed.

Lemma select_evidence_silent feature w w' evs r :
  select_evidence rng text_data feature w = (w', evs, r) -> evs = [].
Proof.
  rewrite select_evidence_unfold.
  destruct (feature_samples_from text_data 0 feature) as [e|fs];
    [now intros [= _ <- _]|].
  destruct (np_random_choice rng (zero_samples (Py.sort_desc fs)) 50 w)
    as [[w1 evs1] [e|low]] eqn:Hc; apply np_random_choice_silent in Hc; subst;
    now intros [= _ <- _].
Qed.

Lemma select_evidence_inv feature w w' evs high low :
  select_evidence rng text_data feature w = (w', evs, inr (high, low)) ->
  exists fs,
    feature_samples_from text_data 0 feature = inr fs /\
    high = high_evidence (Py.sort_desc fs) /\
    chosen_from (zero_samples (Py.sort_desc fs)) 50 low /\
    50 <= length (zero_samples (Py.sort_desc fs)) /\
    np_random_choice rng (zero_samples (Py.sort_desc fs)) 50 w = (w', [], inr low).
Proof.
  rewrite select_evidence_unfold.
  destruct (feature_samples_from text_data 0 feature) as [e|fs]; [discriminate|].
  destruct (np_random_choice rng (zero_samples (Py.sort_desc fs)) 50 w)
    as [[w1 evs1] [e|low1]] eqn:Hc; [discriminate|].
  intros [= <- <- <- <-].
  pose proof (np_random_choice_inv _ _ _ _ _ _ _ Hc) as (-> & Hle & Hch & _).
  exists fs. repeat split; auto.
Qed.

(** A row with fewer than 50 zero entries: the choice raises, outside
    the [try] block. *)
Lemma select_evidence_shortage feature fs w :
  feature_samples_from text_data 0 feature = inr fs ->
  length (zero_samples (Py.sort_desc fs)) < 50 ->
  exists msg, select_evidence rng text_data feature w = (w, [], inl (ValueError msg)).
Proof.
  intros Hfs Hlt. rewrite select_evidence_unfold, Hfs.
  destruct (np_random_choice_short rng (zero_samples (Py.sort_desc fs)) 50 w Hlt)
    as [msg ->]. eauto.
Qed.

Lemma select_evidence_enough feature fs w :
  feature_samples_from text_data 0 feature = inr fs ->
  50 <= length (zero_samples (Py.sort_desc fs)) ->
  exists w1 low,
    select_evidence rng text_data feature w =
    (w1, [], inr (high_evidence (Py.sort_desc fs), low)).
Proof.
  intros Hfs Hle. rewrite select_evidence_unfold, Hfs.
  destruct (np_random_choice_enough rng (zero_samples (Py.sort_desc fs)) 50 w Hle)
    as (w1 & low & ->). eauto.
Qed.

(** The zero-activation samples of a row are as many as its zero
    entries. *)
Lemma zero_samples_count feature fs i :
  feature_samples_from text_data i feature = inr fs ->
  length (zero_samples (Py.sort_desc fs)) = length (filter Py.is_zero feature).
Proof.
  intros Hfs. apply feature_samples_from_spec in Hfs. destruct Hfs as [<- _].
  unfold zero_samples.
  rewrite (filter_perm_length _ _ _ (sort_desc_perm fs)).
  clear. induction fs as [|s t IH]; simpl; [reflexivity|].
  destruct (Py.is_zero (act s)); simpl; auto.
Qed.

End Feature.

(** ** The [try] block *)

Section TryBlock.
Context {W : Type} (ai : OpenAIClient W).
Variables high low : list FeatureSample.

Lemma service_call_raises_try w e w' evs :
  service_call_raises ai high low w e w' evs ->
  interpret_and_score ai high low w = (w', evs, inl e).
Proof.
  unfold interpret_and_score, bind, emit, call, getitem, ret, raise.
  destruct 1 as [w1 e H1 | w1 interp lbl rsn attrs w2 e H1 Hl Hr Ha H2
                | w1 interp lbl rsn attrs w2 hs h w3 e H1 Hl Hr Ha H2 Hh H3].
  - now rewrite H1.
  - now rewrite H1, Hl, Hr, Ha, H2.
  - now rewrite H1, Hl, Hr, Ha, H2, Hh, H3.
Qed.

Ltac inner_destruct :=
  match goal with
  | |- context [match ?x with _ => _ end] =>
      lazymatch x with
      | context [match _ with _ => _ end] => fail
      | _ => destruct x eqn:?; simpl
      end
  end.

(** Every event of the block is a request; the interpretation request
    comes first. *)
Lemma interpret_and_score_requests w w' evs r :
  interpret_and_score ai high low w = (w', evs, r) ->
  Forall is_request evs /\
  exists evs', evs = Request_interpretation high low :: evs'.
Proof.
  unfold interpret_and_score, bind, emit, call, getitem, ret, raise.
  repeat inner_destruct; intros [= <- <- <-]; simpl; split; eauto;
    repeat constructor.
Qed.

(** The block succeeds only when all three calls answer and every
    field is present. *)
Lemma interpret_and_score_ok w w' evs r :
  interpret_and_score ai high low w = (w', evs, inr r) ->
  evs = [Request_interpretation high low;
         Request_score high (i_attributes r);
         Request_score low (i_attributes r)] /\
  exists w1 interp w2 hs ls,
    get_interpretation ai high low w = (w1, inr interp) /\
    resp_label interp = Some (i_label r) /\
    resp_reasoning interp = Some (i_reasoning r) /\
    resp_attributes interp = Some (i_attributes r) /\
    score_interpretation ai high (i_attributes r) w1 = (w2, inr hs) /\
    resp_percent hs = Some (i_high_act_score r) /\
    score_interpretation ai low (i_attributes r) w2 = (w', inr ls) /\
    resp_percent ls = Some (i_low_act_score r).
Proof.
  unfold interpret_and_score, bind, emit, call, getitem, ret, raise.
  repeat inner_destruct; intros H; try discriminate.
  injection H as <- <- <-. simpl. split; [reflexivity|].
  repeat match goal with
         | E : (_, _, _) = (_, _, _) |- _ => injection E as <- <- <-
         | E : (_, _) = (_, _) |- _ => injection E as <- <-
         end.
  repeat eexists; eauto.
Qed.

End TryBlock.

(** ** Outcomes of the loop body *)
Section LoopBody.
Context {W : Type} (ai : OpenAIClient W) (rng : RandomState W).
Variable text_data : list string.
Variable handler : Handler W.

Lemma row_density_ok feature :
  0 < length feature ->
  row_density feature =
  inr (Z.of_nat (Py.count_nonzero feature) # Pos.of_nat (length feature)).
Proof.
  unfold row_density, Py.truediv. destruct (length feature); [lia|reflexivity].
Qed.

(** Once the evidence is selected the row has at least 50 entries. *)
Lemma selected_row_length feature w w1 evs high low :
  select_evidence rng text_data feature w = (w1, evs, inr (high, low)) ->
  50 <= length feature.
Proof.
  intros H. apply select_evidence_inv in H.
  destruct H as (fs & Hfs & _ & _ & Hle & _).
  rewrite (zero_samples_count _ _ _ _ Hfs) in Hle.
  pose proof (filter_length_le Py.is_zero feature). lia.
Qed.

Lemma process_feature_run index feature w :
  feature_run ai rng text_data handler index feature w
    (process_feature ai rng text_data handler index feature w).
Proof.
  unfold process_feature, bind at 1.
  destruct (select_evidence rng text_data feature w) as [[w1 evs0] [e|[high low]]]
    eqn:Hsel; pose proof (select_evidence_silent _ _ _ _ _ _ _ Hsel); subst evs0.
  - now constructor.
  - unfold bind at 1, try_except, bind at 1.
    destruct (interpret_and_score ai high low w1) as [[w2 evs] [e|r]] eqn:Htry.
    + unfold bind, emit, ret. simpl. rewrite !app_nil_r.
      eapply Run_skip; eauto.
    + assert (Hlen : 0 < length feature).
      { apply selected_row_length in Hsel. lia. }
      unfold ret at 1. unfold bind, lift, emit, call.
      rewrite (row_density_ok _ Hlen).
      fold (labelled index r
              (Z.of_nat (Py.count_nonzero feature) # Pos.of_nat (length feature))
              high low).
      destruct (handler _ w2) as [w3 res] eqn:Hh. simpl. rewrite !app_nil_r.
      eapply Run_emit; eauto. now apply row_density_ok.
Qed.

(** The body is a function: each way through it fixes the result. *)
Lemma process_feature_abort index feature w w1 e :
  select_evidence rng text_data feature w = (w1, [], inl e) ->
  process_feature ai rng text_data handler index feature w = (w1, [], inl e).
Proof.
  intros Hsel. pose proof (process_feature_run index feature w) as Hrun.
  inversion Hrun as [w1' e' Hs Heq | w1' high low w2 evs e' Hs Ht Heq
                    | w1' high low w2 evs r d w3 res Hs Ht Hd Hh Heq];
    rewrite Hsel in Hs; congruence.
Qed.

Lemma process_feature_skip index feature w w1 high low w2 evs e :
  select_evidence rng text_data feature w = (w1, [], inr (high, low)) ->
  interpret_and_score ai high low w1 = (w2, evs, inl e) ->
  process_feature ai rng text_data handler index feature w =
  (w2, evs ++ [Printed (skip_message e)], inr tt).
Proof.
  intros Hsel Htry. pose proof (process_feature_run index feature w) as Hrun.
  inversion Hrun as [w1' e' Hs Heq | w1' high' low' w2' evs' e' Hs Ht Heq
                    | w1' high' low' w2' evs' r d w3 res Hs Ht Hd Hh Heq];
    rewrite Hsel in Hs; try discriminate;
    injection Hs as <- <- <-; rewrite Htry in Ht; congruence.
Qed.

Lemma process_feature_emit index feature w w1 high low w2 evs r d :
  select_evidence rng text_data feature w = (w1, [], inr (high, low)) ->
  interpret_and_score ai high low w1 = (w2, evs, inr r) ->
  row_density feature = inr d ->
  process_feature ai rng text_data handler index feature w =
  (fst (handler (labelled index r d high low) w2),
   evs ++ [Handled (labelled index r d high low)],
   snd (handler (labelled index r d high low) w2)).
Proof.
  intros Hsel Htry Hden. pose proof (process_feature_run index feature w) as Hrun.
  inversion Hrun as [w1' e' Hs Heq | w1' high' low' w2' evs' e' Hs Ht Heq
                    | w1' high' low' w2' evs' r' d' w3 res Hs Ht Hd Hh Heq];
    rewrite Hsel in Hs; try discriminate;
    injection Hs as <- <- <-; rewrite Htry in Ht; try discriminate.
  injection Ht as <- <- <-. rewrite Hden in Hd. injection Hd as <-.
  now rewrite Hh.
Qed.

Lemma process_feature_handled index feature w f :
  In (Handled f) (snd (fst (process_feature ai rng text_data handler index feature w))) ->
  emitted_for ai rng text_data index feature f.
Proof.
  pose proof (process_feature_run index feature w) as Hrun.
  inversion Hrun as [w1 e Hs Heq | w1 high low w2 evs e Hs Ht Heq
                    | w1 high low w2 evs r d w3 res Hs Ht Hd Hh Heq];
    simpl; intros Hin.
  - destruct Hin.
  - exfalso. apply in_app_or in Hin. destruct Hin as [Hin|[Hin|[]]]; [|discriminate].
    apply interpret_and_score_requests in Ht. destruct Ht as [Hreq _].
    rewrite Forall_forall in Hreq. exact (Hreq _ Hin).
  - apply in_app_or in Hin. destruct Hin as [Hin|[Hin|[]]].
    + exfalso. apply interpret_and_score_requests in Ht. destruct Ht as [Hreq _].
      rewrite Forall_forall in Hreq. exact (Hreq _ Hin).
    + injection Hin as <-. unfold emitted_for. repeat eexists; eauto.
Qed.

(** *** The loop *)

Local Abbreviation body := (process_feature ai rng text_data handler).

Lemma for_enumerate_cons index feature rest w :
  for_enumerate body index (feature :: rest) w =
  match body index feature w with
  | (w1, ev1, inl e) => (w1, ev1, inl e)
  | (w1, ev1, inr _) =>
      match for_enumerate body (S index) rest w1 with
      | (w2, ev2, r) => (w2, ev1 ++ ev2, r)
      end
  end.
Proof. reflexivity. Qed.

(** Every event of the loop arises in the body run on some row, at
    the row's index. *)
Lemma for_enumerate_event rows :
  forall index w w' evs r ev,
    for_enumerate body index rows w = (w', evs, r) ->
    In ev evs ->
    exists j feature wj,
      nth_error rows j = Some feature /\
      In ev (snd (fst (body (index + j) feature wj))).
Proof.
  induction rows as [|feature rest IH]; intros index w w' evs r ev Hrun Hin.
  - simpl in Hrun. injection Hrun as _ <- _. destruct Hin.
  - rewrite for_enumerate_cons in Hrun.
    destruct (body index feature w) as [[w1 ev1] [e|[]]] eqn:Hb.
    + injection Hrun as _ <- _.
      exists 0, feature, w. rewrite Nat.add_0_r, Hb. auto.
    + destruct (for_enumerate body (S index) rest w1) as [[w2 ev2] r2] eqn:Hrest.
      injection Hrun as _ <- _. apply in_app_or in Hin. destruct Hin as [Hin|Hin].
      * exists 0, feature, w. rewrite Nat.add_0_r, Hb. auto.
      * destruct (IH _ _ _ _ _ _ Hrest Hin) as (j & f' & wj & Hj & Hev).
        exists (S j), f', wj. split; [exact Hj|].
        now replace (index + S j) with (S index + j) by lia.
Qed.

End LoopBody.

(** ** The whole run *)
Section Run.
Context {W : Type} (ai : OpenAIClient W) (rng : RandomState W).
Variables (sae : SparseAutoencoder) (embeddings : list Embedding).
Variables (text_data : list string) (n_feature_activations : Z).
Variables (handler : Handler W) (max_features : option Z).

Local Abbreviation run :=
  (run_interp_pipeline ai rng sae embeddings text_data n_feature_activations
     handler max_features).

Lemma run_unfold w :
  run w =
  match build_registry sae embeddings n_feature_activations with
  | inl e => (w, [], inl e)
  | inr reg =>
      for_enumerate (process_feature ai rng text_data handler) 0
        (truncate_registry max_features reg) w
  end.
Proof.
  unfold run_interp_pipeline, bind, lift.
  destruct (build_registry sae embeddings n_feature_activations) as [e|reg];
    [reflexivity|].
  destruct (for_enumerate _ 0 _ w) as [[w' evs] r]. reflexivity.
Qed.

(** Every record handed to the handler comes from the row of the
    (truncated) registry at the record's index. *)
Lemma run_handled w w' evs r f :
  run w = (w', evs, r) -> In (Handled f) evs ->
  exists reg feature,
    build_registry sae embeddings n_feature_activations = inr reg /\
    nth_error (truncate_registry max_features reg) (index f) = Some feature /\
    emitted_for ai rng text_data (index f) feature f.
Proof.
  rewrite run_unfold. intros Hrun Hin.
  destruct (build_registry sae embeddings n_feature_activations) as [e|reg].
  - injection Hrun as _ <- _. destruct Hin.
  - destruct (for_enumerate_event _ _ _ _ _ _ _ _ _ _ _ Hrun Hin)
      as (j & feature & wj & Hj & Hev).
    simpl in Hev. apply process_feature_handled in Hev.
    assert (Hidx : index f = j).
    { destruct Hev as (? & ? & ? & ? & ? & ? & ? & ? & _ & _ & _ & ->). reflexivity. }
    rewrite Hidx. eauto.
Qed.

End Run.

Lemma emitted_In evs f : In f (emitted evs) <-> In (Handled f) evs.
Proof.
  unfold emitted. rewrite in_flat_map. split.
  - intros [ev [Hev Hf]]. destruct ev; simpl in Hf; try tauto.
    destruct Hf as [->|[]]. exact Hev.
  - intros H. exists (Handled f). simpl. auto.
Qed.

(** C4.  Every record handed to the handler carries as confidence the
    absolute difference of the two percentages that the scoring calls
    returned, the first on the record's high-evidence samples and the
    second on its low-evidence samples, both with the record's
    attributes; when the two percentages are equal the confidence is
    0. *)
Theorem confidence_is_score_gap
        {W : Type} (ai : OpenAIClient W) (rng : RandomState W)
        (sae : SparseAutoencoder) (embeddings : list Embedding)
        (text_data : list string) (n_feature_activations : Z)
        (handler : Handler W) (max_features : option Z)
        (w w' : W) (evs : list Event) (r : exn + unit) (f : Feature) :
  run_interp_pipeline ai rng sae embeddings text_data n_feature_activations
    handler max_features w = (w', evs, r) ->
  In (Handled f) evs ->
  exists w1 w2 w3 hs ls high_act_score low_act_score,
    score_interpretation ai (high_act_samples f) (attributes f) w1 = (w2, inr hs) /\
    resp_percent hs = Some high_act_score /\
    score_interpretation ai (low_act_samples f) (attributes f) w2 = (w3, inr ls) /\
    resp_percent ls = Some low_act_score /\
    confidence f = Qabs (high_act_score - low_act_score) /\
    ((high_act_score == low_act_score)%Q -> (confidence f == 0)%Q).
Proof.
  intros Hrun Hin.
  destruct (run_handled _ _ _ _ _ _ _ _ _ _ _ _ _ Hrun Hin)
    as (reg & feature & _ & _ & Hem).
  destruct Hem as (wj & w1 & high & low & w2 & evs2 & ri & d & _ & Htry & _ & ->).
  apply interpret_and_score_ok in Htry.
  destruct Htry as (_ & wa & interp & wb & hs & ls & _ & _ & _ & _ & Hh & Hhp & Hl & Hlp).
  exists wa, wb, w2, hs, ls, (i_high_act_score ri), (i_low_act_score ri).
  cbn [labelled high_act_samples low_act_samples attributes confidence].
  repeat split; auto.
  intros Heq. rewrite Heq. unfold Qminus. rewrite Qplus_opp_r. reflexivity.
Qed.

Lemma confidence_is_score_gap_witness :
  exists f,
    In (Handled f)
       (snd (fst (run_interp_pipeline Scenario.ai_flat Scenario.rng_counter
                    Scenario.sae_id Scenario.embeddings_dead (Scenario.texts 50) 2
                    Scenario.handler_ok (Some 1%Z) Scenario.start))) /\
    (confidence f == 0)%Q.
Proof.
  destruct (run_interp_pipeline Scenario.ai_flat Scenario.rng_counter
              Scenario.sae_id Scenario.embeddings_dead (Scenario.texts 50) 2
              Scenario.handler_ok (Some 1%Z) Scenario.start)
    as [[w' evs] r] eqn:Hrun.
  pose proof Hrun as Hc. vm_compute in Hc. injection Hc as _ Hevs _.
  match type of Hevs with
  | (_ :: _ :: _ :: Handled ?f :: nil) = _ =>
      exists f;
      assert (Hin : In (Handled f) evs)
        by (rewrite <- Hevs; do 3 right; left; reflexivity)
  end.
  split; [exact Hin|].
  destruct (confidence_is_score_gap _ _ _ _ _ _ _ _ _ _ _ _ _ Hrun Hin)
    as (w1 & w2 & w3 & hs & ls & h & l & Hh & Hhp & Hl & Hlp & _ & Hzero).
  apply Hzero.
  unfold Scenario.ai_flat in Hh, Hl. cbn [score_interpretation] in Hh, Hl.
  injection Hh as _ <-. injection Hl as _ <-.
  cbn [resp_percent] in Hhp, Hlp.
  injection Hhp as <-. injection Hlp as <-. reflexivity.
Defined.

(** ** Density *)

Lemma count_nonzero_all_zero feature :
  Forall (fun a => (a == 0)%Q) feature -> Py.count_nonzero feature = 0.
Proof.
  unfold Py.count_nonzero. intros H. rewrite filter_none; [reflexivity|].
  eapply Forall_impl; [|exact H]. intros a Ha. simpl in Ha.
  destruct (Py.nonzero a) eqn:E; [|reflexivity].
  apply nonzero_spec in E. contradiction.
Qed.

Lemma count_nonzero_all_nonzero feature :
  Forall (fun a => ~ (a == 0)%Q) feature -> Py.count_nonzero feature = length feature.
Proof.
  unfold Py.count_nonzero. induction 1 as [|a t Ha _ IH]; simpl; [reflexivity|].
  apply nonzero_spec in Ha. rewrite Ha. simpl. now rewrite IH.
Qed.

(** C5.  The density of every record handed to the handler is the
    number of non-zero entries of the whole registry row at the record's
    index, divided by the length of that row; the quotient of line 130
    is 0 on a row of zeros and 1 on a row without zeros (on an empty row
    the division raises). *)
Theorem density_is_nonzero_fraction :
  (forall {W : Type} (ai : OpenAIClient W) (rng : RandomState W)
          (sae : SparseAutoencoder) (embeddings : list Embedding)
          (text_data : list string) (n_feature_activations : Z)
          (handler : Handler W) (max_features : option Z)
          (w w' : W) (evs : list Event) (r : exn + unit) (f : Feature),
      run_interp_pipeline ai rng sae embeddings text_data n_feature_activations
        handler max_features w = (w', evs, r) ->
      In (Handled f) evs ->
      exists reg feature,
        build_registry sae embeddings n_feature_activations = inr reg /\
        nth_error (truncate_registry max_features reg) (index f) = Some feature /\
        0 < length feature /\
        density f = Z.of_nat (Py.count_nonzero feature) # Pos.of_nat (length feature)) /\
  (forall feature : list Q,
      feature <> [] -> Forall (fun a => (a == 0)%Q) feature ->
      exists d, row_density feature = inr d /\ (d == 0)%Q) /\
  (forall feature : list Q,
      feature <> [] -> Forall (fun a => ~ (a == 0)%Q) feature ->
      exists d, row_density feature = inr d /\ (d == 1)%Q).
Proof.
  repeat split.
  - intros W ai rng sae embeddings text_data nfa handler max_features
           w w' evs r f Hrun Hin.
    destruct (run_handled _ _ _ _ _ _ _ _ _ _ _ _ _ Hrun Hin)
      as (reg & feature & Hreg & Hrow & Hem).
    destruct Hem as (wj & w1 & high & low & w2 & evs2 & ri & d & Hsel & _ & Hd & ->).
    exists reg, feature. apply selected_row_length in Hsel.
    assert (Hlen : 0 < length feature) by lia.
    rewrite (row_density_ok _ Hlen) in Hd. injection Hd as <-.
    repeat split; auto.
  - intros feature Hne Hzero.
    assert (Hlen : 0 < length feature) by (destruct feature; [congruence|simpl; lia]).
    eexists. split; [apply row_density_ok; exact Hlen|].
    rewrite (count_nonzero_all_zero _ Hzero). reflexivity.
  - intros feature Hne Hnz.
    assert (Hlen : 0 < length feature) by (destruct feature; [congruence|simpl; lia]).
    eexists. split; [apply row_density_ok; exact Hlen|].
    rewrite (count_nonzero_all_nonzero _ Hnz).
    unfold Qeq. simpl. lia.
Qed.

Lemma density_is_nonzero_fraction_witness :
  (exists f,
      In (Handled f)
         (snd (fst (run_interp_pipeline Scenario.ai_ok Scenario.rng_counter
                      Scenario.sae_id Scenario.embeddings_live (Scenario.texts 53) 2
                      Scenario.handler_ok (Some 1%Z) Scenario.start))) /\
      density f = 3 # 53) /\
  (exists d, row_density [0; 0 # 7; 0]%Q = inr d /\ (d == 0)%Q) /\
  (exists d, row_density [1; 5 # 2]%Q = inr d /\ (d == 1)%Q).
Proof.
  destruct density_is_nonzero_fraction as [Hrun [Hzero Hone]].
  split; [|split].
  - destruct (run_interp_pipeline Scenario.ai_ok Scenario.rng_counter
                Scenario.sae_id Scenario.embeddings_live (Scenario.texts 53) 2
                Scenario.handler_ok (Some 1%Z) Scenario.start)
      as [[w' evs] r] eqn:Hpipe.
    pose proof Hpipe as Hc. vm_compute in Hc. injection Hc as _ Hevs _.
    match type of Hevs with
    | (_ :: _ :: _ :: Handled ?f :: nil) = _ =>
        exists f;
        assert (Hin : In (Handled f) evs)
          by (rewrite <- Hevs; do 3 right; left; reflexivity)
    end.
    split; [exact Hin|].
    destruct (Hrun _ _ _ _ _ _ _ _ _ _ _ _ _ _ Hpipe Hin)
      as (reg & feature & Hreg & Hrow & _ & Hd).
    vm_compute in Hreg. injection Hreg as <-.
    vm_compute in Hrow. injection Hrow as <-.
    rewrite Hd. reflexivity.
  - apply Hzero; [discriminate|]. repeat constructor.
  - apply Hone; [discriminate|]. repeat constructor; discriminate.
Defined.

(** ** Low evidence *)

Lemma zero_samples_zero fs s : In s (zero_samples fs) -> (act s == 0)%Q.
Proof.
  unfold zero_samples. intros H. apply filter_In in H. now apply is_zero_spec.
Qed.

(** C7.  The low-evidence set of every record handed to the handler has
    exactly 50 entries; they are the zero-activation samples of the
    record's registry row found at 50 pairwise different positions of
    that subset, so each has activation 0. *)
Theorem low_evidence_is_fifty_zero_samples
        {W : Type} (ai : OpenAIClient W) (rng : RandomState W)
        (sae : SparseAutoencoder) (embeddings : list Embedding)
        (text_data : list string) (n_feature_activations : Z)
        (handler : Handler W) (max_features : option Z)
        (w w' : W) (evs : list Event) (r : exn + unit) (f : Feature) :
  run_interp_pipeline ai rng sae embeddings text_data n_feature_activations
    handler max_features w = (w', evs, r) ->
  In (Handled f) evs ->
  exists reg feature fs,
    build_registry sae embeddings n_feature_activations = inr reg /\
    nth_error (truncate_registry max_features reg) (index f) = Some feature /\
    feature_samples_from text_data 0 feature = inr fs /\
    length (low_act_samples f) = 50 /\
    Forall (fun s => (act s == 0)%Q) (low_act_samples f) /\
    exists positions,
      NoDup positions /\ length positions = 50 /\
      Forall2 (fun j s => nth_error (zero_samples (Py.sort_desc fs)) j = Some s)
              positions (low_act_samples f).
Proof.
  intros Hrun Hin.
  destruct (run_handled _ _ _ _ _ _ _ _ _ _ _ _ _ Hrun Hin)
    as (reg & feature & Hreg & Hrow & Hem).
  destruct Hem as (wj & w1 & high & low & w2 & evs2 & ri & d & Hsel & _ & _ & ->).
  apply select_evidence_inv in Hsel.
  destruct Hsel as (fs & Hfs & _ & Hch & _ & _).
  exists reg, feature, fs. cbn [labelled low_act_samples index] in *.
  repeat split; auto.
  - eapply chosen_from_length; eauto.
  - apply Forall_forall. intros s Hs.
    eapply zero_samples_zero, chosen_from_In; eauto.
  - destruct Hch as (idx & Hnd & Hlen & _ & Hall). eauto.
Qed.

Lemma low_evidence_is_fifty_zero_samples_witness :
  exists f,
    In (Handled f)
       (snd (fst (run_interp_pipeline Scenario.ai_ok Scenario.rng_counter
                    Scenario.sae_id Scenario.embeddings_live (Scenario.texts 53) 2
                    Scenario.handler_ok (Some 1%Z) Scenario.start))) /\
    length (low_act_samples f) = 50 /\
    Forall (fun s => (act s == 0)%Q) (low_act_samples f).
Proof.
  destruct (run_interp_pipeline Scenario.ai_ok Scenario.rng_counter
              Scenario.sae_id Scenario.embeddings_live (Scenario.texts 53) 2
              Scenario.handler_ok (Some 1%Z) Scenario.start)
    as [[w' evs] r] eqn:Hpipe.
  pose proof Hpipe as Hc. vm_compute in Hc. injection Hc as _ Hevs _.
  match type of Hevs with
  | (_ :: _ :: _ :: Handled ?f :: nil) = _ =>
      exists f;
      assert (Hin : In (Handled f) evs)
        by (rewrite <- Hevs; do 3 right; left; reflexivity)
  end.
  split; [exact Hin|].
  destruct (low_evidence_is_fifty_zero_samples _ _ _ _ _ _ _ _ _ _ _ _ _ Hpipe Hin)
    as (reg & feature & fs & _ & _ & _ & Hlen & Hzero & _).
  split; [exact Hlen|exact Hzero].
Defined.

(** ** Truncation *)

Lemma slice_stop_nonneg {A} (m : Z) (l : list A) :
  (0 <= m)%Z -> Py.slice_stop m l = firstn (Z.to_nat m) l.
Proof.
  intros Hm. unfold Py.slice_stop.
  destruct (m <? 0)%Z eqn:E; [apply Z.ltb_lt in E; lia|].
  destruct (Z.le_gt_cases m (Z.of_nat (length l))) as [Hle|Hgt].
  - now rewrite Z.min_l.
  - rewrite Z.min_r by lia. rewrite Nat2Z.id.
    rewrite firstn_all. symmetry. apply firstn_all2. lia.
Qed.

(** C8, as the code has it.  When [max_features] is a non-negative
    integer, the registry is cut down to its first [max_features] rows
    (all of them when there are fewer): row [j] of the result is row [j]
    of the registry for every [j < max_features], and every record
    handed to the handler has an index below [max_features]. *)
Theorem truncation_keeps_first_rows
        {W : Type} (ai : OpenAIClient W) (rng : RandomState W)
        (sae : SparseAutoencoder) (embeddings : list Embedding)
        (text_data : list string) (n_feature_activations : Z)
        (handler : Handler W) (m : Z) :
  (0 <= m)%Z ->
  (forall reg : Registry,
      truncate_registry (Some m) reg = firstn (Z.to_nat m) reg /\
      length (truncate_registry (Some m) reg) = Nat.min (Z.to_nat m) (length reg) /\
      forall j, (Z.of_nat j < m)%Z ->
                nth_error (truncate_registry (Some m) reg) j = nth_error reg j) /\
  (forall (w w' : W) (evs : list Event) (r : exn + unit) (f : Feature),
      run_interp_pipeline ai rng sae embeddings text_data n_feature_activations
        handler (Some m) w = (w', evs, r) ->
      In (Handled f) evs ->
      (Z.of_nat (index f) < m)%Z).
Proof.
  intros Hm. split.
  - intros reg. simpl. rewrite slice_stop_nonneg by exact Hm.
    split; [reflexivity|]. split; [apply length_firstn|].
    intros j Hj. rewrite nth_error_firstn.
    destruct (j <? Z.to_nat m) eqn:E; [reflexivity|].
    apply Nat.ltb_ge in E. lia.
  - intros w w' evs r f Hrun Hin.
    destruct (run_handled _ _ _ _ _ _ _ _ _ _ _ _ _ Hrun Hin)
      as (reg & feature & _ & Hrow & _).
    assert (Hlt : index f < length (truncate_registry (Some m) reg)).
    { apply nth_error_Some. congruence. }
    simpl in Hlt. rewrite slice_stop_nonneg, length_firstn in Hlt by exact Hm. lia.
Qed.

Lemma truncation_keeps_first_rows_witness :
  truncate_registry (Some 1%Z) [[0; 1]; [2; 3]; [4; 5]]%Q = [[0; 1]]%Q /\
  forall f,
    In (Handled f)
       (snd (fst (run_interp_pipeline Scenario.ai_ok Scenario.rng_counter
                    Scenario.sae_id Scenario.embeddings_dead (Scenario.texts 50) 2
                    Scenario.handler_ok (Some 1%Z) Scenario.start))) ->
    (Z.of_nat (index f) < 1)%Z.
Proof.
  assert (Hm : (0 <= 1)%Z) by lia.
  destruct (truncation_keeps_first_rows Scenario.ai_ok Scenario.rng_counter
              Scenario.sae_id Scenario.embeddings_dead (Scenario.texts 50) 2
              Scenario.handler_ok 1 Hm) as [Hrows Hindex].
  split.
  - rewrite (proj1 (Hrows _)). reflexivity.
  - intros f Hin.
    destruct (run_interp_pipeline Scenario.ai_ok Scenario.rng_counter
                Scenario.sae_id Scenario.embeddings_dead (Scenario.texts 50) 2
                Scenario.handler_ok (Some 1%Z) Scenario.start)
      as [[w' evs] r] eqn:Hpipe.
    eapply Hindex; eauto.
Defined.

(** C8 as stated fails on a negative [max_features]: the slice
    [[:-1]] drops the last row only, and the record of feature 0 is
    handed over although 0 is not below -1. *)
Lemma negative_max_features_counts_from_the_end :
  truncate_registry (Some (-1)%Z) [[0; 1]; [2; 3]; [4; 5]]%Q = [[0; 1]; [2; 3]]%Q /\
  exists f,
    In (Handled f)
       (snd (fst (run_interp_pipeline Scenario.ai_ok Scenario.rng_counter
                    Scenario.sae_id Scenario.embeddings_dead (Scenario.texts 50) 2
                    Scenario.handler_ok (Some (-1)%Z) Scenario.start))) /\
    ~ (Z.of_nat (index f) < -1)%Z.
Proof.
  split; [reflexivity|].
  destruct (run_interp_pipeline Scenario.ai_ok Scenario.rng_counter
              Scenario.sae_id Scenario.embeddings_dead (Scenario.texts 50) 2
              Scenario.handler_ok (Some (-1)%Z) Scenario.start)
    as [[w' evs] r] eqn:Hpipe.
  vm_compute in Hpipe. injection Hpipe as _ Hevs _.
  match type of Hevs with
  | (_ :: _ :: _ :: Handled ?f :: nil) = _ => exists f
  end.
  split; [rewrite <- Hevs; do 3 right; left; reflexivity|].
  simpl. lia.
Qed.

(** ** Failures *)

(** C1 fails on the code.  A row with fewer than 50 zero entries makes
    the choice of line 104 raise [ValueError]; the call stands before
    the [try] block, so the feature is not skipped: the exception
    leaves the loop, nothing is printed, and the rows after it are not
    processed. *)
Theorem evidence_shortage_escapes
        {W : Type} (ai : OpenAIClient W) (rng : RandomState W)
        (text_data : list string) (handler : Handler W)
        (index : nat) (feature : list Q) (rest : Registry) (w : W) :
  length feature <= length text_data ->
  length (filter Py.is_zero feature) < 50 ->
  exists msg,
    process_feature ai rng text_data handler index feature w =
    (w, [], inl (ValueError msg)) /\
    for_enumerate (process_feature ai rng text_data handler) index (feature :: rest) w =
    (w, [], inl (ValueError msg)).
Proof.
  intros Htext Hzero.
  destruct (feature_samples_from_total text_data feature 0) as [fs Hfs]; [lia|].
  assert (Hlt : length (zero_samples (Py.sort_desc fs)) < 50).
  { now rewrite (zero_samples_count _ _ _ _ Hfs). }
  destruct (select_evidence_shortage rng text_data feature fs w Hfs Hlt) as [msg Hsel].
  exists msg.
  assert (Hbody : process_feature ai rng text_data handler index feature w =
                  (w, [], inl (ValueError msg)))
    by (now apply process_feature_abort).
  split; [exact Hbody|].
  rewrite for_enumerate_cons, Hbody. reflexivity.
Qed.

Lemma evidence_shortage_escapes_witness :
  exists msg,
    for_enumerate
      (process_feature Scenario.ai_ok Scenario.rng_counter Scenario.texts_small
         Scenario.handler_ok)
      0 [[5 # 1; 0; 0]; [0; 0; 0]]%Q Scenario.start =
    (Scenario.start, [], inl (ValueError msg)).
Proof.
  destruct (evidence_shortage_escapes Scenario.ai_ok Scenario.rng_counter
              Scenario.texts_small Scenario.handler_ok 0 [5 # 1; 0; 0]%Q
              [[0; 0; 0]%Q] Scenario.start) as [msg [_ Hloop]].
  - simpl. lia.
  - simpl. lia.
  - exists msg. exact Hloop.
Defined.

(** Scenario A of the specification, run as a whole: the registry is
    [[5, 0, 0], [0, 0, 0]] and the run ends at feature 0 with the
    exception. *)
Example scenario_A_aborts :
  build_registry Scenario.sae_id Scenario.embeddings_small 2 =
  inr [[5 # 1; 0; 0]; [0; 0; 0]]%Q /\
  run_interp_pipeline Scenario.ai_ok Scenario.rng_counter Scenario.sae_id
    Scenario.embeddings_small Scenario.texts_small 2 Scenario.handler_ok None
    Scenario.start =
  (Scenario.start, [],
   inl (ValueError
          "Cannot take a larger sample than population when 'replace=False'")).
Proof. split; reflexivity. Qed.

(** C2.  When the evidence of a feature is selected and one of the
    three service calls raises, the body prints the skip message and
    ends normally: no record is handed to the handler for the feature,
    and the loop goes on with the next row from the world the failed
    call left. *)
Theorem service_failure_skips_feature
        {W : Type} (ai : OpenAIClient W) (rng : RandomState W)
        (text_data : list string) (handler : Handler W)
        (index : nat) (feature : list Q) (rest : Registry)
        (w w1 w2 : W) (high low : list FeatureSample) (e : exn) (evs : list Event) :
  select_evidence rng text_data feature w = (w1, [], inr (high, low)) ->
  service_call_raises ai high low w1 e w2 evs ->
  process_feature ai rng text_data handler index feature w =
  (w2, evs ++ [Printed (skip_message e)], inr tt) /\
  Forall (fun ev => ~ is_handled ev) (evs ++ [Printed (skip_message e)]) /\
  for_enumerate (process_feature ai rng text_data handler) index (feature :: rest) w =
  (let '(w3, evs3, r) :=
     for_enumerate (process_feature ai rng text_data handler) (S index) rest w2 in
   (w3, (evs ++ [Printed (skip_message e)]) ++ evs3, r)).
Proof.
  intros Hsel Hraise.
  pose proof (service_call_raises_try _ _ _ _ _ _ _ Hraise) as Htry.
  assert (Hbody : process_feature ai rng text_data handler index feature w =
                  (w2, evs ++ [Printed (skip_message e)], inr tt))
    by (eapply process_feature_skip; eauto).
  split; [exact Hbody|]. split.
  - apply Forall_app. split.
    + apply interpret_and_score_requests in Htry. destruct Htry as [Hreq _].
      eapply Forall_impl; [|exact Hreq]. intros [] Hr; simpl in *; tauto.
    + repeat constructor. simpl. tauto.
  - rewrite for_enumerate_cons, Hbody.
    destruct (for_enumerate _ (S index) rest w2) as [[w3 evs3] r]. reflexivity.
Qed.

Lemma service_failure_skips_feature_witness :
  exists w2 evs,
    process_feature Scenario.ai_down Scenario.rng_counter (Scenario.texts 50)
      Scenario.handler_ok 0 (repeat 0%Q 50) Scenario.start =
    (w2, evs ++ [Printed "Skipping feature due to error: boom"], inr tt) /\
    Forall (fun ev => ~ is_handled ev)
           (evs ++ [Printed "Skipping feature due to error: boom"]).
Proof.
  destruct (select_evidence_enough Scenario.rng_counter (Scenario.texts 50)
              (repeat 0%Q 50)
              (map (fun t => mkSample t 0) (Scenario.texts 50)) Scenario.start)
    as (w1 & low & Hsel).
  - reflexivity.
  - vm_compute. lia.
  - assert (Hraise : service_call_raises Scenario.ai_down
                       (high_evidence (Py.sort_desc
                          (map (fun t => mkSample t 0) (Scenario.texts 50))))
                       low w1 (ServiceError "boom") (S w1)
                       [Request_interpretation
                          (high_evidence (Py.sort_desc
                             (map (fun t => mkSample t 0) (Scenario.texts 50))))
                          low]).
    { apply Interpretation_raises. reflexivity. }
    destruct (service_failure_skips_feature Scenario.ai_down Scenario.rng_counter
                (Scenario.texts 50) Scenario.handler_ok 0 (repeat 0%Q 50) []
                _ _ _ _ _ _ _ Hsel Hraise) as (Hbody & Hnone & _).
    eexists _, _. split; [exact Hbody|exact Hnone].
Defined.

(** A response without its attributes: the subscript of line 112 raises
    [KeyError] inside the [try] block, and the feature is skipped in the
    same way. *)
Example malformed_response_is_skipped :
  let evs :=
    snd (fst (process_feature Scenario.ai_malformed Scenario.rng_counter
                (Scenario.texts 50) Scenario.handler_ok 0 (repeat 0%Q 50)
                Scenario.start)) in
  printed evs = ["Skipping feature due to error: 'attributes'"%string] /\
  emitted evs = [].
Proof. vm_compute. split; reflexivity. Qed.

(** ** A service that is down *)

Lemma prefix_app (p s : string) : prefix p (p ++ s)%string = true.
Proof.
  induction p as [|a p IH]; simpl.
  - now destruct s.
  - destruct (ascii_dec a a); [exact IH|congruence].
Qed.

Lemma per_feature_no_summary evs :
  Forall per_feature_event evs -> summary_line evs = None.
Proof.
  intros H. apply Forall_rev in H. unfold summary_line.
  destruct (rev evs) as [|[| |line|] t]; try reflexivity.
  inversion H as [|? ? Hp _]; subst. simpl in Hp. destruct Hp as [e ->].
  unfold skip_message.
  now rewrite prefix_app.
Qed.

Lemma per_feature_emitted evs : Forall per_feature_event evs -> emitted evs = [].
Proof.
  induction 1 as [|ev t Hev _ IH]; [reflexivity|].
  destruct ev; simpl in *; auto. destruct Hev.
Qed.

Lemma per_feature_printed evs :
  Forall per_feature_event evs ->
  Forall (fun line => exists e, line = skip_message e) (printed evs).
Proof.
  induction 1 as [|ev t Hev _ IH]; [constructor|].
  destruct ev; simpl in *; auto.
Qed.

Lemma printed_app evs1 evs2 : printed (evs1 ++ evs2) = printed evs1 ++ printed evs2.
Proof. unfold printed. apply flat_map_app. Qed.

Lemma build_registry_shape sae embeddings n_feature_activations reg :
  build_registry sae embeddings n_feature_activations = inr reg ->
  shape reg (Z.to_nat n_feature_activations) (length embeddings).
Proof.
  unfold build_registry.
  destruct (Py.np_zeros n_feature_activations (length embeddings))
    as [err|reg0] eqn:Hz; [discriminate|].
  apply np_zeros_shape in Hz. destruct Hz as [_ Hshape]. intros Hfill.
  assert (Hlen : 0 + length embeddings <= length embeddings) by lia.
  exact (proj1 (fill_registry_cells sae _ _ embeddings 0 reg0 reg Hshape Hlen Hfill)).
Qed.

Lemma truncate_registry_In max_features reg feature :
  In feature (truncate_registry max_features reg) -> In feature reg.
Proof.
  destruct max_features as [m|]; simpl; [|auto].
  unfold Py.slice_stop. apply in_firstn_in.
Qed.

Section ServiceDown.
Context {W : Type} (ai : OpenAIClient W) (rng : RandomState W).
Variables (text_data : list string) (handler : Handler W).
Hypothesis down :
  forall high low w, exists w1 e, get_interpretation ai high low w = (w1, inl e).

Lemma for_enumerate_all_skipped rows :
  (forall feature, In feature rows ->
     length feature <= length text_data /\
     50 <= length (filter Py.is_zero feature)) ->
  forall index w,
  exists w' evs,
    for_enumerate (process_feature ai rng text_data handler) index rows w =
    (w', evs, inr tt) /\
    Forall per_feature_event evs /\
    length (printed evs) = length rows.
Proof using down.
  induction rows as [|feature rest IH]; intros Hrows index w.
  - exists w, []. repeat split. constructor.
  - destruct (Hrows feature (or_introl eq_refl)) as [Htext Hzero].
    destruct (feature_samples_from_total text_data feature 0) as [fs Hfs]; [lia|].
    rewrite <- (zero_samples_count _ _ _ _ Hfs) in Hzero.
    destruct (select_evidence_enough rng text_data feature fs w Hfs Hzero)
      as (w1 & low & Hsel).
    destruct (down (high_evidence (Py.sort_desc fs)) low w1) as (w2 & e & Hcall).
    pose proof (service_call_raises_try _ _ _ _ _ _ _
                  (Interpretation_raises ai _ _ _ _ _ Hcall)) as Htry.
    pose proof (process_feature_skip ai rng text_data handler index _ _ _ _ _ _ _ _
                  Hsel Htry) as Hbody.
    destruct (IH (fun f Hf => Hrows f (or_intror Hf)) (S index) w2)
      as (w' & evs & Hrest & Hall & Hcount).
    exists w', (([Request_interpretation (high_evidence (Py.sort_desc fs)) low]
                 ++ [Printed (skip_message e)]) ++ evs).
    rewrite for_enumerate_cons, Hbody, Hrest. split; [reflexivity|]. split.
    + apply Forall_app. split; [|exact Hall].
      repeat constructor. simpl. eauto.
    + rewrite printed_app. simpl. now rewrite Hcount.
Qed.

End ServiceDown.

(** C9, as the code has it.  When every interpretation call raises, the
    registry is built, there is a sentence for every sample and every
    processed row has at least 50 zero entries, the run ends normally;
    no record is handed to the handler; one line is printed per
    processed feature, each the skip message of line 121; and nothing
    is printed after them: the run reports no count. *)
Theorem service_down_run_completes
        {W : Type} (ai : OpenAIClient W) (rng : RandomState W)
        (sae : SparseAutoencoder) (embeddings : list Embedding)
        (text_data : list string) (n_feature_activations : Z)
        (handler : Handler W) (max_features : option Z)
        (reg : Registry) (w : W) :
  (forall high low w0, exists w1 e, get_interpretation ai high low w0 = (w1, inl e)) ->
  build_registry sae embeddings n_feature_activations = inr reg ->
  length embeddings <= length text_data ->
  (forall feature, In feature (truncate_registry max_features reg) ->
                   50 <= length (filter Py.is_zero feature)) ->
  exists w' evs,
    run_interp_pipeline ai rng sae embeddings text_data n_feature_activations
      handler max_features w = (w', evs, inr tt) /\
    emitted evs = [] /\
    length (printed evs) = length (truncate_registry max_features reg) /\
    Forall (fun line => exists e, line = skip_message e) (printed evs) /\
    summary_line evs = None.
Proof.
  intros Hdown Hbuild Htext Hzero.
  pose proof (build_registry_shape _ _ _ _ Hbuild) as [_ Hrows].
  rewrite Forall_forall in Hrows.
  destruct (for_enumerate_all_skipped ai rng text_data handler Hdown
              (truncate_registry max_features reg)) with (index := 0) (w := w)
    as (w' & evs & Hloop & Hall & Hcount).
  { intros feature Hin. split; [|now apply Hzero].
    rewrite (Hrows feature); [exact Htext|].
    eapply truncate_registry_In; eauto. }
  exists w', evs. rewrite run_unfold, Hbuild. split; [exact Hloop|].
  split; [now apply per_feature_emitted|]. split; [exact Hcount|].
  split; [now apply per_feature_printed|now apply per_feature_no_summary].
Qed.

Lemma service_down_run_completes_witness :
  exists w' evs,
    run_interp_pipeline Scenario.ai_down Scenario.rng_counter Scenario.sae_id
      Scenario.embeddings_dead (Scenario.texts 50) 2 Scenario.handler_ok None
      Scenario.start = (w', evs, inr tt) /\
    emitted evs = [] /\
    length (printed evs) = 2 /\
    summary_line evs = None.
Proof.
  destruct (service_down_run_completes Scenario.ai_down Scenario.rng_counter
              Scenario.sae_id Scenario.embeddings_dead (Scenario.texts 50) 2
              Scenario.handler_ok None (repeat (repeat 0%Q 50) 2) Scenario.start)
    as (w' & evs & Hrun & Hem & Hcount & _ & Hsum).
  - intros high low w0. exists (S w0), (ServiceError "boom"). reflexivity.
  - vm_compute. reflexivity.
  - vm_compute. lia.
  - intros feature Hin. simpl in Hin.
    destruct Hin as [<-|[<-|[]]]; vm_compute; lia.
  - exists w', evs. repeat split; auto.
Defined.

(** C9 as stated fails: with two features and a service that raises on
    every call, the run ends normally and hands over no record, but all
    it prints is the skip message of each feature; no line reports the
    count 2. *)
Lemma no_skip_count_is_reported :
  exists w' evs,
    run_interp_pipeline Scenario.ai_down Scenario.rng_counter Scenario.sae_id
      Scenario.embeddings_dead (Scenario.texts 50) 2 Scenario.handler_ok None
      Scenario.start = (w', evs, inr tt) /\
    emitted evs = [] /\
    printed evs = ["Skipping feature due to error: boom";
                   "Skipping feature due to error: boom"]%string /\
    summary_line evs = None.
Proof.
  destruct (run_interp_pipeline Scenario.ai_down Scenario.rng_counter Scenario.sae_id
              Scenario.embeddings_dead (Scenario.texts 50) 2 Scenario.handler_ok None
              Scenario.start) as [[w' evs] r] eqn:Hrun.
  vm_compute in Hrun. injection Hrun as <- <- <-.
  eexists _, _. split; [reflexivity|]. repeat split.
Qed.

(** ** High evidence *)

(** C6.  For a row of non-negative activations whose evidence the
    pipeline selects: the samples are sorted descending by activation
    (a permutation of the samples of the row), and the high-evidence
    set that [select_evidence] returns is the prefix of that sorted
    list of length [min(50, number of non-zero entries of the row)]; so
    it has at most 50 samples, none with activation zero, and no sample
    left out has a larger activation than one taken.  It is this set
    that the loop body hands to the interpretation service, and that
    every record of the row stores. *)
Theorem high_evidence_is_top_nonzero
        {W : Type} (ai : OpenAIClient W) (rng : RandomState W)
        (text_data : list string) (handler : Handler W)
        (position : nat) (feature : list Q)
        (w w1 : W) (evs : list Event) (high low : list FeatureSample) :
  Forall (fun a => (0 <= a)%Q) feature ->
  select_evidence rng text_data feature w = (w1, evs, inr (high, low)) ->
  exists fs,
    feature_samples_from text_data 0 feature = inr fs /\
    let feature_samples := Py.sort_desc fs in
    let k := Nat.min 50 (Py.count_nonzero feature) in
    Permutation feature_samples fs /\
    StronglySorted act_ge feature_samples /\
    high = firstn k feature_samples /\
    length high = k /\
    length high <= 50 /\
    Forall (fun s => ~ (act s == 0)%Q) high /\
    (forall s s', In s high -> In s' (skipn k feature_samples) ->
                  (act s' <= act s)%Q) /\
    exists w' evs' r,
      process_feature ai rng text_data handler position feature w =
      (w', Request_interpretation high low :: evs', r) /\
      forall f, In (Handled f) evs' -> high_act_samples f = high.
Proof.
  intros Hpos Hsel.
  pose proof (select_evidence_silent _ _ _ _ _ _ _ Hsel) as ->.
  pose proof (selected_row_length _ _ _ _ _ _ _ _ Hsel) as Hlen.
  destruct (select_evidence_inv _ _ _ _ _ _ _ _ Hsel) as (fs & Hfs & Hhigh & _ & _ & _).
  exists fs. split; [exact Hfs|]. cbv zeta.
  destruct (sorted_high_evidence_prefix _ _ _ Hfs Hpos)
    as (Hperm & Hsorted & Hpre & Hk & H50 & Hnz & Htop).
  rewrite <- Hhigh in Hpre, Hk, H50, Hnz, Htop.
  do 7 (split; [assumption|]).
  assert (Hd : row_density feature =
               inr (Z.of_nat (Py.count_nonzero feature) # Pos.of_nat (length feature)))
    by (apply row_density_ok; lia).
  destruct (interpret_and_score ai high low w1) as [[w2 evs2] [e|r]] eqn:Htry;
    destruct (interpret_and_score_requests _ _ _ _ _ _ _ Htry) as [Hreq [evs' Hevs]];
    subst evs2; inversion Hreq as [|? ? _ Hreq']; subst;
    rewrite Forall_forall in Hreq'.
  - rewrite (process_feature_skip ai rng text_data handler position _ _ _ _ _ _ _ _
               Hsel Htry).
    eexists _, _, _. split; [reflexivity|].
    intros f Hin. exfalso. apply in_app_or in Hin.
    destruct Hin as [Hin|[Hin|[]]]; [exact (Hreq' _ Hin)|discriminate].
  - rewrite (process_feature_emit ai rng text_data handler position _ _ _ _ _ _ _ _ _
               Hsel Htry Hd).
    eexists _, _, _. split; [reflexivity|].
    intros f Hin. apply in_app_or in Hin.
    destruct Hin as [Hin|[Hin|[]]]; [exfalso; exact (Hreq' _ Hin)|].
    injection Hin as <-. reflexivity.
Qed.

Lemma high_evidence_is_top_nonzero_witness :
  exists w1 high low w' evs' r,
    select_evidence Scenario.rng_counter (Scenario.texts 53)
      ([3 # 1; 1 # 2; 3 # 1]%Q ++ repeat 0%Q 50) Scenario.start =
    (w1, [], inr (high, low)) /\
    high = [mkSample "0" (3 # 1); mkSample "2" (3 # 1); mkSample "1" (1 # 2)] /\
    Forall (fun s => ~ (act s == 0)%Q) high /\
    process_feature Scenario.ai_ok Scenario.rng_counter (Scenario.texts 53)
      Scenario.handler_ok 0 ([3 # 1; 1 # 2; 3 # 1]%Q ++ repeat 0%Q 50) Scenario.start =
    (w', Request_interpretation high low :: evs', r).
Proof.
  destruct (select_evidence Scenario.rng_counter (Scenario.texts 53)
              ([3 # 1; 1 # 2; 3 # 1]%Q ++ repeat 0%Q 50) Scenario.start)
    as [[w1 evs] [e|[high low]]] eqn:Hsel.
  { exfalso. vm_compute in Hsel. discriminate. }
  assert (Hpos : Forall (fun a => (0 <= a)%Q) ([3 # 1; 1 # 2; 3 # 1]%Q ++ repeat 0%Q 50)).
  { apply Forall_app. split; [repeat constructor; discriminate|].
    apply Forall_forall. intros a Ha. apply repeat_spec in Ha. subst. discriminate. }
  destruct (high_evidence_is_top_nonzero Scenario.ai_ok Scenario.rng_counter
              (Scenario.texts 53) Scenario.handler_ok 0 _ _ _ _ _ _ Hpos Hsel)
    as (fs & Hfs & _ & _ & Hhigh & _ & _ & Hnz & _ & w' & evs' & r & Hbody & _).
  pose proof (select_evidence_silent _ _ _ _ _ _ _ Hsel) as Hevs. subst evs.
  exists w1, high, low, w', evs', r.
  split; [reflexivity|]. split; [|split; [exact Hnz|exact Hbody]].
  vm_compute in Hfs. injection Hfs as <-. rewrite Hhigh. reflexivity.
Defined.

(** ** Dead features *)

Lemma high_evidence_all_zero fs :
  Forall (fun s => (act s == 0)%Q) fs -> high_evidence fs = [].
Proof.
  intros H. unfold high_evidence. apply filter_none.
  apply Forall_forall. intros s Hin. apply in_firstn_in in Hin.
  rewrite Forall_forall in H. specialize (H s Hin). simpl.
  destruct (Py.nonzero (act s)) eqn:E; [|reflexivity].
  apply nonzero_spec in E. contradiction.
Qed.

Lemma filter_is_zero_all feature :
  Forall (fun a => (a == 0)%Q) feature -> filter Py.is_zero feature = feature.
Proof.
  induction 1 as [|a t Ha _ IH]; simpl; [reflexivity|].
  apply is_zero_spec in Ha. now rewrite Ha, IH.
Qed.

(** The [try] block, read forwards: when the three calls answer and
    every key is present, the block returns what the service said. *)
Lemma interpret_and_score_answers
      {W : Type} (ai : OpenAIClient W) (high low : list FeatureSample)
      (w w2 w3 w4 : W) interp lbl rsn attrs hs h ls l :
  get_interpretation ai high low w = (w2, inr interp) ->
  resp_label interp = Some lbl ->
  resp_reasoning interp = Some rsn ->
  resp_attributes interp = Some attrs ->
  score_interpretation ai high attrs w2 = (w3, inr hs) ->
  resp_percent hs = Some h ->
  score_interpretation ai low attrs w3 = (w4, inr ls) ->
  resp_percent ls = Some l ->
  interpret_and_score ai high low w =
  (w4,
   [Request_interpretation high low; Request_score high attrs; Request_score low attrs],
   inr {| i_label := lbl; i_reasoning := rsn; i_attributes := attrs;
          i_high_act_score := h; i_low_act_score := l |}).
Proof.
  intros Hget Hl Hr Ha Hs1 Hh Hs2 Hlo.
  unfold interpret_and_score, bind, emit, call, getitem, ret, raise.
  now rewrite Hget, Hl, Hr, Ha, Hs1, Hh, Hs2, Hlo.
Qed.

(** C10.  A row of zeros over at least 50 samples (each with its
    sentence) is not set aside for lack of high evidence: the evidence
    is selected with an empty high-evidence set, and what the body does
    next is decided by the answer of [ai.get_interpretation] on that
    empty set and the low-evidence set.  When this call raises, the
    feature is skipped with the message of the service's exception.
    When it answers with its three keys and the two scoring calls, on
    the empty set and on the low-evidence set with the answered
    attributes, return their percentages, the record handed to the
    handler carries the service's label, reasoning and attributes, the
    gap of the two percentages, density 0 and an empty high-evidence
    set. *)
Theorem dead_feature_is_interpreted
        {W : Type} (ai : OpenAIClient W) (rng : RandomState W)
        (text_data : list string) (handler : Handler W)
        (position : nat) (feature : list Q) (w : W) :
  Forall (fun a => (a == 0)%Q) feature ->
  50 <= length feature ->
  length feature <= length text_data ->
  exists w1 low,
    select_evidence rng text_data feature w = (w1, [], inr ([], low)) /\
    (forall w2 e,
        get_interpretation ai [] low w1 = (w2, inl e) ->
        process_feature ai rng text_data handler position feature w =
        (w2, [Request_interpretation [] low; Printed (skip_message e)], inr tt)) /\
    (forall w2 interp lbl rsn attrs w3 hs h w4 ls l,
        get_interpretation ai [] low w1 = (w2, inr interp) ->
        resp_label interp = Some lbl ->
        resp_reasoning interp = Some rsn ->
        resp_attributes interp = Some attrs ->
        score_interpretation ai [] attrs w2 = (w3, inr hs) ->
        resp_percent hs = Some h ->
        score_interpretation ai low attrs w3 = (w4, inr ls) ->
        resp_percent ls = Some l ->
        exists f,
          process_feature ai rng text_data handler position feature w =
          (fst (handler f w4),
           [Request_interpretation [] low; Request_score [] attrs;
            Request_score low attrs; Handled f],
           snd (handler f w4)) /\
          index f = position /\
          label f = lbl /\
          reasoning f = rsn /\
          attributes f = attrs /\
          confidence f = Qabs (h - l) /\
          (density f == 0)%Q /\
          high_act_samples f = [] /\
          low_act_samples f = low).
Proof.
  intros Hdead Hlen Htext.
  destruct (feature_samples_from_total text_data feature 0) as [fs Hfs]; [lia|].
  assert (Hzeros : 50 <= length (zero_samples (Py.sort_desc fs))).
  { rewrite (zero_samples_count _ _ _ _ Hfs), filter_is_zero_all; auto. }
  assert (Hhigh : high_evidence (Py.sort_desc fs) = []).
  { apply high_evidence_all_zero.
    eapply Permutation_Forall; [symmetry; apply sort_desc_perm|].
    destruct (feature_samples_from_spec _ _ _ _ Hfs) as [Hact _].
    rewrite <- Hact in Hdead. rewrite Forall_forall in Hdead.
    apply Forall_forall. intros s Hin. apply Hdead. now apply in_map. }
  destruct (select_evidence_enough rng text_data feature fs w Hfs Hzeros)
    as (w1 & low & Hsel).
  rewrite Hhigh in Hsel. exists w1, low. split; [exact Hsel|].
  assert (Hd : row_density feature = inr (0 # Pos.of_nat (length feature))).
  { rewrite row_density_ok by lia. now rewrite count_nonzero_all_zero. }
  split.
  - intros w2 e Hget.
    apply (process_feature_skip ai rng text_data handler position feature w w1 [] low
             w2 [Request_interpretation [] low] e Hsel).
    apply service_call_raises_try. now constructor.
  - intros w2 interp lbl rsn attrs w3 hs h w4 ls l Hget Hl Hr Ha Hs1 Hh Hs2 Hlo.
    pose proof (interpret_and_score_answers ai [] low w1 w2 w3 w4 interp lbl rsn attrs
                  hs h ls l Hget Hl Hr Ha Hs1 Hh Hs2 Hlo) as Htry.
    eexists. split.
    + exact (process_feature_emit ai rng text_data handler position _ _ _ _ _ _ _ _ _
               Hsel Htry Hd).
    + cbn [labelled index label reasoning attributes confidence density
             high_act_samples low_act_samples
             i_label i_reasoning i_attributes i_high_act_score i_low_act_score].
      repeat split.
Qed.

Lemma dead_feature_is_interpreted_witness :
  exists w' low f,
    process_feature Scenario.ai_ok Scenario.rng_counter (Scenario.texts 50)
      Scenario.handler_ok 7 (repeat 0%Q 50) Scenario.start =
    (w',
     [Request_interpretation [] low; Request_score [] ["attribute"%string];
      Request_score low ["attribute"%string]; Handled f],
     inr tt) /\
    index f = 7 /\
    label f = "label"%string /\
    confidence f = Qabs ((0 # 1) - (50 # 1)) /\
    (density f == 0)%Q /\
    high_act_samples f = [] /\
    low_act_samples f = low.
Proof.
  destruct (dead_feature_is_interpreted Scenario.ai_ok Scenario.rng_counter
              (Scenario.texts 50) Scenario.handler_ok 7 (repeat 0%Q 50)
              Scenario.start) as (w1 & low & Hsel & _ & Hemit).
  - apply Forall_forall. intros a Ha. apply repeat_spec in Ha. now subst.
  - vm_compute. lia.
  - vm_compute. lia.
  - assert (Hlow : length low = 50).
    { apply select_evidence_inv in Hsel. destruct Hsel as (fs & _ & _ & Hch & _).
      eapply chosen_from_length; eauto. }
    destruct (Hemit (S w1)
                {| resp_label := Some "label"%string;
                   resp_reasoning := Some "reasoning"%string;
                   resp_attributes := Some ["attribute"%string] |}
                "label"%string "reasoning"%string ["attribute"%string]
                (S (S w1)) {| resp_percent := Some (0 # 1) |} (0 # 1)
                (S (S (S w1))) {| resp_percent := Some (50 # 1) |} (50 # 1))
      as (f & Hbody & Hidx & Hlab & _ & _ & Hconf & Hden & Hhigh & Hlo);
      try reflexivity.
    { cbn [Scenario.ai_ok score_interpretation]. now rewrite Hlow. }
    exists (S (S (S (S w1)))), low, f. repeat split; auto.
Defined.

(** * Further properties of the run *)

Lemma emitted_app evs1 evs2 : emitted (evs1 ++ evs2) = emitted evs1 ++ emitted evs2.
Proof. unfold emitted. apply flat_map_app. Qed.

Lemma requests_silent evs :
  Forall is_request evs -> emitted evs = [] /\ printed evs = [].
Proof.
  induction 1 as [|ev t Hev _ [IHe IHp]]; [split; reflexivity|].
  destruct ev; simpl in *; try tauto.
Qed.

Section Trace.
Context {W : Type} (ai : OpenAIClient W) (rng : RandomState W).
Variables (text_data : list string) (handler : Handler W).

Local Abbreviation body := (process_feature ai rng text_data handler).

(** What one pass through the body leaves in the trace. *)
Lemma body_trace position feature w w1 ev1 r1 :
  body position feature w = (w1, ev1, r1) ->
  (emitted ev1 = [] /\ printed ev1 = [] /\ exists e, r1 = inl e) \/
  (emitted ev1 = [] /\ (exists e, printed ev1 = [skip_message e]) /\ r1 = inr tt) \/
  (exists f, emitted ev1 = [f] /\ printed ev1 = [] /\ index f = position /\
             emitted_for ai rng text_data position feature f).
Proof.
  intros Hbody. pose proof (process_feature_run ai rng text_data handler position feature w)
    as Hrun. rewrite Hbody in Hrun.
  inversion Hrun as [w0 e Hs | w0 high low w2 evs e Hs Ht
                    | w0 high low w2 evs r d w3 res Hs Ht Hd Hh]; subst.
  - left. repeat split. eauto.
  - right; left.
    apply interpret_and_score_requests in Ht. destruct Ht as [Hreq _].
    apply requests_silent in Hreq. destruct Hreq as [He Hp].
    rewrite emitted_app, printed_app, He, Hp. simpl. repeat split. eauto.
  - right; right. exists (labelled position r d high low).
    pose proof Ht as Ht'.
    apply interpret_and_score_requests in Ht. destruct Ht as [Hreq _].
    apply requests_silent in Hreq. destruct Hreq as [He Hp].
    rewrite emitted_app, printed_app, He, Hp. simpl. repeat split.
    unfold emitted_for. repeat eexists; eauto.
Qed.

Lemma for_enumerate_trace rows :
  forall position w w' evs r,
    for_enumerate body position rows w = (w', evs, r) ->
    StronglySorted lt (map index (emitted evs)) /\
    Forall (fun i => position <= i < position + length rows) (map index (emitted evs)) /\
    length (emitted evs) + length (printed evs) <= length rows /\
    (r = inr tt -> length (emitted evs) + length (printed evs) = length rows) /\
    Forall (fun line => exists e, line = skip_message e) (printed evs).
Proof.
  induction rows as [|feature rest IH]; intros position w w' evs r Hrun.
  - simpl in Hrun. injection Hrun as _ <- _. simpl. repeat split; auto; constructor.
  - rewrite for_enumerate_cons in Hrun.
    destruct (body position feature w) as [[w1 ev1] r1] eqn:Hbody.
    pose proof (body_trace _ _ _ _ _ _ Hbody) as Hcases.
    destruct r1 as [e1|[]].
    + injection Hrun as _ <- <-.
      destruct Hcases as [(He & Hp & _) | [(_ & _ & Habs) | (f & He & Hp & Hi & _)]];
        try discriminate; rewrite He, Hp; cbn [map length app].
      * split; [constructor|]. split; [constructor|]. split; [lia|].
        split; [discriminate|constructor].
      * split; [repeat constructor|]. split; [constructor; [lia|constructor]|].
        split; [lia|]. split; [discriminate|constructor].
    + destruct (for_enumerate body (S position) rest w1) as [[w2 ev2] r2] eqn:Hrest.
      injection Hrun as _ <- <-.
      destruct (IH _ _ _ _ _ Hrest) as (Hsort & Hrange & Hle & Heq & Hmsg).
      assert (Hrange' : Forall (fun i => position <= i < position + length (feature :: rest))
                               (map index (emitted ev2))).
      { eapply Forall_impl; [|exact Hrange]. cbn [length]. intros; lia. }
      assert (Hafter : Forall (lt position) (map index (emitted ev2))).
      { eapply Forall_impl; [|exact Hrange]. cbn beta. intros; lia. }
      rewrite emitted_app, printed_app, map_app, !length_app.
      destruct Hcases as [(_ & _ & [e Habs]) | [(He & [e Hp] & _) | (f & He & Hp & Hi & _)]];
        try discriminate; rewrite He, Hp; cbn [map length app] in *.
      * split; [exact Hsort|]. split; [exact Hrange'|]. split; [lia|].
        split; [intros Hr; specialize (Heq Hr); lia|].
        constructor; eauto.
      * rewrite Hi.
        split; [constructor; assumption|].
        split; [constructor; [lia|exact Hrange']|]. split; [lia|].
        split; [intros Hr; specialize (Heq Hr); lia|exact Hmsg].
Qed.

End Trace.

(** X1.  The records reach the handler in the order of the rows: their
    indices increase strictly along the run, so no feature is handed
    over twice, and each index is that of a row of the (truncated)
    registry. *)
Theorem emission_in_index_order
        {W : Type} (ai : OpenAIClient W) (rng : RandomState W)
        (sae : SparseAutoencoder) (embeddings : list Embedding)
        (text_data : list string) (n_feature_activations : Z)
        (handler : Handler W) (max_features : option Z)
        (reg : Registry) (w w' : W) (evs : list Event) (r : exn + unit) :
  build_registry sae embeddings n_feature_activations = inr reg ->
  run_interp_pipeline ai rng sae embeddings text_data n_feature_activations
    handler max_features w = (w', evs, r) ->
  StronglySorted lt (map index (emitted evs)) /\
  NoDup (map index (emitted evs)) /\
  Forall (fun i => i < length (truncate_registry max_features reg))
         (map index (emitted evs)).
Proof.
  intros Hbuild Hrun. rewrite run_unfold, Hbuild in Hrun.
  destruct (for_enumerate_trace _ _ _ _ _ _ _ _ _ _ Hrun) as (Hsort & Hrange & _).
  split; [exact Hsort|]. split.
  - clear -Hsort. induction Hsort as [|i l _ IH Hi]; constructor; auto.
    intro Hin. rewrite Forall_forall in Hi. specialize (Hi _ Hin). lia.
  - eapply Forall_impl; [|exact Hrange]. simpl. intros; lia.
Qed.

(** X2.  Each processed row leaves at most one record or one printed
    line, and every printed line is a skip message; when the run ends
    normally the records and the skip lines together are as many as the
    rows of the (truncated) registry. *)
Theorem every_feature_accounted
        {W : Type} (ai : OpenAIClient W) (rng : RandomState W)
        (sae : SparseAutoencoder) (embeddings : list Embedding)
        (text_data : list string) (n_feature_activations : Z)
        (handler : Handler W) (max_features : option Z)
        (reg : Registry) (w w' : W) (evs : list Event) (r : exn + unit) :
  build_registry sae embeddings n_feature_activations = inr reg ->
  run_interp_pipeline ai rng sae embeddings text_data n_feature_activations
    handler max_features w = (w', evs, r) ->
  length (emitted evs) + length (printed evs)
    <= length (truncate_registry max_features reg) /\
  (r = inr tt ->
   length (emitted evs) + length (printed evs)
     = length (truncate_registry max_features reg)) /\
  Forall (fun line => exists e, line = skip_message e) (printed evs).
Proof.
  intros Hbuild Hrun. rewrite run_unfold, Hbuild in Hrun.
  destruct (for_enumerate_trace _ _ _ _ _ _ _ _ _ _ Hrun) as (_ & _ & Hle & Heq & Hmsg).
  auto.
Qed.

Lemma emission_in_index_order_witness :
  map index
      (emitted (snd (fst (run_interp_pipeline Scenario.ai_ok Scenario.rng_counter
                            Scenario.sae_id Scenario.embeddings_dead
                            (Scenario.texts 50) 2 Scenario.handler_ok None
                            Scenario.start)))) = [0; 1] /\
  NoDup (map index
           (emitted (snd (fst (run_interp_pipeline Scenario.ai_ok Scenario.rng_counter
                                 Scenario.sae_id Scenario.embeddings_dead
                                 (Scenario.texts 50) 2 Scenario.handler_ok None
                                 Scenario.start))))).
Proof.
  assert (Hbuild : build_registry Scenario.sae_id Scenario.embeddings_dead 2 =
                   inr (repeat (repeat 0%Q 50) 2)) by (vm_compute; reflexivity).
  destruct (run_interp_pipeline Scenario.ai_ok Scenario.rng_counter
              Scenario.sae_id Scenario.embeddings_dead (Scenario.texts 50) 2
              Scenario.handler_ok None Scenario.start) as [[w' evs] r] eqn:Hrun.
  destruct (emission_in_index_order _ _ _ _ _ _ _ _ _ _ _ _ _ Hbuild Hrun)
    as (_ & Hnd & _).
  split; [|exact Hnd].
  vm_compute in Hrun. injection Hrun as _ <- _. reflexivity.
Defined.

Lemma every_feature_accounted_witness :
  exists evs,
    evs = snd (fst (run_interp_pipeline Scenario.ai_malformed Scenario.rng_counter
                      Scenario.sae_id Scenario.embeddings_dead
                      (Scenario.texts 50) 2 Scenario.handler_ok None
                      Scenario.start)) /\
    length (emitted evs) + length (printed evs) = 2.
Proof.
  assert (Hbuild : build_registry Scenario.sae_id Scenario.embeddings_dead 2 =
                   inr (repeat (repeat 0%Q 50) 2)) by (vm_compute; reflexivity).
  destruct (run_interp_pipeline Scenario.ai_malformed Scenario.rng_counter
              Scenario.sae_id Scenario.embeddings_dead (Scenario.texts 50) 2
              Scenario.handler_ok None Scenario.start) as [[w' evs] r] eqn:Hrun.
  exists evs. split; [reflexivity|].
  destruct (every_feature_accounted _ _ _ _ _ _ _ _ _ _ _ _ _ Hbuild Hrun)
    as (_ & Heq & _).
  apply Heq. vm_compute in Hrun. injection Hrun as _ _ <-. reflexivity.
Defined.

(** ** Failures before the first feature *)

Lemma truncate_registry_nth max_features reg j row :
  nth_error (truncate_registry max_features reg) j = Some row ->
  nth_error reg j = Some row.
Proof.
  destruct max_features as [m|]; simpl; [|auto].
  unfold Py.slice_stop. rewrite nth_error_firstn.
  destruct (j <? _); [auto|discriminate].
Qed.

(** X3.  When there are fewer sentences than samples and at least one
    row is to be processed, the subscript [text_data[i]] of line 96
    raises [IndexError] on the first row: the exception leaves the run
    before any service call, and nothing is printed or handed over. *)
Theorem missing_sentences_abort
        {W : Type} (ai : OpenAIClient W) (rng : RandomState W)
        (sae : SparseAutoencoder) (embeddings : list Embedding)
        (text_data : list string) (n_feature_activations : Z)
        (handler : Handler W) (max_features : option Z)
        (reg : Registry) (w : W) :
  build_registry sae embeddings n_feature_activations = inr reg ->
  truncate_registry max_features reg <> [] ->
  length text_data < length embeddings ->
  run_interp_pipeline ai rng sae embeddings text_data n_feature_activations
    handler max_features w =
  (w, [], inl (IndexError "list index out of range")).
Proof.
  intros Hbuild Hrows Htext. rewrite run_unfold, Hbuild.
  destruct (truncate_registry max_features reg) as [|feature rest] eqn:Htr;
    [congruence|].
  assert (Hlen : length feature = length embeddings).
  { pose proof (build_registry_shape _ _ _ _ Hbuild) as [_ Hall].
    rewrite Forall_forall in Hall. apply Hall.
    apply (truncate_registry_In max_features). rewrite Htr. now left. }
  rewrite for_enumerate_cons.
  rewrite (process_feature_abort ai rng text_data handler 0 feature w w
             (IndexError "list index out of range")); [reflexivity|].
  rewrite select_evidence_unfold.
  rewrite feature_samples_from_short; [reflexivity|lia|lia].
Qed.

Lemma missing_sentences_abort_witness :
  run_interp_pipeline Scenario.ai_ok Scenario.rng_counter Scenario.sae_id
    Scenario.embeddings_dead (Scenario.texts 49) 2 Scenario.handler_ok (Some 1%Z)
    Scenario.start =
  (Scenario.start, [], inl (IndexError "list index out of range")).
Proof.
  apply (missing_sentences_abort Scenario.ai_ok Scenario.rng_counter Scenario.sae_id
           Scenario.embeddings_dead (Scenario.texts 49) 2 Scenario.handler_ok
           (Some 1%Z) (repeat (repeat 0%Q 50) 2)).
  - vm_compute. reflexivity.
  - vm_compute. discriminate.
  - vm_compute. lia.
Defined.

Lemma set_column_error i v reg e :
  Py.set_column i v reg = inl e ->
  length v <> length reg /\ length v <> 1 /\ exists msg, e = ValueError msg.
Proof.
  unfold Py.set_column.
  destruct (length v =? length reg) eqn:E1; [discriminate|].
  destruct (length v =? 1) eqn:E2; [discriminate|].
  apply Nat.eqb_neq in E1, E2. intros [= <-]. eauto.
Qed.

Lemma set_column_ok_length i v reg reg' :
  Py.set_column i v reg = inr reg' -> length v = length reg \/ length v = 1.
Proof.
  unfold Py.set_column.
  destruct (length v =? length reg) eqn:E1; [apply Nat.eqb_eq in E1; auto|].
  destruct (length v =? 1) eqn:E2; [apply Nat.eqb_eq in E2; auto|discriminate].
Qed.

Lemma fill_registry_misshapen sae R n embeddings :
  (exists e, In e embeddings /\
             length (snd (forward sae e)) <> R /\ length (snd (forward sae e)) <> 1) ->
  forall i reg, shape reg R n ->
           exists msg, fill_registry sae embeddings i reg = inl (ValueError msg).
Proof.
  induction embeddings as [|e0 rest IH]; intros (e & Hin & HR & H1) i reg Hshape.
  - destruct Hin.
  - simpl. destruct (Py.set_column i (snd (forward sae e0)) reg) as [err|reg1] eqn:Hset.
    + apply set_column_error in Hset. destruct Hset as (_ & _ & msg & ->). eauto.
    + destruct Hin as [->|Hin].
      * apply set_column_ok_length in Hset. destruct Hshape as [Hlen _]. lia.
      * apply IH; [eauto|]. eapply set_column_shape; eauto.
Qed.

(** X4.  A negative [n_feature_activations] makes [np.zeros] raise, and
    a sparse code whose number of coordinates is neither
    [n_feature_activations] nor 1 makes the assignment of line 87
    raise; in both cases the [ValueError] leaves the run before any
    feature is processed. *)
Theorem misshapen_code_rejected
        {W : Type} (ai : OpenAIClient W) (rng : RandomState W)
        (sae : SparseAutoencoder) (embeddings : list Embedding)
        (text_data : list string) (n_feature_activations : Z)
        (handler : Handler W) (max_features : option Z) (w : W) :
  (n_feature_activations < 0)%Z \/
  (exists e, In e embeddings /\
             length (snd (forward sae e)) <> Z.to_nat n_feature_activations /\
             length (snd (forward sae e)) <> 1) ->
  exists msg,
    build_registry sae embeddings n_feature_activations = inl (ValueError msg) /\
    run_interp_pipeline ai rng sae embeddings text_data n_feature_activations
      handler max_features w = (w, [], inl (ValueError msg)).
Proof.
  intros Hbad.
  assert (Hbuild : exists msg,
             build_registry sae embeddings n_feature_activations = inl (ValueError msg)).
  { unfold build_registry.
    destruct (Py.np_zeros n_feature_activations (length embeddings))
      as [err|reg0] eqn:Hz.
    - unfold Py.np_zeros in Hz.
      destruct (n_feature_activations <? 0)%Z; [|discriminate].
      injection Hz as <-. eauto.
    - apply np_zeros_shape in Hz. destruct Hz as [Hpos Hshape].
      destruct Hbad as [Hneg|Hbad]; [lia|].
      eapply fill_registry_misshapen; eauto. }
  destruct Hbuild as [msg Hbuild]. exists msg. split; [exact Hbuild|].
  now rewrite run_unfold, Hbuild.
Qed.

Lemma misshapen_code_rejected_witness :
  exists msg,
    run_interp_pipeline Scenario.ai_ok Scenario.rng_counter Scenario.sae_id
      Scenario.embeddings_dead (Scenario.texts 50) 3 Scenario.handler_ok None
      Scenario.start = (Scenario.start, [], inl (ValueError msg)).
Proof.
  destruct (misshapen_code_rejected Scenario.ai_ok Scenario.rng_counter Scenario.sae_id
              Scenario.embeddings_dead (Scenario.texts 50) 3 Scenario.handler_ok None
              Scenario.start) as (msg & _ & Hrun).
  - right. exists [0; 0]%Q. split; [now left|]. split; simpl; lia.
  - exists msg. exact Hrun.
Defined.

(** ** A code with a single coordinate *)

Lemma set_column_broadcast i v reg reg' R n f :
  Py.set_column i v reg = inr reg' ->
  length v = 1 -> shape reg R n -> i < n -> f < R ->
  cell reg' f i = nth_error v 0.
Proof.
  intros Hset Hv [HR Hrows] Hi Hf.
  destruct v as [|a [|? ?]]; simpl in Hv; try discriminate. simpl.
  assert (Hrow : exists row, nth_error reg f = Some row /\ length row = n).
  { destruct (nth_error reg f) as [row|] eqn:E.
    - exists row. split; [reflexivity|].
      rewrite Forall_forall in Hrows. apply Hrows. eapply nth_error_In; eauto.
    - apply nth_error_None in E. lia. }
  destruct Hrow as [row [Hrow Hlen]].
  unfold Py.set_column in Hset. unfold cell.
  destruct (length [a] =? length reg) eqn:Hl.
  - apply Nat.eqb_eq in Hl. injection Hset as <-.
    rewrite map_update_combine_nth by exact Hl. rewrite Hrow.
    simpl in Hl. assert (f = 0) by lia. subst f. simpl.
    apply update_nth_same. lia.
  - simpl in Hset. injection Hset as <-.
    rewrite nth_error_map, Hrow. simpl. apply update_nth_same. lia.
Qed.

Lemma fill_registry_broadcast sae R n embeddings :
  (forall e, In e embeddings -> length (snd (forward sae e)) = 1) ->
  forall i reg,
    shape reg R n -> i + length embeddings <= n ->
    exists reg',
      fill_registry sae embeddings i reg = inr reg' /\
      shape reg' R n /\
      (forall f j, j < i -> cell reg' f j = cell reg f j) /\
      (forall f k e, f < R -> nth_error embeddings k = Some e ->
         cell reg' f (i + k) = nth_error (snd (forward sae e)) 0).
Proof.
  induction embeddings as [|e0 rest IH]; intros Hone i reg Hshape Hlen; simpl in *.
  - exists reg. repeat split; try apply Hshape; auto.
    intros f [|k] e _ Hk; discriminate.
  - destruct (Py.set_column i (snd (forward sae e0)) reg) as [err|reg1] eqn:Hset.
    { apply set_column_error in Hset. destruct Hset as (_ & H1 & _).
      rewrite (Hone e0 (or_introl eq_refl)) in H1. congruence. }
    assert (Hshape1 : shape reg1 R n) by (eapply set_column_shape; eauto).
    destruct (IH (fun e He => Hone e (or_intror He)) (S i) reg1 Hshape1 ltac:(lia))
      as (reg' & Hfill & Hs & Hold & Hnew).
    exists reg'. split; [exact Hfill|]. split; [exact Hs|]. split.
    + intros f j Hj. rewrite Hold by lia.
      eapply set_column_other; eauto. lia.
    + intros f [|k] e Hf Hk; simpl in Hk.
      * injection Hk as <-. rewrite Nat.add_0_r, Hold by lia.
        eapply set_column_broadcast; eauto. lia.
      * replace (i + S k) with (S i + k) by lia. eapply Hnew; eauto.
Qed.

(** X5.  When every sparse code has a single coordinate, the
    assignment of line 87 broadcasts it: the registry is built with
    [n_feature_activations] rows, and every row holds, for sample [i],
    that one coordinate of the code of [embeddings[i]]. *)
Theorem single_coordinate_is_broadcast
        (sae : SparseAutoencoder) (embeddings : list Embedding)
        (n_feature_activations : Z) :
  (0 <= n_feature_activations)%Z ->
  (forall e, In e embeddings -> length (snd (forward sae e)) = 1) ->
  exists reg,
    build_registry sae embeddings n_feature_activations = inr reg /\
    length reg = Z.to_nat n_feature_activations /\
    forall f i e,
      (Z.of_nat f < n_feature_activations)%Z ->
      nth_error embeddings i = Some e ->
      cell reg f i = nth_error (snd (forward sae e)) 0.
Proof.
  intros Hpos Hone. unfold build_registry.
  destruct (Py.np_zeros n_feature_activations (length embeddings))
    as [err|reg0] eqn:Hz.
  { unfold Py.np_zeros in Hz.
    destruct (n_feature_activations <? 0)%Z eqn:E; [|discriminate].
    apply Z.ltb_lt in E. lia. }
  apply np_zeros_shape in Hz. destruct Hz as [_ Hshape].
  destruct (fill_registry_broadcast sae _ _ embeddings Hone 0 reg0 Hshape)
    as (reg & Hfill & Hs & _ & Hnew); [lia|].
  exists reg. split; [exact Hfill|]. split; [apply Hs|].
  intros f i e Hf Hi. apply (Hnew f i e); [lia|exact Hi].
Qed.

Lemma single_coordinate_is_broadcast_witness :
  build_registry {| forward := fun x => (x, firstn 1 x) |}
                 [[7 # 1; 1]; [0; 2 # 1]]%Q 3 =
  inr [[7 # 1; 0]; [7 # 1; 0]; [7 # 1; 0]]%Q.
Proof.
  destruct (single_coordinate_is_broadcast
              {| forward := fun x => (x, firstn 1 x) |}
              [[7 # 1; 1]; [0; 2 # 1]]%Q 3) as (reg & Hbuild & _ & _).
  - lia.
  - intros e [<-|[<-|[]]]; reflexivity.
  - rewrite Hbuild. vm_compute in Hbuild. injection Hbuild as <-. reflexivity.
Defined.

(** ** What a record says about its row *)

Lemma samples_aligned text_data feature fs s :
  feature_samples_from text_data 0 feature = inr fs -> In s fs ->
  exists i, nth_error text_data i = Some (text s) /\
            nth_error feature i = Some (act s).
Proof.
  intros Hfs Hin. destruct (feature_samples_from_spec _ _ _ _ Hfs) as [Hact Htext].
  apply In_nth_error in Hin. destruct Hin as [k Hk].
  exists k. split; [exact (Htext k s Hk)|].
  rewrite <- Hact. now apply map_nth_error.
Qed.

Lemma high_evidence_In fs s : In s (high_evidence fs) -> In s fs /\ ~ (act s == 0)%Q.
Proof.
  unfold high_evidence. intros H. apply filter_In in H. destruct H as [Hin Hnz].
  split; [eapply in_firstn_in; eauto|now apply nonzero_spec].
Qed.

Lemma zero_samples_In fs s : In s (zero_samples fs) -> In s fs.
Proof. unfold zero_samples. intros H. now apply filter_In in H. Qed.

Section Records.
Context {W : Type} (ai : OpenAIClient W) (rng : RandomState W).
Variable text_data : list string.

(** The evidence of a record, read back from its row. *)
Lemma emitted_for_evidence position feature f :
  emitted_for ai rng text_data position feature f ->
  exists fs,
    feature_samples_from text_data 0 feature = inr fs /\
    high_act_samples f = high_evidence (Py.sort_desc fs) /\
    chosen_from (zero_samples (Py.sort_desc fs)) 50 (low_act_samples f) /\
    50 <= length (filter Py.is_zero feature) /\
    density f = Z.of_nat (Py.count_nonzero feature) # Pos.of_nat (length feature).
Proof.
  intros (w & w1 & high & low & w2 & evs & r & d & Hsel & _ & Hd & ->).
  pose proof (selected_row_length _ _ _ _ _ _ _ _ Hsel) as Hlen.
  apply select_evidence_inv in Hsel.
  destruct Hsel as (fs & Hfs & -> & Hch & Hle & _).
  rewrite row_density_ok in Hd by lia. injection Hd as <-.
  exists fs. cbn [labelled high_act_samples low_act_samples density].
  repeat split; auto.
  now rewrite <- (zero_samples_count _ _ _ _ Hfs).
Qed.

End Records.

(** X6.  Whatever [max_features] is, a record with index [k] describes
    row [k] of the registry as it was built: every sample of its two
    evidence sets pairs the sentence [text_data[i]] with the activation
    [registry[k][i]] of one and the same sample [i]. *)
Theorem evidence_pairs_sentence_with_activation
        {W : Type} (ai : OpenAIClient W) (rng : RandomState W)
        (sae : SparseAutoencoder) (embeddings : list Embedding)
        (text_data : list string) (n_feature_activations : Z)
        (handler : Handler W) (max_features : option Z)
        (w w' : W) (evs : list Event) (r : exn + unit) (f : Feature) :
  run_interp_pipeline ai rng sae embeddings text_data n_feature_activations
    handler max_features w = (w', evs, r) ->
  In (Handled f) evs ->
  exists reg,
    build_registry sae embeddings n_feature_activations = inr reg /\
    Forall (fun s => exists i, i < length embeddings /\
                               nth_error text_data i = Some (text s) /\
                               cell reg (index f) i = Some (act s))
           (high_act_samples f ++ low_act_samples f).
Proof.
  intros Hrun Hin.
  destruct (run_handled _ _ _ _ _ _ _ _ _ _ _ _ _ Hrun Hin)
    as (reg & feature & Hreg & Hrow & Hem).
  apply truncate_registry_nth in Hrow.
  destruct (emitted_for_evidence _ _ _ _ _ _ Hem) as (fs & Hfs & Hhigh & Hlow & _ & _).
  assert (Hlen : length feature = length embeddings).
  { pose proof (build_registry_shape _ _ _ _ Hreg) as [_ Hall].
    rewrite Forall_forall in Hall. apply Hall. eapply nth_error_In; eauto. }
  assert (Hall : forall s, In s (Py.sort_desc fs) ->
                      exists i, i < length embeddings /\
                                nth_error text_data i = Some (text s) /\
                                cell reg (index f) i = Some (act s)).
  { intros s Hs. apply (Permutation_in _ (sort_desc_perm fs)) in Hs.
    destruct (samples_aligned _ _ _ _ Hfs Hs) as (i & Ht & Ha).
    exists i. unfold cell. rewrite Hrow. repeat split; auto.
    rewrite <- Hlen. apply nth_error_Some. congruence. }
  exists reg. split; [exact Hreg|].
  apply Forall_forall. intros s Hs. apply in_app_or in Hs. apply Hall.
  destruct Hs as [Hs|Hs].
  - rewrite Hhigh in Hs. now apply high_evidence_In in Hs.
  - eapply zero_samples_In, chosen_from_In; eauto.
Qed.

Lemma evidence_pairs_sentence_with_activation_witness :
  exists f,
    In (Handled f)
       (snd (fst (run_interp_pipeline Scenario.ai_ok Scenario.rng_counter
                    Scenario.sae_id Scenario.embeddings_live (Scenario.texts 53) 2
                    Scenario.handler_ok (Some (-1)%Z) Scenario.start))) /\
    Forall (fun s => exists i, i < 53 /\
                nth_error (Scenario.texts 53) i = Some (text s) /\
                nth_error Scenario.embeddings_live i = Some [act s; 0%Q])
           (high_act_samples f).
Proof.
  destruct (run_interp_pipeline Scenario.ai_ok Scenario.rng_counter
              Scenario.sae_id Scenario.embeddings_live (Scenario.texts 53) 2
              Scenario.handler_ok (Some (-1)%Z) Scenario.start)
    as [[w' evs] r] eqn:Hpipe.
  pose proof Hpipe as Hc. vm_compute in Hc. injection Hc as _ Hevs _.
  match type of Hevs with
  | (_ :: _ :: _ :: Handled ?f :: nil) = _ =>
      exists f;
      assert (Hin : In (Handled f) evs)
        by (rewrite <- Hevs; do 3 right; left; reflexivity)
  end.
  split; [exact Hin|].
  destruct (evidence_pairs_sentence_with_activation _ _ _ _ _ _ _ _ _ _ _ _ _ Hpipe Hin)
    as (reg & Hreg & Hall).
  vm_compute in Hreg. injection Hreg as <-.
  apply Forall_app in Hall. destruct Hall as [Hhigh _].
  eapply Forall_impl; [|exact Hhigh].
  intros s (i & Hi & Ht & Hc). exists i. split; [exact Hi|]. split; [exact Ht|].
  cbn [index] in Hc. unfold cell in Hc. cbn [nth_error] in Hc.
  do 53 (destruct i as [|i]; [vm_compute in Hc |- *; congruence|]).
  vm_compute in Hi. lia.
Defined.

Lemma count_nonzero_plus_zeros feature :
  Py.count_nonzero feature + length (filter Py.is_zero feature) = length feature.
Proof.
  unfold Py.count_nonzero, Py.nonzero, Py.is_zero.
  induction feature as [|a t IH]; simpl; [reflexivity|].
  destruct (Qeq_bool a 0); simpl; lia.
Qed.

(** X7.  A record is handed over only for a row with at least 50 zero
    entries, so there are at least 50 samples and the density of a
    record is at least 0 and strictly below 1: a feature that fires on
    every sample is never handed over. *)
Theorem emitted_density_below_one
        {W : Type} (ai : OpenAIClient W) (rng : RandomState W)
        (sae : SparseAutoencoder) (embeddings : list Embedding)
        (text_data : list string) (n_feature_activations : Z)
        (handler : Handler W) (max_features : option Z)
        (w w' : W) (evs : list Event) (r : exn + unit) (f : Feature) :
  run_interp_pipeline ai rng sae embeddings text_data n_feature_activations
    handler max_features w = (w', evs, r) ->
  In (Handled f) evs ->
  50 <= length embeddings /\
  (0 <= density f)%Q /\ (density f < 1)%Q /\
  (density f <= (Z.of_nat (length embeddings) - 50) # Pos.of_nat (length embeddings))%Q.
Proof.
  intros Hrun Hin.
  destruct (run_handled _ _ _ _ _ _ _ _ _ _ _ _ _ Hrun Hin)
    as (reg & feature & Hreg & Hrow & Hem).
  apply truncate_registry_nth in Hrow.
  destruct (emitted_for_evidence _ _ _ _ _ _ Hem) as (fs & _ & _ & _ & Hzeros & ->).
  assert (Hlen : length feature = length embeddings).
  { pose proof (build_registry_shape _ _ _ _ Hreg) as [_ Hall].
    rewrite Forall_forall in Hall. apply Hall. eapply nth_error_In; eauto. }
  pose proof (count_nonzero_plus_zeros feature) as Hsum.
  rewrite Hlen in *. unfold Qle, Qlt. cbn [Qnum Qden].
  split; [lia|]. split; [lia|]. split; [lia|].
  apply Z.mul_le_mono_nonneg_r; lia.
Qed.

Lemma emitted_density_below_one_witness :
  exists f,
    In (Handled f)
       (snd (fst (run_interp_pipeline Scenario.ai_ok Scenario.rng_counter
                    Scenario.sae_id Scenario.embeddings_live (Scenario.texts 53) 2
                    Scenario.handler_ok (Some 1%Z) Scenario.start))) /\
    (0 <= density f)%Q /\ (density f < 1)%Q.
Proof.
  destruct (run_interp_pipeline Scenario.ai_ok Scenario.rng_counter
              Scenario.sae_id Scenario.embeddings_live (Scenario.texts 53) 2
              Scenario.handler_ok (Some 1%Z) Scenario.start)
    as [[w' evs] r] eqn:Hpipe.
  pose proof Hpipe as Hc. vm_compute in Hc. injection Hc as _ Hevs _.
  match type of Hevs with
  | (_ :: _ :: _ :: Handled ?f :: nil) = _ =>
      exists f;
      assert (Hin : In (Handled f) evs)
        by (rewrite <- Hevs; do 3 right; left; reflexivity)
  end.
  split; [exact Hin|].
  destruct (emitted_density_below_one _ _ _ _ _ _ _ _ _ _ _ _ _ Hpipe Hin)
    as (_ & H0 & H1 & _).
  split; assumption.
Defined.

(** ** Order inside the evidence *)

Lemma StronglySorted_firstn {A} (R : A -> A -> Prop) k l :
  StronglySorted R l -> StronglySorted R (firstn k l).
Proof.
  intros Hs. revert k. induction Hs as [|x t Hs IH Hx]; intros [|k]; simpl;
    try constructor; auto.
  apply Forall_forall. intros y Hy. rewrite Forall_forall in Hx.
  apply Hx. eapply in_firstn_in; eauto.
Qed.

Lemma StronglySorted_filter {A} (R : A -> A -> Prop) p l :
  StronglySorted R l -> StronglySorted R (filter p l).
Proof.
  induction 1 as [|x t Hs IH Hx]; simpl; [constructor|].
  destruct (p x); [|exact IH]. constructor; [exact IH|].
  apply Forall_forall. intros y Hy. rewrite Forall_forall in Hx.
  apply Hx. now apply filter_In in Hy.
Qed.

(** X8.  In every record the high-evidence samples are at most 50, come
    in descending order of activation, and none has activation zero,
    whatever the sign of the activations; as the low-evidence samples
    all have activation zero, no sample is in both sets. *)
Theorem evidence_sets_are_ordered_and_apart
        {W : Type} (ai : OpenAIClient W) (rng : RandomState W)
        (sae : SparseAutoencoder) (embeddings : list Embedding)
        (text_data : list string) (n_feature_activations : Z)
        (handler : Handler W) (max_features : option Z)
        (w w' : W) (evs : list Event) (r : exn + unit) (f : Feature) :
  run_interp_pipeline ai rng sae embeddings text_data n_feature_activations
    handler max_features w = (w', evs, r) ->
  In (Handled f) evs ->
  length (high_act_samples f) <= 50 /\
  StronglySorted act_ge (high_act_samples f) /\
  Forall (fun s => ~ (act s == 0)%Q) (high_act_samples f) /\
  (forall s, In s (high_act_samples f) -> ~ In s (low_act_samples f)).
Proof.
  intros Hrun Hin.
  destruct (run_handled _ _ _ _ _ _ _ _ _ _ _ _ _ Hrun Hin)
    as (reg & feature & _ & _ & Hem).
  destruct (emitted_for_evidence _ _ _ _ _ _ Hem) as (fs & _ & Hhigh & Hlow & _ & _).
  rewrite Hhigh. repeat split.
  - unfold high_evidence.
    etransitivity; [apply filter_length_le|]. rewrite length_firstn. lia.
  - unfold high_evidence. apply StronglySorted_filter, StronglySorted_firstn.
    apply sort_desc_sorted.
  - apply Forall_forall. intros s Hs. now apply high_evidence_In in Hs.
  - intros s Hs Hl. apply high_evidence_In in Hs. destruct Hs as [_ Hnz].
    apply Hnz. eapply zero_samples_zero, chosen_from_In; eauto.
Qed.

Lemma evidence_sets_are_ordered_and_apart_witness :
  exists f,
    In (Handled f)
       (snd (fst (run_interp_pipeline Scenario.ai_ok Scenario.rng_counter
                    Scenario.sae_id Scenario.embeddings_live (Scenario.texts 53) 2
                    Scenario.handler_ok (Some 1%Z) Scenario.start))) /\
    map act (high_act_samples f) = [7 # 1; 3 # 1; 1 # 2] /\
    StronglySorted act_ge (high_act_samples f).
Proof.
  destruct (run_interp_pipeline Scenario.ai_ok Scenario.rng_counter
              Scenario.sae_id Scenario.embeddings_live (Scenario.texts 53) 2
              Scenario.handler_ok (Some 1%Z) Scenario.start)
    as [[w' evs] r] eqn:Hpipe.
  pose proof Hpipe as Hc. vm_compute in Hc. injection Hc as _ Hevs _.
  match type of Hevs with
  | (_ :: _ :: _ :: Handled ?f :: nil) = _ =>
      exists f;
      assert (Hin : In (Handled f) evs)
        by (rewrite <- Hevs; do 3 right; left; reflexivity)
  end.
  split; [exact Hin|]. split; [reflexivity|].
  exact (proj1 (proj2 (evidence_sets_are_ordered_and_apart
                         _ _ _ _ _ _ _ _ _ _ _ _ _ Hpipe Hin))).
Defined.

(** X9.  The sort of line 99 keeps samples of equal activation in the
    order of the corpus: for every value, the samples with that
    activation come in the sorted list as they come in the row. *)
Theorem sort_keeps_order_of_ties (l : list FeatureSample) (a : Q) :
  filter (fun s => Qeq_bool (act s) a) (Py.sort_desc l) =
  filter (fun s => Qeq_bool (act s) a) l.
Proof.
  assert (Hins : forall x t,
             filter (fun s => Qeq_bool (act s) a) (Py.insert_desc x t) =
             filter (fun s => Qeq_bool (act s) a) (x :: t)).
  { intros x t. induction t as [|y t IH]; [reflexivity|].
    cbn [Py.insert_desc]. destruct (Qle_bool (act y) (act x)) eqn:Hle; [reflexivity|].
    cbn [filter] in *. rewrite IH.
    destruct (Qeq_bool (act x) a) eqn:Hx, (Qeq_bool (act y) a) eqn:Hy; try reflexivity.
    exfalso. apply Qeq_bool_iff in Hx, Hy.
    assert (Habs : Qle_bool (act y) (act x) = true)
      by (apply Qle_bool_iff; rewrite Hx, Hy; apply Qle_refl).
    congruence. }
  induction l as [|x t IH]; [reflexivity|].
  cbn [Py.sort_desc fold_right]. fold (Py.sort_desc t).
  rewrite Hins. cbn [filter]. now rewrite IH.
Qed.

(** ** Confidence *)

(** X10.  The confidence of a record is never negative, and it is at
    most 100 when the percentages that the scoring call returns lie
    between 0 and 100. *)
Theorem confidence_is_a_percentage
        {W : Type} (ai : OpenAIClient W) (rng : RandomState W)
        (sae : SparseAutoencoder) (embeddings : list Embedding)
        (text_data : list string) (n_feature_activations : Z)
        (handler : Handler W) (max_features : option Z)
        (w w' : W) (evs : list Event) (r : exn + unit) (f : Feature) :
  (forall samples attrs w0 w1 resp p,
      score_interpretation ai samples attrs w0 = (w1, inr resp) ->
      resp_percent resp = Some p -> (0 <= p <= 100)%Q) ->
  run_interp_pipeline ai rng sae embeddings text_data n_feature_activations
    handler max_features w = (w', evs, r) ->
  In (Handled f) evs ->
  (0 <= confidence f <= 100)%Q.
Proof.
  intros Hpct Hrun Hin.
  destruct (run_handled _ _ _ _ _ _ _ _ _ _ _ _ _ Hrun Hin)
    as (reg & feature & _ & _ & Hem).
  destruct Hem as (wj & w1 & high & low & w2 & evs2 & ri & d & _ & Htry & _ & ->).
  apply interpret_and_score_ok in Htry.
  destruct Htry as (_ & wa & interp & wb & hs & ls & _ & _ & _ & _ & Hh & Hhp & Hl & Hlp).
  pose proof (Hpct _ _ _ _ _ _ Hh Hhp) as Bh.
  pose proof (Hpct _ _ _ _ _ _ Hl Hlp) as Bl.
  cbn [labelled confidence]. split; [apply Qabs_nonneg|].
  apply Qabs_Qle_condition. split; lra.
Qed.

Lemma confidence_is_a_percentage_witness :
  exists f,
    In (Handled f)
       (snd (fst (run_interp_pipeline Scenario.ai_flat Scenario.rng_counter
                    Scenario.sae_id Scenario.embeddings_live (Scenario.texts 53) 2
                    Scenario.handler_ok (Some 1%Z) Scenario.start))) /\
    (0 <= confidence f <= 100)%Q.
Proof.
  destruct (run_interp_pipeline Scenario.ai_flat Scenario.rng_counter
              Scenario.sae_id Scenario.embeddings_live (Scenario.texts 53) 2
              Scenario.handler_ok (Some 1%Z) Scenario.start)
    as [[w' evs] r] eqn:Hpipe.
  pose proof Hpipe as Hc. vm_compute in Hc. injection Hc as _ Hevs _.
  match type of Hevs with
  | (_ :: _ :: _ :: Handled ?f :: nil) = _ =>
      exists f;
      assert (Hin : In (Handled f) evs)
        by (rewrite <- Hevs; do 3 right; left; reflexivity)
  end.
  split; [exact Hin|].
  assert (Hpct : forall samples attrs w0 w1 resp p,
             score_interpretation Scenario.ai_flat samples attrs w0 = (w1, inr resp) ->
             resp_percent resp = Some p -> (0 <= p <= 100)%Q).
  { intros samples attrs w0 w1 resp p Hs Hp.
    unfold Scenario.ai_flat in Hs. cbn [score_interpretation] in Hs.
    injection Hs as _ <-. cbn [resp_percent] in Hp. injection Hp as <-.
    split; discriminate. }
  exact (confidence_is_a_percentage _ _ _ _ _ _ _ _ _ _ _ _ _ Hpct Hpipe Hin).
Defined.

(** ** The handler and malformed answers *)

(** X11.  The call of the handler (line 135) stands outside the [try]
    block: when the handler raises on a record, the exception leaves
    the loop with that record as the last event, and the rows after it
    are not processed. *)
Theorem handler_failure_stops_run
        {W : Type} (ai : OpenAIClient W) (rng : RandomState W)
        (text_data : list string) (handler : Handler W)
        (position : nat) (feature : list Q) (rest : Registry)
        (w w1 w2 w3 : W) (high low : list FeatureSample)
        (evs : list Event) (r : Interpreted) (d : Q) (e : exn) :
  select_evidence rng text_data feature w = (w1, [], inr (high, low)) ->
  interpret_and_score ai high low w1 = (w2, evs, inr r) ->
  row_density feature = inr d ->
  handler (labelled position r d high low) w2 = (w3, inl e) ->
  for_enumerate (process_feature ai rng text_data handler) position (feature :: rest) w =
  (w3, evs ++ [Handled (labelled position r d high low)], inl e).
Proof.
  intros Hsel Htry Hd Hh.
  rewrite for_enumerate_cons.
  rewrite (process_feature_emit ai rng text_data handler position _ _ _ _ _ _ _ _ _
             Hsel Htry Hd).
  rewrite Hh. reflexivity.
Qed.

Lemma handler_failure_stops_run_witness :
  exists w3 evs f,
    for_enumerate
      (process_feature Scenario.ai_ok Scenario.rng_counter (Scenario.texts 50)
         (fun _ w => (w, inl (ServiceError "disk full"))))
      0 [repeat 0%Q 50; repeat 0%Q 50] Scenario.start =
    (w3, evs ++ [Handled f], inl (ServiceError "disk full")) /\
    index f = 0.
Proof.
  destruct (select_evidence_enough Scenario.rng_counter (Scenario.texts 50)
              (repeat 0%Q 50)
              (map (fun t => mkSample t 0) (Scenario.texts 50)) Scenario.start)
    as (w1 & low & Hsel); [reflexivity|vm_compute; lia|].
  destruct (interpret_and_score Scenario.ai_ok
              (high_evidence (Py.sort_desc
                 (map (fun t => mkSample t 0) (Scenario.texts 50)))) low w1)
    as [[w2 evs] [e|r]] eqn:Htry.
  { exfalso. revert Htry.
    unfold interpret_and_score, bind, emit, call, getitem, ret. simpl. discriminate. }
  eexists _, _, _. split.
  - eapply (handler_failure_stops_run Scenario.ai_ok Scenario.rng_counter
              (Scenario.texts 50) (fun _ w => (w, inl (ServiceError "disk full")))
              0 (repeat 0%Q 50) [repeat 0%Q 50]); eauto.
    reflexivity.
  - reflexivity.
Defined.

(** X12.  When the interpretation answers without one of its three
    keys, the subscript raises [KeyError] inside the [try] block: the
    feature is skipped with a message naming the first missing key,
    before any scoring call. *)
Theorem missing_key_skips_feature
        {W : Type} (ai : OpenAIClient W) (rng : RandomState W)
        (text_data : list string) (handler : Handler W)
        (position : nat) (feature : list Q)
        (w w1 w2 : W) (high low : list FeatureSample)
        (interp : InterpretationResponse) (key : string) :
  select_evidence rng text_data feature w = (w1, [], inr (high, low)) ->
  get_interpretation ai high low w1 = (w2, inr interp) ->
  first_missing_key interp = Some key ->
  process_feature ai rng text_data handler position feature w =
  (w2, [Request_interpretation high low; Printed (skip_message (KeyError key))], inr tt).
Proof.
  intros Hsel Hget Hkey.
  apply (process_feature_skip ai rng text_data handler position feature w w1 high low
           w2 [Request_interpretation high low] (KeyError key) Hsel).
  unfold interpret_and_score, bind, emit, call, getitem, ret, raise.
  rewrite Hget. unfold first_missing_key in Hkey.
  destruct (resp_label interp); [|injection Hkey as <-; reflexivity].
  destruct (resp_reasoning interp); [|injection Hkey as <-; reflexivity].
  destruct (resp_attributes interp); [discriminate|injection Hkey as <-; reflexivity].
Qed.

Lemma missing_key_skips_feature_witness :
  exists w2 low,
    process_feature Scenario.ai_malformed Scenario.rng_counter (Scenario.texts 50)
      Scenario.handler_ok 0 (repeat 0%Q 50) Scenario.start =
    (w2, [Request_interpretation [] low;
          Printed "Skipping feature due to error: 'attributes'"], inr tt).
Proof.
  destruct (select_evidence_enough Scenario.rng_counter (Scenario.texts 50)
              (repeat 0%Q 50)
              (map (fun t => mkSample t 0) (Scenario.texts 50)) Scenario.start)
    as (w1 & low & Hsel); [reflexivity|vm_compute; lia|].
  exists (S w1), low.
  apply (missing_key_skips_feature Scenario.ai_malformed Scenario.rng_counter
           (Scenario.texts 50) Scenario.handler_ok 0 (repeat 0%Q 50)
           Scenario.start w1 (S w1) _ low
           {| resp_label := Some "label"%string;
              resp_reasoning := Some "reasoning"%string;
              resp_attributes := None |} "attributes" Hsel); reflexivity.
Defined.

(** * The analysis routines *)

(** ** Counting dictionary *)
Section DefaultDictFacts.
Import Builtins.

Lemma dd_get_incr_same k d :
  dd_get k (dd_incr k d) = Some (S (dd_count k d)).
Proof.
  unfold dd_count, dd_get. induction d as [|[k' c] t IH]; simpl.
  - now rewrite Nat.eqb_refl.
  - destruct (k' =? k) eqn:E; simpl; rewrite E; [reflexivity|exact IH].
Qed.

Lemma dd_get_incr_other k k' d :
  k <> k' -> dd_get k' (dd_incr k d) = dd_get k' d.
Proof.
  intros Hne. unfold dd_get. induction d as [|[k0 c] t IH]; simpl.
  - destruct (k =? k') eqn:E; [apply Nat.eqb_eq in E; congruence|reflexivity].
  - destruct (k0 =? k) eqn:E; simpl.
    + apply Nat.eqb_eq in E. subst k0.
      destruct (k =? k') eqn:E'; [apply Nat.eqb_eq in E'; congruence|reflexivity].
    + destruct (k0 =? k'); [reflexivity|exact IH].
Qed.

Lemma dd_keys_incr k d :
  dd_keys (dd_incr k d) = if existsb (Nat.eqb k) (dd_keys d) then dd_keys d
                          else dd_keys d ++ [k].
Proof.
  unfold dd_keys. induction d as [|[k' c] t IH]; simpl; [reflexivity|].
  rewrite (Nat.eqb_sym k k'). destruct (k' =? k); simpl; [reflexivity|].
  rewrite IH. now destruct (existsb (Nat.eqb k) (map fst t)).
Qed.

Lemma dd_keys_incr_NoDup k d : NoDup (dd_keys d) -> NoDup (dd_keys (dd_incr k d)).
Proof.
  intros Hnd. rewrite dd_keys_incr.
  destruct (existsb (Nat.eqb k) (dd_keys d)) eqn:E; [exact Hnd|].
  apply NoDup_app; [exact Hnd|repeat constructor; intros []|].
  intros x Hx [Hk|[]]. subst x.
  assert (existsb (Nat.eqb k) (dd_keys d) = true); [|congruence].
  apply existsb_exists. exists k. split; [exact Hx|apply Nat.eqb_refl].
Qed.

Lemma dd_incr_positive k d :
  Forall (fun kc => 0 < snd kc) d -> Forall (fun kc => 0 < snd kc) (dd_incr k d).
Proof.
  induction 1 as [|[k' c] t Hc Ht IH]; simpl.
  - repeat constructor.
  - destruct (k' =? k); constructor; simpl in *; auto; lia.
Qed.

Lemma dd_get_positive k d c :
  Forall (fun kc => 0 < snd kc) d -> dd_get k d = Some c -> 0 < c.
Proof.
  unfold dd_get. intros Hall.
  destruct (find (fun kc => fst kc =? k) d) as [kc|] eqn:E; [|discriminate].
  intros [= <-]. apply find_some in E. destruct E as [Hin _].
  rewrite Forall_forall in Hall. now apply Hall.
Qed.

Lemma dd_count_incr k k' d :
  dd_count k' (dd_incr k d) = dd_count k' d + (if k =? k' then 1 else 0).
Proof.
  destruct (k =? k') eqn:E.
  - apply Nat.eqb_eq in E. subst k'. unfold dd_count at 1.
    rewrite dd_get_incr_same. lia.
  - apply Nat.eqb_neq in E. unfold dd_count. rewrite dd_get_incr_other by exact E. lia.
Qed.

Lemma nonzero_from_In i v j :
  In j (nonzero_from i v) <-> i <= j /\ fires_on (j - i) v = true.
Proof.
  revert i. induction v as [|a t IH]; intros i; simpl.
  - unfold fires_on. destruct (j - i); simpl; split; [tauto|intros [_ H]; discriminate|
                                                      tauto|intros [_ H]; discriminate].
  - assert (Hstep : In j (nonzero_from (S i) t) <->
                    S i <= j /\ fires_on (j - S i) t = true) by apply IH.
    unfold fires_on in *.
    destruct (Py.nonzero a) eqn:Ha; simpl; rewrite Hstep; split.
    + intros [<-|[Hle H]].
      * rewrite Nat.sub_diag. simpl. auto.
      * split; [lia|]. replace (j - i) with (S (j - S i)) by lia. exact H.
    + intros [Hle H]. destruct (Nat.eq_dec i j) as [->|Hne]; [now left|right].
      split; [lia|]. replace (j - i) with (S (j - S i)) in H by lia. exact H.
    + intros [Hle H]. split; [lia|].
      replace (j - i) with (S (j - S i)) by lia. exact H.
    + intros [Hle H]. destruct (Nat.eq_dec i j) as [->|Hne].
      * rewrite Nat.sub_diag in H. simpl in H. congruence.
      * split; [lia|]. replace (j - i) with (S (j - S i)) in H by lia. exact H.
Qed.

Lemma nonzero_from_NoDup i v : NoDup (nonzero_from i v).
Proof.
  revert i. induction v as [|a t IH]; intros i; simpl; [constructor|].
  destruct (Py.nonzero a); [|apply IH]. constructor; [|apply IH].
  intro Hin. apply nonzero_from_In in Hin. lia.
Qed.

Lemma fold_incr_count f idxs :
  NoDup idxs ->
  forall d,
    dd_count f (fold_left (fun d idx => dd_incr idx d) idxs d) =
    dd_count f d + (if existsb (Nat.eqb f) idxs then 1 else 0).
Proof.
  induction 1 as [|k t Hk Hnd IH]; intros d; simpl; [lia|].
  rewrite IH, dd_count_incr. rewrite (Nat.eqb_sym f k).
  destruct (k =? f) eqn:E; simpl; [|lia].
  apply Nat.eqb_eq in E. subst k.
  destruct (existsb (Nat.eqb f) t) eqn:Ex; [|lia].
  apply existsb_exists in Ex. destruct Ex as [x [Hx Hfx]].
  apply Nat.eqb_eq in Hfx. subst x. contradiction.
Qed.

Lemma count_sample_count f d code :
  dd_count f (count_sample d code) =
  dd_count f d + (if fires_on f code then 1 else 0).
Proof.
  unfold count_sample. rewrite fold_incr_count by apply nonzero_from_NoDup.
  f_equal. destruct (existsb (Nat.eqb f) (nonzero_from 0 code)) eqn:Ex.
  - apply existsb_exists in Ex. destruct Ex as [x [Hx Hfx]].
    apply Nat.eqb_eq in Hfx. subst x. apply nonzero_from_In in Hx.
    destruct Hx as [_ Hx]. rewrite Nat.sub_0_r in Hx. now rewrite Hx.
  - destruct (fires_on f code) eqn:Hf; [|reflexivity].
    assert (Hin : In f (nonzero_from 0 code)).
    { apply nonzero_from_In. rewrite Nat.sub_0_r. split; [lia|exact Hf]. }
    assert (existsb (Nat.eqb f) (nonzero_from 0 code) = true); [|congruence].
    apply existsb_exists. exists f. split; [exact Hin|apply Nat.eqb_refl].
Qed.

Lemma count_sample_invariant d code :
  NoDup (dd_keys d) /\ Forall (fun kc => 0 < snd kc) d ->
  NoDup (dd_keys (count_sample d code)) /\
  Forall (fun kc => 0 < snd kc) (count_sample d code).
Proof.
  unfold count_sample. generalize (nonzero_from 0 code) as idxs.
  intros idxs. revert d. induction idxs as [|k t IH]; intros d [Hnd Hpos]; simpl; auto.
  apply IH. split; [now apply dd_keys_incr_NoDup|now apply dd_incr_positive].
Qed.

End DefaultDictFacts.

(** ** Histogram of non-zero counts *)

Lemma sample_range_all num_samples (embeddings : list Embedding) :
  (Z.of_nat (length embeddings) <= num_samples)%Z ->
  sample_range num_samples embeddings = embeddings.
Proof.
  intros H. unfold sample_range. rewrite Z.min_r by exact H.
  rewrite Nat2Z.id. apply firstn_all.
Qed.

Lemma sample_range_none num_samples (embeddings : list Embedding) :
  (num_samples <= 0)%Z -> sample_range num_samples embeddings = [].
Proof.
  intros H. unfold sample_range.
  replace (Z.to_nat (Z.min num_samples (Z.of_nat (length embeddings)))) with 0 by lia.
  reflexivity.
Qed.

Lemma histogram_fold model f es :
  forall d,
    NoDup (Builtins.dd_keys d) /\ Forall (fun kc => 0 < snd kc) d ->
    let d' := fold_left (fun d e => count_sample d (snd (forward model e))) es d in
    dd_count f d' =
      dd_count f d + length (filter (fun e => fires_on f (snd (forward model e))) es) /\
    NoDup (Builtins.dd_keys d') /\ Forall (fun kc => 0 < snd kc) d'.
Proof.
  induction es as [|e t IH]; intros d Hinv; simpl.
  - split; [lia|exact Hinv].
  - pose proof (count_sample_invariant d (snd (forward model e)) Hinv) as Hinv'.
    destruct (IH _ Hinv') as (Hc & Hrest). split; [|exact Hrest].
    rewrite Hc, count_sample_count.
    destruct (fires_on f (snd (forward model e))); simpl; lia.
Qed.

Lemma histogram_invariant model embeddings num_samples f :
  let d := feature_non_zero_count model embeddings num_samples in
  dd_count f d =
    length (filter (fun e => fires_on f (snd (forward model e)))
                   (sample_range num_samples embeddings)) /\
  NoDup (Builtins.dd_keys d) /\ Forall (fun kc => 0 < snd kc) d.
Proof.
  destruct (histogram_fold model f (sample_range num_samples embeddings) [])
    as (Hc & Hnd & Hpos); [split; constructor|].
  cbv zeta. unfold feature_non_zero_count. split; [|split; assumption].
  rewrite Hc. reflexivity.
Qed.

(** X13.  In the dictionary plotted by
    [plot_feature_activation_histogram], the count of a feature is the
    number of samples, among the first [min(num_samples, len)] ones, on
    which the feature is non-zero; a feature that is never non-zero
    there has no key; and no key occurs twice. *)
Theorem histogram_counts_active_samples
        (model : SparseAutoencoder) (embeddings : list Embedding)
        (num_samples : Z) (f : nat) :
  let d := feature_non_zero_count model embeddings num_samples in
  let n := length (filter (fun e => fires_on f (snd (forward model e)))
                          (sample_range num_samples embeddings)) in
  dd_count f d = n /\
  (Builtins.dd_get f d = None <-> n = 0) /\
  (forall c, Builtins.dd_get f d = Some c -> c = n /\ 0 < n) /\
  NoDup (Builtins.dd_keys d).
Proof.
  intros d n.
  destruct (histogram_invariant model embeddings num_samples f) as (Hcount & Hnd & Hpos).
  fold d in Hcount, Hnd, Hpos. fold n in Hcount.
  assert (Hsome : forall c, Builtins.dd_get f d = Some c -> c = n /\ 0 < n).
  { intros c Hg. pose proof (dd_get_positive _ _ _ Hpos Hg) as Hc0.
    unfold dd_count in Hcount. rewrite Hg in Hcount. lia. }
  split; [exact Hcount|]. split; [|split; [exact Hsome|exact Hnd]]. split.
  - intros Hnone. unfold dd_count in Hcount. rewrite Hnone in Hcount. lia.
  - intros Hn. destruct (Builtins.dd_get f d) as [c|] eqn:Hg; [|reflexivity].
    destruct (Hsome c eq_refl). lia.
Qed.

Lemma build_registry_cells sae embeddings n_feature_activations reg f i e a :
  build_registry sae embeddings n_feature_activations = inr reg ->
  f < length reg ->
  nth_error embeddings i = Some e ->
  nth_error (snd (forward sae e)) f = Some a ->
  cell reg f i = Some a.
Proof.
  intros Hbuild Hf Hi Ha. pose proof (build_registry_shape _ _ _ _ Hbuild) as [HR _].
  unfold build_registry in Hbuild.
  destruct (Py.np_zeros n_feature_activations (length embeddings))
    as [err|reg0] eqn:Hz; [discriminate|].
  apply np_zeros_shape in Hz. destruct Hz as [_ Hshape].
  assert (Hlen : 0 + length embeddings <= length embeddings) by lia.
  destruct (fill_registry_cells sae _ _ embeddings 0 reg0 reg Hshape Hlen Hbuild)
    as [_ [_ Hnew]].
  apply (Hnew f i e a); auto. lia.
Qed.

Lemma count_by_positions (code : Embedding -> SparseCode) f es :
  forall row,
    length row = length es ->
    (forall i e, nth_error es i = Some e ->
                 exists a, nth_error row i = Some a /\ nth_error (code e) f = Some a) ->
    Py.count_nonzero row = length (filter (fun e => fires_on f (code e)) es).
Proof.
  unfold Py.count_nonzero.
  induction es as [|e t IH]; intros [|a row] Hlen Hcells; simpl in *; try discriminate;
    [reflexivity|].
  destruct (Hcells 0 e eq_refl) as (a' & Ha' & Hf). simpl in Ha'. injection Ha' as <-.
  unfold fires_on at 1. rewrite Hf.
  assert (IH' : length (filter Py.nonzero row) =
                length (filter (fun e => fires_on f (code e)) t)).
  { apply IH; [lia|]. intros i e' He'. exact (Hcells (S i) e' He'). }
  destruct (Py.nonzero a); simpl; now rewrite IH'.
Qed.

(** X14.  When every sparse code has [n_feature_activations]
    coordinates and [num_samples] covers the whole dataset, the
    histogram count of a feature is the number of non-zero entries of
    the feature's row in the registry that [run_interp_pipeline]
    builds: the numerator of the density of line 130. *)
Theorem histogram_matches_registry
        (model : SparseAutoencoder) (embeddings : list Embedding)
        (n_feature_activations num_samples : Z)
        (reg : Registry) (f : nat) (row : list Q) :
  build_registry model embeddings n_feature_activations = inr reg ->
  (forall e, In e embeddings ->
             length (snd (forward model e)) = Z.to_nat n_feature_activations) ->
  (Z.of_nat (length embeddings) <= num_samples)%Z ->
  nth_error reg f = Some row ->
  dd_count f (feature_non_zero_count model embeddings num_samples) =
  Py.count_nonzero row.
Proof.
  intros Hbuild Hcode Hall Hrow.
  destruct (histogram_invariant model embeddings num_samples f) as (Hcount & _ & _).
  rewrite Hcount, (sample_range_all _ _ Hall).
  symmetry. apply count_by_positions.
  - pose proof (build_registry_shape _ _ _ _ Hbuild) as [_ Hrows].
    rewrite Forall_forall in Hrows. apply Hrows. eapply nth_error_In; eauto.
  - intros i e He.
    assert (Hf : f < length reg) by (apply nth_error_Some; congruence).
    pose proof (build_registry_shape _ _ _ _ Hbuild) as [HR _].
    assert (Hlen : length (snd (forward model e)) = Z.to_nat n_feature_activations).
    { apply Hcode. eapply nth_error_In; eauto. }
    destruct (nth_error (snd (forward model e)) f) as [a|] eqn:Ha.
    + exists a. split; [|reflexivity].
      pose proof (build_registry_cells _ _ _ _ _ _ _ _ Hbuild Hf He Ha) as Hcell.
      unfold cell in Hcell. now rewrite Hrow in Hcell.
    + apply nth_error_None in Ha. lia.
Qed.

Lemma histogram_matches_registry_witness :
  dd_count 0 (feature_non_zero_count Scenario.sae_id Scenario.embeddings_live 1000) = 3 /\
  dd_count 1 (feature_non_zero_count Scenario.sae_id Scenario.embeddings_live 1000) = 0.
Proof.
  assert (Hbuild : build_registry Scenario.sae_id Scenario.embeddings_live 2 =
                   inr [[3 # 1; 1 # 2; 7 # 1]%Q ++ repeat 0%Q 50; repeat 0%Q 53])
    by (vm_compute; reflexivity).
  assert (Hcode : forall e, In e Scenario.embeddings_live ->
                       length (snd (forward Scenario.sae_id e)) = Z.to_nat 2).
  { intros e He. unfold Scenario.embeddings_live in He. apply in_app_or in He.
    destruct He as [[<-|[<-|[<-|[]]]]|He]; try reflexivity.
    apply repeat_spec in He. now subst. }
  assert (Hall : (Z.of_nat (length Scenario.embeddings_live) <= 1000)%Z)
    by (vm_compute; discriminate).
  split.
  - rewrite (histogram_matches_registry _ _ _ _ _ 0 _ Hbuild Hcode Hall eq_refl).
    reflexivity.
  - rewrite (histogram_matches_registry _ _ _ _ _ 1 _ Hbuild Hcode Hall eq_refl).
    reflexivity.
Defined.

(** ** Average of non-zero counts *)

(** X15.  [count_non_zero_feature_activations] needs a sample: with
    [num_samples = 0] or an empty dataset the division of line 178 is
    [0 / 0] on integers and raises [ZeroDivisionError]; with a negative
    [num_samples] no sample is read and both results are 0. *)
Theorem count_non_zero_needs_a_sample
        (model : SparseAutoencoder) (embeddings : list Embedding) (num_samples : Z) :
  (num_samples = 0%Z \/ (embeddings = [] /\ (0 <= num_samples)%Z) ->
   count_non_zero_feature_activations model embeddings num_samples =
   inl (ZeroDivisionError "division by zero")) /\
  ((num_samples < 0)%Z ->
   exists average percentage,
     count_non_zero_feature_activations model embeddings num_samples =
     inr (average, percentage) /\
     (average == 0)%Q /\ (percentage == 0)%Q).
Proof.
  unfold count_non_zero_feature_activations. split.
  - intros H.
    assert (Hmin : Z.min num_samples (Z.of_nat (length embeddings)) = 0%Z).
    { destruct H as [->|[-> Hpos]]; simpl; lia. }
    now rewrite Hmin.
  - intros Hneg. rewrite sample_range_none by lia. simpl.
    rewrite Z.min_l by lia.
    destruct (num_samples =? 0)%Z eqn:E; [apply Z.eqb_eq in E; lia|].
    eexists _, _. split; [reflexivity|]. split; unfold Qdiv; ring.
Qed.

Lemma count_non_zero_needs_a_sample_witness :
  count_non_zero_feature_activations Scenario.sae_id [] 100 =
  inl (ZeroDivisionError "division by zero") /\
  count_non_zero_feature_activations Scenario.sae_id Scenario.embeddings_live 0 =
  inl (ZeroDivisionError "division by zero") /\
  exists average percentage,
    count_non_zero_feature_activations Scenario.sae_id Scenario.embeddings_live (-2) =
    inr (average, percentage) /\ (average == 0)%Q /\ (percentage == 0)%Q.
Proof.
  split; [|split].
  - apply (proj1 (count_non_zero_needs_a_sample Scenario.sae_id [] 100)).
    right. split; [reflexivity|lia].
  - apply (proj1 (count_non_zero_needs_a_sample Scenario.sae_id
                    Scenario.embeddings_live 0)).
    left. reflexivity.
  - apply (proj2 (count_non_zero_needs_a_sample Scenario.sae_id
                    Scenario.embeddings_live (-2))).
    lia.
Defined.

(** ** The five strongest features of a sentence *)
Section SortedDesc.
Context {A : Type} (key : A -> Q).

Lemma insert_by_perm x l : Permutation (Builtins.insert_by key x l) (x :: l).
Proof.
  induction l as [|y t IH]; simpl; [reflexivity|].
  destruct (Qle_bool (key y) (key x)); [reflexivity|].
  rewrite IH. apply perm_swap.
Qed.

Lemma sorted_desc_perm l : Permutation (Builtins.sorted_desc key l) l.
Proof.
  induction l as [|x t IH]; simpl; [reflexivity|].
  rewrite insert_by_perm. now constructor.
Qed.

Lemma insert_by_sorted x l :
  StronglySorted (key_ge key) l -> StronglySorted (key_ge key) (Builtins.insert_by key x l).
Proof.
  induction 1 as [|y t Hs IH Hy]; simpl.
  - repeat constructor.
  - destruct (Qle_bool (key y) (key x)) eqn:Hle.
    + apply Qle_bool_iff in Hle. constructor; [now constructor|].
      constructor; [exact Hle|].
      eapply Forall_impl; [|exact Hy]. unfold key_ge. intros z Hz.
      eapply Qle_trans; eauto.
    + constructor; [exact IH|].
      eapply Permutation_Forall; [symmetry; apply insert_by_perm|].
      constructor; [|exact Hy]. unfold key_ge.
      destruct (Qlt_le_dec (key x) (key y)) as [Hlt|Hge].
      * now apply Qlt_le_weak.
      * apply Qle_bool_iff in Hge. congruence.
Qed.

Lemma sorted_desc_sorted l : StronglySorted (key_ge key) (Builtins.sorted_desc key l).
Proof.
  induction l as [|x t IH]; simpl; [constructor|].
  now apply insert_by_sorted.
Qed.

End SortedDesc.

Lemma StronglySorted_firstn_skipn {A} (R : A -> A -> Prop) k l :
  StronglySorted R l ->
  forall x y, In x (firstn k l) -> In y (skipn k l) -> R x y.
Proof.
  intros Hs. revert k. induction Hs as [|z t Hs IH Hz]; intros k x y Hx Hy.
  - rewrite firstn_nil in Hx. destruct Hx.
  - destruct k as [|k]; simpl in *; [destruct Hx|].
    destruct Hx as [<-|Hx].
    + rewrite Forall_forall in Hz. apply Hz. eapply in_skipn_in; eauto.
    + eapply IH; eauto.
Qed.

(** X16.  [top_5_indices] returns [min(5, len)] pairwise different
    positions of the activation list, in descending order of
    activation, and no position left out has a larger activation than
    one returned. *)
Theorem top_5_are_the_largest (activations : list Q) :
  let top := top_5_indices activations in
  let value := fun i => nth i activations 0%Q in
  length top = Nat.min 5 (length activations) /\
  NoDup top /\
  Forall (fun i => i < length activations) top /\
  StronglySorted (fun i j => (value j <= value i)%Q) top /\
  (forall i j, In i top -> j < length activations -> ~ In j top ->
               (value j <= value i)%Q).
Proof.
  intros top value. unfold top, top_5_indices. fold value.
  set (srt := Builtins.sorted_desc value (seq 0 (length activations))).
  assert (Hperm : Permutation srt (seq 0 (length activations)))
    by apply sorted_desc_perm.
  assert (Hsorted : StronglySorted (key_ge value) srt) by apply sorted_desc_sorted.
  assert (Hnd : NoDup srt).
  { eapply Permutation_NoDup; [symmetry; exact Hperm|apply seq_NoDup]. }
  assert (Hlen : length srt = length activations).
  { rewrite (Permutation_length Hperm). apply length_seq. }
  split; [rewrite length_firstn; lia|]. split.
  { rewrite <- (firstn_skipn 5 srt) in Hnd. now apply NoDup_app_remove_r in Hnd. }
  split.
  { apply Forall_forall. intros i Hi. apply in_firstn_in in Hi.
    apply (Permutation_in _ Hperm), in_seq in Hi. lia. }
  split; [now apply StronglySorted_firstn|].
  intros i j Hi Hj Hout.
  assert (Hin : In j srt).
  { apply (Permutation_in _ (Permutation_sym Hperm)), in_seq. lia. }
  rewrite <- (firstn_skipn 5 srt) in Hin. apply in_app_or in Hin.
  destruct Hin as [Hin|Hin]; [contradiction|].
  exact (StronglySorted_firstn_skipn (key_ge value) 5 srt Hsorted i j Hi Hin).
Qed.

(** ** Labels *)

Lemma matching_feature_unique features f :
  NoDup (map index features) -> In f features ->
  matching_feature features (index f) = Some f.
Proof.
  unfold matching_feature. induction features as [|g t IH]; intros Hnd Hin; simpl.
  - destruct Hin.
  - inversion Hnd as [|? ? Hg Ht]; subst.
    destruct Hin as [->|Hin]; [now rewrite Nat.eqb_refl|].
    destruct (index g =? index f) eqn:E; [|now apply IH].
    apply Nat.eqb_eq in E. exfalso. apply Hg. rewrite E. now apply in_map.
Qed.

Lemma matching_feature_absent features k :
  ~ In k (map index features) -> matching_feature features k = None.
Proof.
  unfold matching_feature. induction features as [|g t IH]; intros Hout; simpl;
    [reflexivity|].
  destruct (index g =? k) eqn:E.
  - apply Nat.eqb_eq in E. exfalso. apply Hout. now left.
  - apply IH. intro Hin. apply Hout. now right.
Qed.

Lemma run_emitted_NoDup
      {W : Type} (ai : OpenAIClient W) (rng : RandomState W)
      (sae : SparseAutoencoder) (embeddings : list Embedding)
      (text_data : list string) (n_feature_activations : Z)
      (handler : Handler W) (max_features : option Z)
      (w w' : W) (evs : list Event) (r : exn + unit) :
  run_interp_pipeline ai rng sae embeddings text_data n_feature_activations
    handler max_features w = (w', evs, r) ->
  NoDup (map index (emitted evs)).
Proof.
  rewrite run_unfold.
  destruct (build_registry sae embeddings n_feature_activations) as [e|reg].
  - intros [= _ <- _]. constructor.
  - intros Hrun.
    destruct (for_enumerate_trace _ _ _ _ _ _ _ _ _ _ Hrun) as (Hsort & _).
    clear -Hsort. induction Hsort as [|i l _ IH Hi]; constructor; auto.
    intro Hin. rewrite Forall_forall in Hi. specialize (Hi _ Hin). lia.
Qed.

(** X17.  Over the records that a run hands to its handler, the label
    look-up of [plot_highest_activating_feature_for_each_sentence]
    finds, for the index of a record, that record and its label; for an
    index without record it falls back to ["Feature <index>"]. *)
Theorem labels_of_emitted_features
        {W : Type} (ai : OpenAIClient W) (rng : RandomState W)
        (sae : SparseAutoencoder) (embeddings : list Embedding)
        (text_data : list string) (n_feature_activations : Z)
        (handler : Handler W) (max_features : option Z)
        (w w' : W) (evs : list Event) (r : exn + unit) :
  run_interp_pipeline ai rng sae embeddings text_data n_feature_activations
    handler max_features w = (w', evs, r) ->
  (forall f, In (Handled f) evs ->
             matching_feature (emitted evs) (index f) = Some f /\
             feature_label (emitted evs) (index f) = label f) /\
  (forall k, ~ In k (map index (emitted evs)) ->
             feature_label (emitted evs) k = ("Feature " ++ Builtins.str_nat k)%string).
Proof.
  intros Hrun. pose proof (run_emitted_NoDup _ _ _ _ _ _ _ _ _ _ _ _ Hrun) as Hnd.
  split.
  - intros f Hin. apply emitted_In in Hin.
    pose proof (matching_feature_unique _ _ Hnd Hin) as Hm.
    split; [exact Hm|]. unfold feature_label. now rewrite Hm.
  - intros k Hout. unfold feature_label.
    now rewrite (matching_feature_absent _ _ Hout).
Qed.

Lemma labels_of_emitted_features_witness :
  top_5_labels
    (emitted (snd (fst (run_interp_pipeline Scenario.ai_ok Scenario.rng_counter
                          Scenario.sae_id Scenario.embeddings_dead
                          (Scenario.texts 50) 2 Scenario.handler_ok (Some 1%Z)
                          Scenario.start))))
    [1 # 2; 3 # 1; 0]%Q =
  ["Feature 1"; "label"; "Feature 2"]%string.
Proof.
  destruct (run_interp_pipeline Scenario.ai_ok Scenario.rng_counter
              Scenario.sae_id Scenario.embeddings_dead (Scenario.texts 50) 2
              Scenario.handler_ok (Some 1%Z) Scenario.start)
    as [[w' evs] r] eqn:Hrun.
  destruct (labels_of_emitted_features _ _ _ _ _ _ _ _ _ _ _ _ Hrun) as [Hfound Hmissing].
  pose proof Hrun as Hc. vm_compute in Hc. injection Hc as _ Hevs _.
  cbn [snd fst].
  match type of Hevs with
  | (_ :: _ :: _ :: Handled ?f :: nil) = _ =>
      assert (Hin : In (Handled f) evs)
        by (rewrite <- Hevs; do 3 right; left; reflexivity);
      destruct (Hfound f Hin) as [_ Hlabel]
  end.
  cbn [index label] in Hlabel.
  assert (Hidx : map index (emitted evs) = [0]) by (rewrite <- Hevs; reflexivity).
  assert (H1 : ~ In 1 (map index (emitted evs))).
  { rewrite Hidx. intros [H|[]]. discriminate. }
  assert (H2 : ~ In 2 (map index (emitted evs))).
  { rewrite Hidx. intros [H|[]]. discriminate. }
  unfold top_5_labels.
  replace (top_5_indices [1 # 2; 3 # 1; 0]%Q) with [1; 0; 2] by reflexivity.
  cbn [map]. rewrite Hlabel, (Hmissing 1 H1), (Hmissing 2 H2). reflexivity.
Defined.

(** * The sentence file *)

Lemma div_1000_succ m :
  if S m mod 1000 =? 0 then S m / 1000 = S (m / 1000) /\ S m = 1000 * (S m / 1000)
  else S m / 1000 = m / 1000.
Proof.
  pose proof (Nat.div_mod_eq m 1000) as Hm.
  pose proof (Nat.div_mod_eq (S m) 1000) as Hs.
  pose proof (Nat.mod_upper_bound m 1000 ltac:(lia)) as Bm.
  pose proof (Nat.mod_upper_bound (S m) 1000 ltac:(lia)) as Bs.
  destruct (S m mod 1000 =? 0) eqn:E.
  - apply Nat.eqb_eq in E. lia.
  - apply Nat.eqb_neq in E. lia.
Qed.

Lemma write_sentence_progress st s :
  progress st = map (fun k => 1000 * k) (seq 1 (num_written st / 1000)) ->
  progress (write_sentence st s) =
  map (fun k => 1000 * k) (seq 1 (num_written (write_sentence st s) / 1000)).
Proof.
  intros Hp. unfold write_sentence. cbn [progress num_written].
  pose proof (div_1000_succ (num_written st)) as Hdiv.
  destruct (S (num_written st) mod 1000 =? 0).
  - destruct Hdiv as [Hq Hmul]. rewrite Hq in Hmul |- *.
    rewrite seq_S, map_app, Hp. cbn [map]. f_equal. f_equal. exact Hmul.
  - now rewrite Hdiv.
Qed.

Lemma write_sentences_spec sentences :
  forall st,
    progress st = map (fun k => 1000 * k) (seq 1 (num_written st / 1000)) ->
    let st' := fold_left write_sentence sentences st in
    num_written st' = num_written st + length sentences /\
    csv_rows st' = csv_rows st ++ map (fun s => [s]) sentences /\
    progress st' = map (fun k => 1000 * k) (seq 1 (num_written st' / 1000)).
Proof.
  induction sentences as [|s t IH]; intros st Hp; cbn [fold_left length map].
  - rewrite Nat.add_0_r, app_nil_r. auto.
  - destruct (IH (write_sentence st s) (write_sentence_progress st s Hp))
      as (Hn & Hr & Hpr).
    split; [|split; [|exact Hpr]].
    + rewrite Hn. unfold write_sentence. cbn [num_written]. lia.
    + rewrite Hr. unfold write_sentence at 1. cbn [csv_rows].
      rewrite <- app_assoc. reflexivity.
Qed.

Lemma chunk_dataset_flat (sent_tokenize : string -> list string) (texts : list string) :
  forall st,
    fold_left (fun st text => fold_left write_sentence (sent_tokenize text) st) texts st =
    fold_left write_sentence (flat_map sent_tokenize texts) st.
Proof.
  induction texts as [|text t IH]; intros st; simpl; [reflexivity|].
  now rewrite IH, fold_left_app.
Qed.

(** X18.  The sentence file written by [chunk_dataset.py] has the
    header row followed by one single-field row per sentence, in the
    order of the texts and of the sentences within each text;
    [num_written] ends as the number of sentences; and the progress
    lines printed are exactly the multiples of 1000 up to that number,
    in ascending order. *)
Theorem chunk_dataset_rows_and_progress
        (sent_tokenize : string -> list string) (texts : list string) :
  let st := chunk_dataset sent_tokenize texts in
  let sentences := flat_map sent_tokenize texts in
  csv_rows st = ["sentence"%string] :: map (fun s => [s]) sentences /\
  num_written st = length sentences /\
  progress st = map (fun k => 1000 * k) (seq 1 (length sentences / 1000)).
Proof.
  intros st sentences. unfold st, chunk_dataset. rewrite chunk_dataset_flat.
  destruct (write_sentences_spec (flat_map sent_tokenize texts)
              {| num_written := 0; csv_rows := [["sentence"%string]]; progress := [] |})
    as (Hn & Hr & Hp); [reflexivity|].
  cbn [num_written csv_rows] in Hn, Hr. fold sentences in Hn, Hr, Hp |- *.
  rewrite Hr, Hp, Hn. cbn [Nat.add app]. auto.
Qed.

(** * Calls to the service *)




Section Requests.
Context {W : Type} (ai : OpenAIClient W) (rng : RandomState W).
Variables (text_data : list string) (handler : Handler W).


Local Abbreviation body := (process_feature ai rng text_data handler).



End Requests.


